(** * keyrx worker scripts: optimize-worker.py and testgaps-worker.py

    A shallow embedding of the two incremental analysis workers under
    [.claude-flow/scripts/] and the properties of their rotation
    controller, pattern counters and threshold rules.

    Conventions of the embedding.
    - Python integers are [Z].
    - Text returned by [Path.read_text] is a [string]; the model covers
      ASCII text, so the character classes of [re] are their ASCII parts.
    - The file tree below [PROJECT_ROOT], the state file, the results file
      and the UTC clock form an explicit [world] that every effectful
      function threads; [print] traces are not part of the model, the
      object printed last by [main] is returned next to the exit code.
    - [a / b] on Python integers is the rational quotient.  CPython returns
      the nearest binary64 and compares an integer with it exactly; below
      2^53 that comparison and the one on rationals agree, and no count of
      matches in a file tree comes near that bound. *)

From Stdlib Require Import ZArith QArith List String Ascii Bool Lia Permutation.
From Stdlib Require Import DecimalString.
Import ListNotations.
Set Warnings "-register-all".
Open Scope string_scope.
Open Scope Z_scope.

(* ------------------------------------------------------------------ *)
(** ** Text helpers (the parts of [str] the scripts use) *)

Module Text.

Definition code (c : ascii) : nat := nat_of_ascii c.

Definition in_range (lo hi : nat) (c : ascii) : bool :=
  (lo <=? code c)%nat && (code c <=? hi)%nat.

(** [str.lower] on ASCII letters. *)
Definition lower_char (c : ascii) : ascii :=
  if in_range 65 90 c then ascii_of_nat (code c + 32) else c.

Fixpoint lower (s : string) : string :=
  match s with
  | EmptyString => EmptyString
  | String c s' => String (lower_char c) (lower s')
  end.

(** [needle in s] *)
Fixpoint contains (needle s : string) : bool :=
  if prefix needle s then true
  else match s with
       | EmptyString => false
       | String _ s' => contains needle s'
       end.

(** [x in l] for a list of strings. *)
Definition mem (x : string) (l : list string) : bool :=
  existsb (String.eqb x) l.

(** [str(n)] and the [{n}] of an f-string. *)
Definition str_of_Z (n : Z) : string := NilZero.string_of_int (Z.to_int n).

(** [str.splitlines]: the line boundaries of ASCII text are LF, CR, CRLF,
    VT, FF, FS, GS and RS; a final line without terminator counts when it
    is not empty. *)
Definition is_linebreak (c : ascii) : bool :=
  in_range 10 13 c || in_range 28 30 c.

Fixpoint rev_string (acc s : string) : string :=
  match s with
  | EmptyString => acc
  | String c s' => rev_string (String c acc) s'
  end.

Fixpoint splitlines_from (cur : string) (started : bool) (s : string)
  : list string :=
  match s with
  | EmptyString => if started then [rev_string "" cur] else []
  | String c s' =>
      if is_linebreak c then
        match s' with
        | String c' s'' =>
            if ((code c =? 13) && (code c' =? 10))%nat
            then rev_string "" cur :: splitlines_from "" false s''
            else rev_string "" cur :: splitlines_from "" false s'
        | EmptyString => [rev_string "" cur]
        end
      else splitlines_from (String c cur) true s'
  end.

Definition splitlines (s : string) : list string :=
  splitlines_from "" false s.

(** [s * n] *)
Fixpoint repeat_str (s : string) (n : nat) : string :=
  match n with
  | O => ""
  | S n' => s ++ repeat_str s n'
  end.

End Text.

(* ------------------------------------------------------------------ *)
(** ** Regular expressions: the fragment of [re] the patterns are written in *)

Module Re.

Inductive cclass :=
| Dot      (* .   any character but a newline *)
| Space    (* \s *)
| Word.    (* \w *)

Inductive regex :=
| Lit (s : string)          (* a run of literal (escaped) characters *)
| Star (c : cclass)         (* c*  greedy *)
| Plus (c : cclass)         (* c+  greedy *)
| WordB                     (* \b *)
| Seq (r1 r2 : regex)
| Alt (r1 r2 : regex).      (* r1|r2, also inside a group *)

Definition is_word (c : ascii) : bool :=
  Text.in_range 48 57 c || Text.in_range 65 90 c || Text.in_range 97 122 c
  || (Text.code c =? 95)%nat.

Definition is_space (c : ascii) : bool :=
  Text.in_range 9 13 c || Text.in_range 28 32 c.

Definition in_class (k : cclass) (c : ascii) : bool :=
  match k with
  | Dot => negb (Text.code c =? 10)%nat
  | Space => is_space c
  | Word => is_word c
  end.

(** A position in the subject: the character before it and the text from
    it on. *)
Definition pos : Type := option ascii * string.

Definition word_before (p : option ascii) : bool :=
  match p with Some c => is_word c | None => false end.

Definition word_after (s : string) : bool :=
  match s with String c _ => is_word c | EmptyString => false end.

Fixpoint lit (l : string) (prev : option ascii) (s : string) : option pos :=
  match l with
  | EmptyString => Some (prev, s)
  | String c l' =>
      match s with
      | String d s' => if Ascii.eqb c d then lit l' (Some d) s' else None
      | EmptyString => None
      end
  end.

(** Greedy repetition of one class, giving characters back one at a time
    when the rest of the pattern fails. *)
Fixpoint star (k : cclass) (prev : option ascii) (s : string)
  (cont : option ascii -> string -> option pos) : option pos :=
  match s with
  | String c s' =>
      if in_class k c then
        match star k (Some c) s' cont with
        | Some p => Some p
        | None => cont prev s
        end
      else cont prev s
  | EmptyString => cont prev s
  end.

(** Backtracking match of [r] at a position, [cont] being the rest of the
    pattern: alternatives are tried left to right. *)
Fixpoint exec (r : regex) (prev : option ascii) (s : string)
  (cont : option ascii -> string -> option pos) : option pos :=
  match r with
  | Lit l =>
      match lit l prev s with
      | Some (p, s') => cont p s'
      | None => None
      end
  | Star k => star k prev s cont
  | Plus k =>
      match s with
      | String c s' => if in_class k c then star k (Some c) s' cont else None
      | EmptyString => None
      end
  | WordB => if xorb (word_before prev) (word_after s) then cont prev s else None
  | Seq r1 r2 => exec r1 prev s (fun p s' => exec r2 p s' cont)
  | Alt r1 r2 =>
      match exec r1 prev s cont with
      | Some p => Some p
      | None => exec r2 prev s cont
      end
  end.

(** [match_at r prev s]: the number of characters the match of [r] that
    starts here consumes, if there is one. *)
Definition match_at (r : regex) (prev : option ascii) (s : string) : option nat :=
  match exec r prev s (fun p s' => Some (p, s')) with
  | Some (_, rest) => Some (String.length s - String.length rest)%nat
  | None => None
  end.

(** [len(re.findall(r, s))]: non-overlapping matches, scanning from the
    left; [skip] counts the characters still covered by the last match.
    No pattern of the scripts matches the empty string. *)
Fixpoint scan (r : regex) (prev : option ascii) (skip : nat) (s : string) : nat :=
  match skip with
  | S skip' =>
      match s with
      | String c s' => scan r (Some c) skip' s'
      | EmptyString => O
      end
  | O =>
      match match_at r prev s with
      | Some n =>
          match s with
          | String c s' => S (scan r (Some c) (Nat.pred n) s')
          | EmptyString => 1%nat
          end
      | None =>
          match s with
          | String c s' => scan r (Some c) O s'
          | EmptyString => O
          end
      end
  end.

Definition findall_len (r : regex) (s : string) : nat := scan r None O s.

(** The least number of characters a match of [r] consumes. *)
Fixpoint min_len (r : regex) : nat :=
  match r with
  | Lit l => String.length l
  | Star _ => 0
  | Plus _ => 1
  | WordB => 0
  | Seq r1 r2 => min_len r1 + min_len r2
  | Alt r1 r2 => Nat.min (min_len r1) (min_len r2)
  end.

End Re.

(* ------------------------------------------------------------------ *)
(** ** The file tree and [pathlib] *)

Module Fs.

(** What is on disk at a path: a file, with the text [read_text] returns
    for it ([None] when reading raises), or a directory with its entries
    in the order the operating system lists them. *)
Inductive node :=
| File (text : option string)
| Dir (entries : list (string * node)).

(** A path is the list of its components below [PROJECT_ROOT]. *)
Definition path : Type := list string.

(** [PROJECT_ROOT / name]: a name may hold several components
    ("keyrx_ui/src"). *)
Fixpoint split_from (cur : string) (s : string) : list string :=
  match s with
  | EmptyString => [Text.rev_string "" cur]
  | String c s' =>
      if (Text.code c =? 47)%nat
      then Text.rev_string "" cur :: split_from "" s'
      else split_from (String c cur) s'
  end.

Definition under_root (name : string) : path :=
  filter (fun c => negb (String.eqb c "")) (split_from "" name).

(** [p / name] for a single component. *)
Definition child (p : path) (name : string) : path := (p ++ [name])%list.

Fixpoint assoc (name : string) (es : list (string * node)) : option node :=
  match es with
  | [] => None
  | (n, x) :: es' => if String.eqb n name then Some x else assoc name es'
  end.

Fixpoint lookup (root : node) (p : path) : option node :=
  match p with
  | [] => Some root
  | c :: p' =>
      match root with
      | Dir es =>
          match assoc c es with
          | Some x => lookup x p'
          | None => None
          end
      | File _ => None
      end
  end.

(** [p.exists()] *)
Definition exists_ (root : node) (p : path) : bool :=
  match lookup root p with Some _ => true | None => false end.

(** An entry yielded by a traversal: its final component and what is on
    disk there. *)
Definition entry : Type := (string * node)%type.

Definition is_file (e : entry) : bool :=
  match snd e with File _ => true | Dir _ => false end.

Definition read_text (e : entry) : option string :=
  match snd e with File t => t | Dir _ => None end.

(** [PurePath.suffix]: the final component from its last dot on, when that
    dot is neither its first nor its last character. *)
Fixpoint rfind_dot (s : string) : option nat :=
  match s with
  | EmptyString => None
  | String c s' =>
      match rfind_dot s' with
      | Some i => Some (S i)
      | None => if (Text.code c =? 46)%nat then Some O else None
      end
  end.

Definition suffix (e : entry) : string :=
  let name := fst e in
  match rfind_dot name with
  | Some i =>
      if ((0 <? i) && (i <? String.length name - 1))%nat
      then substring i (String.length name - i) name
      else ""
  | None => ""
  end.

(** Everything below a node, directories before their contents. *)
Fixpoint walk (n : node) : list entry :=
  match n with
  | File _ => []
  | Dir es =>
      (fix each (l : list (string * node)) : list entry :=
         match l with
         | [] => []
         | (name, x) :: l' => (name, x) :: (walk x ++ each l')%list
         end) es
  end.

(** [Path(p).rglob("*")]: nothing when [p] is missing or is a file. *)
Definition rglob (root : node) (p : path) : list entry :=
  match lookup root p with
  | Some n => walk n
  | None => []
  end.

End Fs.

(* ------------------------------------------------------------------ *)
(** ** Python integers, lists and dicts *)

Module Py.

Definition len {A} (l : list A) : Z := Z.of_nat (List.length l).

(** [l[i]]: negative indices count from the end, anything outside
    [-len, len) raises IndexError. *)
Definition index {A} (l : list A) (i : Z) : option A :=
  if (0 <=? i) && (i <? len l) then nth_error l (Z.to_nat i)
  else if (- len l <=? i) && (i <? 0) then nth_error l (Z.to_nat (len l + i))
  else None.

(** [a / b] on integers. *)
Definition true_div (a b : Z) : Q := inject_Z a / inject_Z b.

(** [n < q] for an integer and a quotient. *)
Definition lt_quot (n : Z) (q : Q) : bool := negb (Qle_bool q (inject_Z n)).

(** [d[k] = v] on a dict in insertion order. *)
Fixpoint dict_set (d : list (string * Z)) (k : string) (v : Z) : list (string * Z) :=
  match d with
  | [] => [(k, v)]
  | (k', v') :: d' =>
      if String.eqb k' k then (k', v) :: d' else (k', v') :: dict_set d' k v
  end.

Fixpoint dict_get (d : list (string * Z)) (k : string) : option Z :=
  match d with
  | [] => None
  | (k', v) :: d' => if String.eqb k' k then Some v else dict_get d' k
  end.

End Py.

(* ------------------------------------------------------------------ *)
(** ** The world a worker runs in *)

(** The rotation state kept in the state file.  [completed] is the key
    "completed_modules" of optimize-progress.json and "completed_crates"
    of testgaps-progress.json. *)
Record state := mk_state {
  current_index : Z;
  completed : list string;
  last_analyzed : option string
}.

Definition set_current_index (st : state) (i : Z) : state :=
  mk_state i (completed st) (last_analyzed st).

Definition set_last_analyzed (st : state) (t : string) : state :=
  mk_state (current_index st) (completed st) (Some t).

Definition append_completed (st : state) (u : string) : state :=
  mk_state (current_index st) (completed st ++ [u])%list (last_analyzed st).

(** [R] is the type of the records of the results file. *)
Record world (R : Type) := mk_world {
  project : Fs.node;            (* the tree below PROJECT_ROOT *)
  state_file : option state;    (* STATE_FILE, [None] when it is missing *)
  results_file : list R;        (* the lines of RESULTS_FILE *)
  saves : list state;           (* every state written by save_state, oldest first *)
  now_utc : nat -> string;      (* the ISO time of the n-th reading of the clock *)
  ticks : nat                   (* clock readings so far *)
}.
Arguments mk_world {R}.
Arguments project {R}.
Arguments state_file {R}.
Arguments results_file {R}.
Arguments saves {R}.
Arguments now_utc {R}.
Arguments ticks {R}.

Inductive exn := IndexError.

Inductive outcome (A : Type) :=
| Ok (a : A)
| Raised (e : exn).
Arguments Ok {A}.
Arguments Raised {A}.

(** Computations over the world that return or raise. *)
Definition M (R A : Type) : Type := world R -> outcome A * world R.

Definition ret {R A} (a : A) : M R A := fun w => (Ok a, w).

Definition bind {R A B} (c : M R A) (k : A -> M R B) : M R B :=
  fun w =>
    match c w with
    | (Ok a, w') => k a w'
    | (Raised e, w') => (Raised e, w')
    end.

Definition raise {R A} (e : exn) : M R A := fun w => (Raised e, w).

Declare Scope worker_scope.
Delimit Scope worker_scope with worker.
Notation "x <- c ;; k" := (bind c (fun x => k))
  (at level 61, c at next level, right associativity) : worker_scope.
Notation "c ;;; k" := (bind c (fun _ => k))
  (at level 61, right associativity) : worker_scope.
Open Scope worker_scope.

(** [datetime.now(timezone.utc).isoformat()] *)
Definition utc_now {R} : M R string :=
  fun w => (Ok (now_utc w (ticks w)),
            mk_world (project w) (state_file w) (results_file w) (saves w)
                     (now_utc w) (S (ticks w))).

(** [with open(RESULTS_FILE, 'a') as f: f.write(json.dumps(r) + '\n')] *)
Definition append_result {R} (r : R) : M R unit :=
  fun w => (Ok tt,
            mk_world (project w) (state_file w) (results_file w ++ [r])%list (saves w)
                     (now_utc w) (ticks w)).

Definition get_project {R} : M R Fs.node := fun w => (Ok (project w), w).

(* ------------------------------------------------------------------ *)
(** ** Rotation state and controller (the same in both scripts) *)

Module Rotation.

(** [save_state]: rewrite the state file. *)
Definition save_state {R} (st : state) : M R unit :=
  fun w => (Ok tt,
            mk_world (project w) (Some st) (results_file w) (saves w ++ [st])%list
                     (now_utc w) (ticks w)).

(** [get_state]: read the state file, creating it on the first run. *)
Definition get_state {R} : M R state :=
  fun w =>
    match state_file w with
    | None =>
        let st := mk_state 0 [] None in
        (save_state st ;;; ret st) w
    | Some st => (Ok st, w)
    end.

Section Controller.

Context {R Res : Type}.
Variable UNITS : list string.              (* MODULES, CRATES *)
Variable analyze : string -> M R Res.      (* analyze_module, analyze_crate *)
Variable success : Res -> bool.            (* result.get("success", False) *)

(** "Wrap around if needed": the index the run works with, and the state
    after the assignment in the branch. *)
Definition wrap (st : state) : Z * state :=
  if current_index st >=? Py.len UNITS
  then (0, set_current_index st 0)
  else (current_index st, st).

(** [UNITS[current_index]] *)
Definition select (current_index : Z) : M R string :=
  match Py.index UNITS current_index with
  | Some u => ret u
  | None => raise IndexError
  end.

(** "Update state": the three assignments before [save_state]. *)
Definition update (st : state) (current_index : Z) (unit_name now : string) : state :=
  let st := set_current_index st ((current_index + 1) mod Py.len UNITS) in
  let st := set_last_analyzed st now in
  if negb (Text.mem unit_name (completed st))
  then append_completed st unit_name
  else st.

Definition main : M R (Z * Res) :=
  st <- get_state ;;
  let '(current_index, st) := wrap st in
  unit_name <- select current_index ;;
  result <- analyze unit_name ;;
  now <- utc_now ;;
  save_state (update st current_index unit_name now) ;;;
  ret (if success result then 0 else 1, result).

(** [n] invocations of the worker one after the other, each a process of
    its own: what each left, oldest first, and the world after the last. *)
Fixpoint invoke (n : nat) (w : world R) : list (outcome (Z * Res)) * world R :=
  match n with
  | O => ([], w)
  | S n' =>
      let '(o, w') := main w in
      let '(os, w'') := invoke n' w' in
      (o :: os, w'')
  end.

End Controller.

End Rotation.

(** The object a run printed before it returned. *)
Definition printed {Res} (o : outcome (Z * Res)) : option Res :=
  match o with Ok (_, r) => Some r | Raised _ => None end.

(* ------------------------------------------------------------------ *)
(** ** Advisories: suggestions and gaps *)

Inductive level := low | medium | high.

Record advisory := mk_advisory {
  type : string;
  severity : level;
  count : option Z;
  suggestion : string
}.

(** The advisories of a given type in a list. *)
Definition of_type (t : string) (l : list advisory) : list advisory :=
  filter (fun a => String.eqb (type a) t) l.

(* ------------------------------------------------------------------ *)
(** ** optimize-worker.py *)

Module Optimize.

Import Re.

Definition MODULES : list string :=
  ["keyrx_core"; "keyrx_daemon"; "keyrx_compiler"; "keyrx_ui/src"].

(** The patterns, as written in [analyze_module]. *)
Definition clone_re : regex := Lit ".clone()".                (* \.clone\(\) *)
Definition string_alloc_re : regex :=                          (* String::from|to_string\(\) *)
  Alt (Lit "String::from") (Lit "to_string()").
Definition n_plus_one_re : regex :=                            (* (for|while).*\.(query|execute) *)
  Seq (Alt (Lit "for") (Lit "while"))
      (Seq (Star Dot) (Seq (Lit ".") (Alt (Lit "query") (Lit "execute")))).
Definition callbacks_re : regex :=                             (* (function|const\s+\w+\s*=) *)
  Alt (Lit "function")
      (Seq (Lit "const") (Seq (Plus Space) (Seq (Plus Word) (Seq (Star Space) (Lit "="))))).
Definition memoized_re : regex :=                              (* (useCallback|useMemo|React\.memo) *)
  Alt (Lit "useCallback") (Alt (Lit "useMemo") (Lit "React.memo")).
Definition inline_objects_re : regex :=                        (* =\{|\=\[ *)
  Alt (Lit "={") (Lit "=[").
Definition async_re : regex :=                                 (* async (fn|function) *)
  Seq (Lit "async ") (Alt (Lit "fn") (Lit "function")).
Definition await_re : regex :=                                 (* \bawait\b *)
  Seq WordB (Seq (Lit "await") WordB).

Definition source_suffixes : list string := [".rs"; ".ts"; ".tsx"; ".js"; ".jsx"].

(** The body of the loop of [count_patterns]: what one entry adds. *)
Definition count_step (pattern : regex) (count : Z) (e : Fs.entry) : Z :=
  if Fs.is_file e && Text.mem (Fs.suffix e) source_suffixes then
    match Fs.read_text e with
    | Some content => count + Z.of_nat (findall_len pattern content)
    | None => count                     (* except Exception: pass *)
    end
  else count.

Definition count_patterns (fs : Fs.node) (module_path : Fs.path) (pattern : regex) : Z :=
  fold_left (count_step pattern) (Fs.rglob fs module_path) 0.

(** A line of optimize-results.jsonl. *)
Record record := mk_record {
  timestamp : string;
  module : string;
  suggestionCount : Z;
  suggestions : list advisory;
  metrics : list (string * Z)
}.

(** The object [analyze_module] returns. *)
Inductive result :=
| Failure (module error : string)
| Success (module : string) (suggestionCount : Z) (metrics : list (string * Z))
          (message : string).

Definition success (r : result) : bool :=
  match r with Success _ _ _ _ => true | Failure _ _ => false end.

Definition result_module (r : result) : string :=
  match r with Success m _ _ _ => m | Failure m _ => m end.

(** The rules: what each block of [analyze_module] appends to
    [suggestions] for the counts it measured. *)

Definition excessive_clones (clone_count : Z) : list advisory :=
  if clone_count >? 50 then
    [mk_advisory "excessive-clones" medium (Some clone_count)
       ("Found " ++ Text.str_of_Z clone_count
        ++ " .clone() calls. Review for unnecessary memory allocations.")]
  else [].

Definition string_allocations (string_alloc : Z) : list advisory :=
  if string_alloc >? 100 then
    [mk_advisory "string-allocations" low (Some string_alloc)
       ("Found " ++ Text.str_of_Z string_alloc
        ++ " string allocations. Consider using &str or Cow<str>.")]
  else [].

Definition n_plus_one_query (n_plus_one : Z) : list advisory :=
  if n_plus_one >? 0 then
    [mk_advisory "n+1-query" high (Some n_plus_one)
       ("Found " ++ Text.str_of_Z n_plus_one
        ++ " potential N+1 query patterns. Use batch queries or joins.")]
  else [].

Definition missing_memoization (callbacks memoized : Z) : list advisory :=
  if (callbacks >? 20) && Py.lt_quot memoized (Py.true_div callbacks 4) then
    [mk_advisory "missing-memoization" medium None
       ("Only " ++ Text.str_of_Z memoized ++ " memoized out of "
        ++ Text.str_of_Z callbacks ++ " functions. Use useCallback/useMemo.")]
  else [].

Definition inline_objects (inline_count : Z) : list advisory :=
  if inline_count >? 50 then
    [mk_advisory "inline-objects" low (Some inline_count)
       ("Found " ++ Text.str_of_Z inline_count
        ++ " inline objects/arrays. May cause re-renders.")]
  else [].

Definition sequential_awaits (async_count await_count : Z) : list advisory :=
  if (async_count >? 10) && (await_count >? async_count * 5) then
    [mk_advisory "sequential-awaits" medium None
       "Potential sequential awaits detected. Consider Promise.all() for parallel operations."]
  else [].

(** [if "ui" in module_name.lower()] *)
Definition is_ui (module_name : string) : bool :=
  Text.contains "ui" (Text.lower module_name).

(** The React-specific block, entered for "ui" modules only: it measures
    three more counts and may append two more suggestions. *)
Definition react_checks (fs : Fs.node) (module_path : Fs.path)
  (acc : list advisory * list (string * Z)) : list advisory * list (string * Z) :=
  let '(suggestions, metrics) := acc in
  let callbacks := count_patterns fs module_path callbacks_re in
  let memoized := count_patterns fs module_path memoized_re in
  let metrics := Py.dict_set metrics "callbacks" callbacks in
  let metrics := Py.dict_set metrics "memoized" memoized in
  let suggestions := (suggestions ++ missing_memoization callbacks memoized)%list in
  let inline_count := count_patterns fs module_path inline_objects_re in
  let metrics := Py.dict_set metrics "inline_objects" inline_count in
  let suggestions := (suggestions ++ inline_objects inline_count)%list in
  (suggestions, metrics).

(** Everything [analyze_module] computes from the tree for a module that
    exists: the suggestions in order, and the metrics. *)
Definition inspect (fs : Fs.node) (module_name : string)
  : list advisory * list (string * Z) :=
  let module_path := Fs.under_root module_name in
  let suggestions := [] in
  let metrics := [] in
  (* 1. Check for excessive clones *)
  let clone_count := count_patterns fs module_path clone_re in
  let metrics := Py.dict_set metrics "clones" clone_count in
  let suggestions := (suggestions ++ excessive_clones clone_count)%list in
  (* 2. Check for string allocations *)
  let string_alloc := count_patterns fs module_path string_alloc_re in
  let metrics := Py.dict_set metrics "string_allocations" string_alloc in
  let suggestions := (suggestions ++ string_allocations string_alloc)%list in
  (* 3. Check for N+1 patterns *)
  let n_plus_one := count_patterns fs module_path n_plus_one_re in
  let metrics := Py.dict_set metrics "potential_n_plus_one" n_plus_one in
  let suggestions := (suggestions ++ n_plus_one_query n_plus_one)%list in
  (* 4. React-specific checks *)
  let '(suggestions, metrics) :=
    if is_ui module_name
    then react_checks fs module_path (suggestions, metrics)
    else (suggestions, metrics) in
  (* 5. Async patterns *)
  let async_count := count_patterns fs module_path async_re in
  let await_count := count_patterns fs module_path await_re in
  let metrics := Py.dict_set metrics "async_functions" async_count in
  let metrics := Py.dict_set metrics "awaits" await_count in
  let suggestions := (suggestions ++ sequential_awaits async_count await_count)%list in
  (suggestions, metrics).

Definition analyze_module (module_name : string) : M record result :=
  fs <- get_project ;;
  let module_path := Fs.under_root module_name in
  if negb (Fs.exists_ fs module_path) then
    ret (Failure module_name "Module not found")
  else
    let '(suggestions, metrics) := inspect fs module_name in
    (* Build result *)
    now <- utc_now ;;
    let result := mk_record now module_name (Py.len suggestions) suggestions metrics in
    (* Append to results file *)
    append_result result ;;;
    ret (Success module_name (Py.len suggestions) metrics
           ("Analyzed " ++ module_name ++ ": found "
            ++ Text.str_of_Z (Py.len suggestions) ++ " optimization opportunities")).

Definition main : M record (Z * result) :=
  Rotation.main MODULES analyze_module success.

(** Consecutive runs of the worker. *)
Definition invoke (n : nat) (w : world record)
  : list (outcome (Z * result)) * world record :=
  Rotation.invoke MODULES analyze_module success n w.

End Optimize.

(* ------------------------------------------------------------------ *)
(** ** testgaps-worker.py *)

Module TestGaps.

Import Re.

Definition CRATES : list string :=
  ["keyrx_core"; "keyrx_daemon"; "keyrx_compiler"].

(** The patterns, as written in [analyze_crate].  They are compiled with
    re.MULTILINE, which changes only the anchors, and none has one. *)
Definition pub_fn_re : regex :=                                (* pub\s+fn\s+ *)
  Seq (Lit "pub") (Seq (Plus Space) (Seq (Lit "fn") (Plus Space))).
Definition test_attr_re : regex := Lit "#[test]".              (* #\[test\] *)
Definition result_re : regex := Lit "Result<".                 (* Result< *)
Definition error_test_re : regex :=                            (* (should_panic|expect_err|is_err|unwrap_err) *)
  Alt (Lit "should_panic") (Alt (Lit "expect_err") (Alt (Lit "is_err") (Lit "unwrap_err"))).
Definition doc_test_re : regex := Lit "```rust".               (* ```rust *)

(** [if extensions is None: extensions = ['.rs']] *)
Definition default_extensions (extensions : option (list string)) : list string :=
  match extensions with
  | None => [".rs"]
  | Some l => l
  end.

(** The body of the loop of [count_in_files]. *)
Definition count_step (pattern : regex) (extensions : list string)
  (count : Z) (e : Fs.entry) : Z :=
  if Fs.is_file e && Text.mem (Fs.suffix e) extensions then
    match Fs.read_text e with
    | Some content => count + Z.of_nat (findall_len pattern content)
    | None => count                     (* except Exception: pass *)
    end
  else count.

Definition count_in_files (fs : Fs.node) (path : Fs.path) (pattern : regex)
  (extensions : option (list string)) : Z :=
  let extensions := default_extensions extensions in
  fold_left (count_step pattern extensions) (Fs.rglob fs path) 0.

(** [count_files], whose glob is "*" at its only call. *)
Definition count_files (fs : Fs.node) (path : Fs.path)
  (extensions : option (list string)) : Z :=
  let extensions := default_extensions extensions in
  fold_left
    (fun count e =>
       if Fs.is_file e && Text.mem (Fs.suffix e) extensions
       then count + 1 else count)
    (Fs.rglob fs path) 0.

Definition count_lines (fs : Fs.node) (path : Fs.path)
  (extensions : option (list string)) : Z :=
  let extensions := default_extensions extensions in
  fold_left
    (fun lines e =>
       if Fs.is_file e && Text.mem (Fs.suffix e) extensions then
         match Fs.read_text e with
         | Some content => lines + Py.len (Text.splitlines content)
         | None => lines                (* except Exception: pass *)
         end
       else lines)
    (Fs.rglob fs path) 0.

(** A line of testgaps-results.jsonl. *)
Record record := mk_record {
  timestamp : string;
  crate : string;
  gapCount : Z;
  estimatedCoverage : Z;
  gaps : list advisory;
  metrics : list (string * Z)
}.

(** The object [analyze_crate] returns. *)
Inductive result :=
| Failure (crate error : string)
| Success (crate : string) (gapCount : Z) (estimatedCoverage : Z)
          (metrics : list (string * Z)) (message : string).

Definition success (r : result) : bool :=
  match r with Success _ _ _ _ _ => true | Failure _ _ => false end.

Definition result_crate (r : result) : string :=
  match r with Success c _ _ _ _ => c | Failure c _ => c end.

(** The rules: what each block of [analyze_crate] appends to [gaps]. *)

Definition untested_functions (pub_fn_count test_fn_count : Z) : list advisory :=
  if (pub_fn_count >? 0) && Py.lt_quot test_fn_count (Py.true_div pub_fn_count 2) then
    [mk_advisory "untested-functions" high None
       (Text.str_of_Z pub_fn_count ++ " public functions but only "
        ++ Text.str_of_Z test_fn_count ++ " tests. Add more unit tests.")]
  else [].

Definition missing_error_tests (result_count error_test_count : Z) : list advisory :=
  if (result_count >? 0) && Py.lt_quot error_test_count (Py.true_div result_count 3) then
    [mk_advisory "missing-error-tests" high None
       (Text.str_of_Z result_count ++ " Result types but only "
        ++ Text.str_of_Z error_test_count ++ " error tests. Add error path testing.")]
  else [].

Definition missing_integration_tests (integration_tests : Z) : list advisory :=
  if integration_tests <? 3 then
    [mk_advisory "missing-integration-tests" medium None
       ("Only " ++ Text.str_of_Z integration_tests
        ++ " integration test files. Add more end-to-end tests.")]
  else [].

Definition missing_doc_tests (doc_tests : Z) : list advisory :=
  if doc_tests <? 5 then
    [mk_advisory "missing-doc-tests" low None
       ("Only " ++ Text.str_of_Z doc_tests
        ++ " documentation tests. Add examples to public APIs.")]
  else [].

(** [(test_lines * 100 // source_lines) if source_lines > 0 else 0] *)
Definition estimated_coverage (source_lines test_lines : Z) : Z :=
  if source_lines >? 0 then test_lines * 100 / source_lines else 0.

(** The counts [analyze_crate] measures for a crate that exists. *)
Record measures := mk_measures {
  pub_fn_count : Z;
  test_fn_count : Z;
  result_count : Z;
  error_test_count : Z;
  integration_tests : Z;
  doc_tests : Z;
  source_lines : Z;
  test_lines : Z
}.

Definition measure (fs : Fs.node) (crate_name : string) : measures :=
  let crate_path := Fs.under_root crate_name in
  let src_path := Fs.child crate_path "src" in
  let tests_path := Fs.child crate_path "tests" in
  mk_measures
    (count_in_files fs src_path pub_fn_re None)
    (count_in_files fs tests_path test_attr_re None)
    (count_in_files fs src_path result_re None)
    (count_in_files fs tests_path error_test_re None)
    (if Fs.exists_ fs tests_path then count_files fs tests_path None else 0)
    (count_in_files fs src_path doc_test_re None)
    (count_lines fs src_path None)
    (if Fs.exists_ fs tests_path then count_lines fs tests_path None else 0).

(** The gaps, in the order the blocks append them. *)
Definition find_gaps (m : measures) : list advisory :=
  (untested_functions (pub_fn_count m) (test_fn_count m)
   ++ missing_error_tests (result_count m) (error_test_count m)
   ++ missing_integration_tests (integration_tests m)
   ++ missing_doc_tests (doc_tests m))%list.

(** The metrics dict, in the order its keys are set. *)
Definition metrics_of (m : measures) : list (string * Z) :=
  let metrics := [] in
  let metrics := Py.dict_set metrics "public_functions" (pub_fn_count m) in
  let metrics := Py.dict_set metrics "test_functions" (test_fn_count m) in
  let metrics := Py.dict_set metrics "result_types" (result_count m) in
  let metrics := Py.dict_set metrics "error_tests" (error_test_count m) in
  let metrics := Py.dict_set metrics "integration_tests" (integration_tests m) in
  let metrics := Py.dict_set metrics "doc_tests" (doc_tests m) in
  let metrics := Py.dict_set metrics "source_lines" (source_lines m) in
  let metrics := Py.dict_set metrics "test_lines" (test_lines m) in
  Py.dict_set metrics "estimated_coverage"
    (estimated_coverage (source_lines m) (test_lines m)).

Definition analyze_crate (crate_name : string) : M record result :=
  fs <- get_project ;;
  let crate_path := Fs.under_root crate_name in
  if negb (Fs.exists_ fs crate_path) then
    ret (Failure crate_name "Crate not found")
  else
    let m := measure fs crate_name in
    let gaps := find_gaps m in
    let metrics := metrics_of m in
    let coverage := estimated_coverage (source_lines m) (test_lines m) in
    (* Build result *)
    now <- utc_now ;;
    let result := mk_record now crate_name (Py.len gaps) coverage gaps metrics in
    (* Append to results file *)
    append_result result ;;;
    ret (Success crate_name (Py.len gaps) coverage metrics
           ("Analyzed " ++ crate_name ++ ": ~" ++ Text.str_of_Z coverage
            ++ "% coverage, found " ++ Text.str_of_Z (Py.len gaps) ++ " gaps")).

Definition main : M record (Z * result) :=
  Rotation.main CRATES analyze_crate success.

(** Consecutive runs of the worker. *)
Definition invoke (n : nat) (w : world record)
  : list (outcome (Z * result)) * world record :=
  Rotation.invoke CRATES analyze_crate success n w.

End TestGaps.

(* ------------------------------------------------------------------ *)
(** ** Sample worlds *)

Module Samples.

Definition clock (n : nat) : string := "2026-01-01T00:00:00+00:00".

(** A world before any run of a worker: nothing logged, the state file as
    given. *)
Definition fresh {R} (fs : Fs.node) (st : option state) : world R :=
  mk_world fs st [] [] clock 0.

(** A state file holding index [i] and nothing else. *)
Definition at_index (i : Z) : option state := Some (mk_state i [] None).

(** A project root without any of the units. *)
Definition bare : Fs.node := Fs.Dir [].

(** A project root whose unit [name] holds one readable source file. *)
Definition one_file (name file text : string) : Fs.node :=
  Fs.Dir [(name, Fs.Dir [(file, Fs.File (Some text))])].

(** A crate with one file under src and one under tests. *)
Definition crate_tree (name src_text tests_text : string) : Fs.node :=
  Fs.Dir [(name, Fs.Dir [("src", Fs.Dir [("lib.rs", Fs.File (Some src_text))]);
                         ("tests", Fs.Dir [("it.rs", Fs.File (Some tests_text))])])].

(** Two source files, and unit directories holding one, the other, and
    both. *)
Definition file_a : string * Fs.node :=
  ("a.rs", Fs.File (Some "let x = y.clone(); let z = x.clone();")).
Definition file_b : string * Fs.node :=
  ("b.ts", Fs.File (Some "const v = w.clone();")).
Definition unit_with (name : string) (files : list (string * Fs.node)) : Fs.node :=
  Fs.Dir [(name, Fs.Dir files)].

(** The directory keyrx_ui/src holding one component file. *)
Definition ui_tree (text : string) : Fs.node :=
  Fs.Dir [("keyrx_ui", Fs.Dir [("src", Fs.Dir [("App.tsx", Fs.File (Some text))])])].

(** 51 JSX attributes with an inline object. *)
Definition inline_51 : string := Text.repeat_str "<a b={c}/>" 51.

(** 51 clone calls. *)
Definition clones_51 : string := Text.repeat_str "v.clone();" 51.

(** [n] async functions and 56 awaits. *)
Definition async_text (n : nat) : string :=
  Text.repeat_str "async fn f() {} " n ++ Text.repeat_str "g().await; " 56.

(** Ten public functions under src. *)
Definition ten_pub_fns : string := Text.repeat_str "pub fn f() {} " 10.

(** [n] test functions under tests. *)
Definition tests (n : nat) : string := Text.repeat_str "#[test] fn t() {} " n.

End Samples.

(* ================================================================== *)
(** * Properties *)

Open Scope list_scope.

(** ** Matches are never empty *)

Module ReFacts.

Import Re.

(** What a continuation promises: the match it completes ends at least
    [m] characters after the position it is entered at. *)
Definition consumes (m : nat) (cont : option ascii -> string -> option pos) : Prop :=
  forall p s q rest,
    cont p s = Some (q, rest) -> (String.length rest + m <= String.length s)%nat.

Lemma lit_consumes (l : string) : forall prev s q rest,
  lit l prev s = Some (q, rest) ->
  String.length s = (String.length l + String.length rest)%nat.
Proof.
  induction l as [| c l IH]; intros prev s q rest H; cbn in H.
  - inversion H; subst. reflexivity.
  - destruct s as [| d s]; [discriminate |].
    destruct (Ascii.eqb c d); [| discriminate].
    apply IH in H. cbn. lia.
Qed.

Lemma star_consumes (k : cclass) (m : nat) cont :
  consumes m cont ->
  forall s prev q rest,
    star k prev s cont = Some (q, rest) ->
    (String.length rest + m <= String.length s)%nat.
Proof.
  intros Hc. induction s as [| c s IH]; intros prev q rest H; cbn in H.
  - apply Hc in H. exact H.
  - destruct (in_class k c).
    + destruct (star k (Some c) s cont) as [[q' rest'] |] eqn:E.
      * inversion H; subst. apply IH in E. cbn. lia.
      * apply Hc in H. exact H.
    + apply Hc in H. exact H.
Qed.

Lemma exec_consumes (r : regex) : forall (m : nat) cont,
  consumes m cont ->
  forall prev s q rest,
    exec r prev s cont = Some (q, rest) ->
    (String.length rest + m + min_len r <= String.length s)%nat.
Proof.
  induction r as [l | k | k | | r1 IH1 r2 IH2 | r1 IH1 r2 IH2];
    intros m cont Hc prev s q rest H; cbn in H; cbn [min_len].
  - destruct (lit l prev s) as [[p s'] |] eqn:E; [| discriminate].
    apply lit_consumes in E. apply Hc in H. lia.
  - apply (star_consumes k m cont Hc) in H. lia.
  - destruct s as [| c s]; [discriminate |].
    destruct (in_class k c); [| discriminate].
    apply (star_consumes k m cont Hc) in H. cbn. lia.
  - destruct (xorb _ _); [| discriminate]. apply Hc in H. lia.
  - apply (IH1 (m + min_len r2)%nat) in H; [lia |].
    intros p s' q' rest' H'. apply (IH2 m cont Hc) in H'. lia.
  - destruct (exec r1 prev s cont) as [[q' rest'] |] eqn:E.
    + inversion H; subst. apply (IH1 m cont Hc) in E. lia.
    + apply (IH2 m cont Hc) in H. lia.
Qed.

(** A match consumes at least [min_len] characters. *)
Lemma match_at_consumes (r : regex) (prev : option ascii) (s : string) (n : nat) :
  match_at r prev s = Some n -> (min_len r <= n <= String.length s)%nat.
Proof.
  unfold match_at.
  destruct (exec r prev s (fun p s' => Some (p, s'))) as [[q rest] |] eqn:E;
    [| discriminate].
  intros H. inversion H; subst. clear H.
  apply (exec_consumes r 0) in E; [lia |].
  intros p s' q' rest' H. inversion H; subst. lia.
Qed.

(** No pattern of the two scripts matches the empty string. *)
Lemma script_patterns_consume :
  Forall (fun r => (1 <= min_len r)%nat)
    [Optimize.clone_re; Optimize.string_alloc_re; Optimize.n_plus_one_re;
     Optimize.callbacks_re; Optimize.memoized_re; Optimize.inline_objects_re;
     Optimize.async_re; Optimize.await_re;
     TestGaps.pub_fn_re; TestGaps.test_attr_re; TestGaps.result_re;
     TestGaps.error_test_re; TestGaps.doc_test_re].
Proof. repeat constructor; cbn; lia. Qed.

End ReFacts.

(** ** Python indexing *)

Lemma index_in_range {A} (l : list A) (i : Z) :
  0 <= i < Py.len l -> Py.index l i = nth_error l (Z.to_nat i).
Proof.
  intros Hi. unfold Py.index.
  destruct (0 <=? i) eqn:E1; [| lia].
  destruct (i <? Py.len l) eqn:E2; [reflexivity | lia].
Qed.

Lemma index_negative {A} (l : list A) (i : Z) :
  - Py.len l <= i < 0 -> Py.index l i = nth_error l (Z.to_nat (Py.len l + i)).
Proof.
  intros Hi. unfold Py.index.
  destruct (0 <=? i) eqn:E1; [lia |]. cbn [andb].
  destruct (- Py.len l <=? i) eqn:E2; [| lia].
  destruct (i <? 0) eqn:E3; [reflexivity | lia].
Qed.

Lemma index_below {A} (l : list A) (i : Z) :
  i < - Py.len l -> Py.index l i = None.
Proof.
  intros Hi. unfold Py.index. pose proof (Zle_0_nat (List.length l)) as Hl.
  unfold Py.len in *.
  destruct (0 <=? i) eqn:E1; [lia |]. cbn [andb].
  destruct (- Z.of_nat (List.length l) <=? i) eqn:E2; [lia | reflexivity].
Qed.

Lemma nth_error_defined {A} (l : list A) (n : nat) :
  (n < List.length l)%nat -> exists x, nth_error l n = Some x.
Proof.
  intros Hn. destruct (nth_error l n) eqn:E; [eauto |].
  apply nth_error_None in E. lia.
Qed.

Lemma index_defined {A} (l : list A) (i : Z) :
  - Py.len l <= i < Py.len l -> exists x, Py.index l i = Some x.
Proof.
  intros Hi. destruct (Z_lt_ge_dec i 0).
  - rewrite index_negative by lia. apply nth_error_defined. unfold Py.len in *. lia.
  - rewrite index_in_range by lia. apply nth_error_defined. unfold Py.len in *. lia.
Qed.

(** ** The rotation controller *)

Module RotationFacts.

Definition initial : state := mk_state 0 [] None.

Definition in_range (n : Z) (st : state) : Prop := 0 <= current_index st < n.

Lemma get_state_present {R} (w : world R) (st : state) :
  state_file w = Some st -> Rotation.get_state w = (Ok st, w).
Proof. intros H. unfold Rotation.get_state. rewrite H. reflexivity. Qed.

Lemma get_state_missing {R} (w : world R) :
  state_file w = None ->
  Rotation.get_state w =
    (Ok initial,
     mk_world (project w) (Some initial) (results_file w) (saves w ++ [initial])
              (now_utc w) (ticks w)).
Proof. intros H. unfold Rotation.get_state. rewrite H. reflexivity. Qed.

(** [get_state] always returns; it leaves the state it returns in the
    file, and writes only the initial state. *)
Lemma get_state_returns {R} (w : world R) :
  exists st w0,
    Rotation.get_state w = (Ok st, w0) /\
    state_file w0 = Some st /\
    project w0 = project w /\ results_file w0 = results_file w /\
    now_utc w0 = now_utc w /\ ticks w0 = ticks w /\
    ((state_file w = Some st /\ saves w0 = saves w) \/
     (state_file w = None /\ st = initial /\ saves w0 = saves w ++ [initial])).
Proof.
  destruct (state_file w) as [st |] eqn:E.
  - exists st, w. rewrite (get_state_present _ _ E). intuition.
  - eexists _, _. rewrite (get_state_missing _ E). cbn. intuition.
Qed.

Section Facts.

Context {R Res : Type}.
Variable UNITS : list string.
Variable analyze : string -> M R Res.
Variable success : Res -> bool.
Variable unit_of : Res -> string.

(** What the controller needs of the analysis: it returns an object that
    names the unit it was given, and it leaves the state file alone. *)
Definition well_behaved : Prop :=
  forall u w, exists r w',
    analyze u w = (Ok r, w') /\ unit_of r = u /\
    state_file w' = state_file w /\ saves w' = saves w /\
    project w' = project w.

Hypothesis analyze_ok : well_behaved.

Lemma wrap_fst (st : state) :
  fst (Rotation.wrap UNITS st) =
    if current_index st >=? Py.len UNITS then 0 else current_index st.
Proof. unfold Rotation.wrap. destruct (_ >=? _); reflexivity. Qed.

Lemma wrap_in_range (st : state) :
  0 <= current_index st < Py.len UNITS ->
  fst (Rotation.wrap UNITS st) = current_index st.
Proof. intros. rewrite wrap_fst. destruct (_ >=? _) eqn:E; lia. Qed.

Lemma update_index (st : state) (i : Z) (u now : string) :
  current_index (Rotation.update UNITS st i u now) = (i + 1) mod Py.len UNITS.
Proof. unfold Rotation.update. cbn. destruct (negb _); reflexivity. Qed.

(** A run whose index selects a unit. *)
Lemma main_selects (w w0 : world R) (st : state) (u : string) :
  Rotation.get_state w = (Ok st, w0) ->
  Py.index UNITS (fst (Rotation.wrap UNITS st)) = Some u ->
  exists r w1,
    analyze u w0 = (Ok r, w1) /\
    Rotation.main UNITS analyze success w =
      (Ok (if success r then 0 else 1, r),
       let st' := Rotation.update UNITS (snd (Rotation.wrap UNITS st))
                    (fst (Rotation.wrap UNITS st)) u (now_utc w1 (ticks w1)) in
       mk_world (project w1) (Some st') (results_file w1) (saves w1 ++ [st'])
                (now_utc w1) (S (ticks w1))).
Proof.
  intros Hg Hi.
  destruct (analyze_ok u w0) as (r & w1 & Ha & _).
  exists r, w1. split; [exact Ha |].
  unfold Rotation.main, bind. rewrite Hg.
  destruct (Rotation.wrap UNITS st) as [i st1] eqn:Ew. cbn [fst snd] in *.
  unfold Rotation.select. rewrite Hi. unfold ret at 1. rewrite Ha.
  reflexivity.
Qed.

(** A run whose index selects nothing ends in IndexError before anything
    else is written. *)
Lemma main_raises (w w0 : world R) (st : state) :
  Rotation.get_state w = (Ok st, w0) ->
  Py.index UNITS (fst (Rotation.wrap UNITS st)) = None ->
  Rotation.main UNITS analyze success w = (Raised IndexError, w0).
Proof.
  intros Hg Hi. unfold Rotation.main, bind. rewrite Hg.
  destruct (Rotation.wrap UNITS st) as [i st1] eqn:Ew. cbn [fst snd] in *.
  unfold Rotation.select. rewrite Hi. reflexivity.
Qed.

(** The unit a run selected, as named by the object it printed. *)
Definition selected (o : outcome (Z * Res)) : option string :=
  option_map unit_of (printed o).

(** A run that returns went through every step. *)
Lemma main_returned (w w' : world R) (c : Z) (r : Res) :
  Rotation.main UNITS analyze success w = (Ok (c, r), w') ->
  exists st w0 w1,
    Rotation.get_state w = (Ok st, w0) /\
    Py.index UNITS (fst (Rotation.wrap UNITS st)) = Some (unit_of r) /\
    analyze (unit_of r) w0 = (Ok r, w1) /\
    c = (if success r then 0 else 1) /\
    project w' = project w1 /\ results_file w' = results_file w1 /\
    exists st', state_file w' = Some st' /\
      current_index st' = (fst (Rotation.wrap UNITS st) + 1) mod Py.len UNITS.
Proof.
  intros Hm.
  destruct (get_state_returns w) as (st & w0 & Hg & _).
  destruct (Py.index UNITS (fst (Rotation.wrap UNITS st))) as [u |] eqn:Hi.
  - destruct (main_selects w w0 st u Hg Hi) as (r1 & w1 & Ha & Hm1).
    rewrite Hm1 in Hm. inversion Hm; subst. clear Hm.
    destruct (analyze_ok u w0) as (r2 & w2 & Ha2 & Hu & _).
    rewrite Ha in Ha2. inversion Ha2; subst.
    exists st, w0, w2. repeat split; try assumption; try reflexivity.
    eexists. split; [reflexivity |]. apply update_index.
  - rewrite (main_raises w w0 st Hg Hi) in Hm. discriminate.
Qed.

(** A run over an existing state file whose index selects a unit returns,
    names that unit and leaves the next index in the state file. *)
Lemma main_advances (w : world R) (st : state) (u : string) :
  state_file w = Some st ->
  Py.index UNITS (fst (Rotation.wrap UNITS st)) = Some u ->
  exists r w1 w',
    analyze u w = (Ok r, w1) /\ unit_of r = u /\
    Rotation.main UNITS analyze success w = (Ok (if success r then 0 else 1, r), w') /\
    project w' = project w /\ results_file w' = results_file w1 /\
    exists st', state_file w' = Some st' /\
      current_index st' = (fst (Rotation.wrap UNITS st) + 1) mod Py.len UNITS.
Proof.
  intros Hs Hi.
  pose proof (get_state_present w st Hs) as Hg.
  destruct (main_selects w w st u Hg Hi) as (r & w1 & Ha & Hm).
  destruct (analyze_ok u w) as (r2 & w2 & Ha2 & Hu & _ & _ & Hp).
  rewrite Ha in Ha2. inversion Ha2; subst r2 w2.
  exists r, w1. eexists. split; [exact Ha |]. split; [exact Hu |].
  split; [exact Hm |]. cbn. split; [exact Hp |]. split; [reflexivity |].
  eexists. split; [reflexivity |]. apply update_index.
Qed.

(** Every state a run saves has its index in range. *)
Lemma main_saves_in_range (w : world R) :
  0 < Py.len UNITS ->
  exists new,
    saves (snd (Rotation.main UNITS analyze success w)) = saves w ++ new /\
    Forall (in_range (Py.len UNITS)) new.
Proof.
  intros HN.
  assert (Hinit : in_range (Py.len UNITS) initial) by (unfold in_range; cbn; lia).
  destruct (get_state_returns w) as (st & w0 & Hg & _ & _ & _ & _ & _ & Hsv).
  assert (Hw0 : exists new0, saves w0 = saves w ++ new0 /\
                             Forall (in_range (Py.len UNITS)) new0).
  { destruct Hsv as [[_ Hsv] | (_ & _ & Hsv)].
    - exists []. rewrite app_nil_r. auto.
    - exists [initial]. auto. }
  destruct Hw0 as (new0 & Hnew0 & Hall0).
  destruct (Py.index UNITS (fst (Rotation.wrap UNITS st))) as [u |] eqn:Hi.
  - destruct (main_selects w w0 st u Hg Hi) as (r & w1 & Ha & Hm).
    destruct (analyze_ok u w0) as (r2 & w2 & Ha2 & _ & _ & Hsv1 & _).
    rewrite Ha in Ha2. inversion Ha2; subst r2 w2.
    rewrite Hm. cbn [snd saves]. rewrite Hsv1, Hnew0, <- app_assoc.
    eexists. split; [reflexivity |].
    apply Forall_app. split; [exact Hall0 |].
    constructor; [| constructor].
    unfold in_range. rewrite update_index. apply Z.mod_pos_bound. exact HN.
  - rewrite (main_raises w w0 st Hg Hi). cbn [snd]. eauto.
Qed.

(** [n] runs from an index in range: the k-th selects the unit at
    (i + k) mod N, and the index ends at (i + n) mod N. *)
Lemma invoke_from (n : nat) : forall (w : world R) (st : state),
  state_file w = Some st ->
  0 <= current_index st < Py.len UNITS ->
  exists os w' st',
    Rotation.invoke UNITS analyze success n w = (os, w') /\
    state_file w' = Some st' /\
    current_index st' = (current_index st + Z.of_nat n) mod Py.len UNITS /\
    map selected os =
      map (fun k => Py.index UNITS ((current_index st + Z.of_nat k) mod Py.len UNITS))
          (seq 0 n).
Proof.
  induction n as [| n IH]; intros w st Hs Hi.
  - exists [], w, st. cbn. rewrite Z.add_0_r, Z.mod_small by lia. auto.
  - assert (Hsel : exists u, Py.index UNITS (fst (Rotation.wrap UNITS st)) = Some u).
    { rewrite wrap_in_range by exact Hi. apply index_defined. lia. }
    destruct Hsel as (u & Hu).
    destruct (main_advances w st u Hs Hu)
      as (r & w1 & w' & _ & Hr & Hm & _ & _ & st1 & Hs1 & Hi1).
    rewrite wrap_in_range in Hi1, Hu by exact Hi.
    assert (Hr1 : 0 <= current_index st1 < Py.len UNITS)
      by (rewrite Hi1; apply Z.mod_pos_bound; lia).
    destruct (IH w' st1 Hs1 Hr1) as (os & w'' & st' & Hinv & Hs' & Hi' & Hmap).
    exists (Ok (if success r then 0 else 1, r) :: os), w'', st'.
    cbn [Rotation.invoke]. rewrite Hm, Hinv.
    split; [reflexivity |]. split; [exact Hs' |]. split.
    + rewrite Hi', Hi1, Zplus_mod_idemp_l. f_equal. lia.
    + cbn [map seq]. f_equal.
      * unfold selected. cbn. rewrite Hr, Z.add_0_r, Z.mod_small by lia.
        symmetry. exact Hu.
      * rewrite Hmap, <- seq_shift, map_map. apply map_ext. intros k.
        rewrite Hi1, Zplus_mod_idemp_l. do 2 f_equal. lia.
Qed.

Lemma wrap_unchanged (st : state) :
  current_index st < Py.len UNITS ->
  Rotation.wrap UNITS st = (current_index st, st).
Proof. intros H. unfold Rotation.wrap. destruct (_ >=? _) eqn:E; [lia | reflexivity]. Qed.

Lemma wrap_corrected (st : state) :
  current_index st >= Py.len UNITS ->
  Rotation.wrap UNITS st = (0, set_current_index st 0).
Proof. intros H. unfold Rotation.wrap. destruct (_ >=? _) eqn:E; [reflexivity | lia]. Qed.

(** A run that returns leaves an index in range in the state file. *)
Lemma main_leaves_in_range (w w' : world R) (c : Z) (r : Res) :
  Rotation.main UNITS analyze success w = (Ok (c, r), w') ->
  exists st', state_file w' = Some st' /\ in_range (Py.len UNITS) st'.
Proof.
  intros Hm.
  destruct (main_returned w w' c r Hm)
    as (st & w0 & w1 & _ & Hi & _ & _ & _ & _ & st' & Hs' & Hi').
  exists st'. split; [exact Hs' |]. unfold in_range. rewrite Hi'.
  apply Z.mod_pos_bound.
  destruct UNITS; [unfold Py.index in Hi; cbn in Hi |]; cbn.
  - repeat match type of Hi with context [if ?b then _ else _] =>
      destruct b end; try discriminate; destruct (Z.to_nat _); discriminate.
  - lia.
Qed.

(** An index at or above N is replaced by 0 for the run. *)
Lemma main_corrects (w : world R) (st : state) :
  0 < Py.len UNITS ->
  state_file w = Some st ->
  current_index st >= Py.len UNITS ->
  exists u r w' st',
    Py.index UNITS 0 = Some u /\
    Rotation.main UNITS analyze success w = (Ok (if success r then 0 else 1, r), w') /\
    unit_of r = u /\
    state_file w' = Some st' /\ current_index st' = 1 mod Py.len UNITS.
Proof.
  intros HN Hs Hi.
  destruct (index_defined UNITS 0) as (u & Hu); [lia |].
  assert (Hw : fst (Rotation.wrap UNITS st) = 0) by (rewrite wrap_corrected; auto).
  rewrite <- Hw in Hu.
  destruct (main_advances w st u Hs Hu)
    as (r & w1 & w' & _ & Hr & Hm & _ & _ & st' & Hs' & Hi').
  rewrite Hw in Hu, Hi'. exists u, r, w', st'. auto.
Qed.

(** A negative index down to -N is used as Python uses it. *)
Lemma main_negative (w : world R) (st : state) :
  state_file w = Some st ->
  - Py.len UNITS <= current_index st < 0 ->
  exists u r w' st',
    nth_error UNITS (Z.to_nat (Py.len UNITS + current_index st)) = Some u /\
    Rotation.main UNITS analyze success w = (Ok (if success r then 0 else 1, r), w') /\
    unit_of r = u /\
    state_file w' = Some st' /\
    current_index st' = (current_index st + 1) mod Py.len UNITS /\
    in_range (Py.len UNITS) st'.
Proof.
  intros Hs Hi.
  assert (Hw : fst (Rotation.wrap UNITS st) = current_index st)
    by (rewrite wrap_unchanged; [reflexivity | lia]).
  destruct (index_defined UNITS (current_index st)) as (u & Hu); [lia |].
  pose proof Hu as Hn. rewrite index_negative in Hn by exact Hi.
  rewrite <- Hw in Hu.
  destruct (main_advances w st u Hs Hu)
    as (r & w1 & w' & _ & Hr & Hm & _ & _ & st' & Hs' & Hi').
  rewrite Hw in Hi'. exists u, r, w', st'.
  repeat (split; [assumption |]).
  unfold in_range. rewrite Hi'. apply Z.mod_pos_bound. lia.
Qed.

(** An index below -N ends the run in IndexError, the state file as it
    was. *)
Lemma main_index_error (w : world R) (st : state) :
  state_file w = Some st ->
  current_index st < - Py.len UNITS ->
  Rotation.main UNITS analyze success w = (Raised IndexError, w).
Proof.
  intros Hs Hi.
  assert (0 <= Py.len UNITS) by (unfold Py.len; lia).
  apply (main_raises w w st (get_state_present w st Hs)).
  rewrite wrap_unchanged by lia. apply index_below. exact Hi.
Qed.

End Facts.

End RotationFacts.

(** ** What an analysis does to the world *)

Module OptimizeFacts.

Import Optimize.

(** The record a run writes for a module that exists. *)
Definition record_of (w : world record) (module_name : string) : record :=
  let sm := inspect (project w) module_name in
  mk_record (now_utc w (ticks w)) module_name (Py.len (fst sm)) (fst sm) (snd sm).

Lemma module_missing (w : world record) (module_name : string) :
  Fs.exists_ (project w) (Fs.under_root module_name) = false ->
  analyze_module module_name w = (Ok (Failure module_name "Module not found"), w).
Proof.
  intros H. unfold analyze_module, bind, get_project. rewrite H. reflexivity.
Qed.

Lemma module_found (w : world record) (module_name : string) :
  Fs.exists_ (project w) (Fs.under_root module_name) = true ->
  exists r,
    success r = true /\ result_module r = module_name /\
    analyze_module module_name w =
      (Ok r,
       mk_world (project w) (state_file w)
                (results_file w ++ [record_of w module_name])
                (saves w) (now_utc w) (S (ticks w))).
Proof.
  intros H. unfold analyze_module, bind, get_project, record_of. rewrite H.
  cbn [negb]. destruct (inspect (project w) module_name) as [sugg met].
  eexists. split; [| split]; [| | reflexivity]; reflexivity.
Qed.

Lemma module_well_behaved :
  RotationFacts.well_behaved analyze_module result_module.
Proof.
  intros u w.
  destruct (Fs.exists_ (project w) (Fs.under_root u)) eqn:E.
  - destruct (module_found w u E) as (r & _ & Hu & Hr).
    eexists _, _. split; [exact Hr |]. cbn. auto.
  - rewrite (module_missing w u E). eexists _, _. split; [reflexivity |].
    cbn. auto.
Qed.

(** The suggestions of a module, block by block. *)
Lemma inspect_suggestions (fs : Fs.node) (module_name : string) :
  let p := Fs.under_root module_name in
  fst (inspect fs module_name) =
    excessive_clones (count_patterns fs p clone_re)
    ++ string_allocations (count_patterns fs p string_alloc_re)
    ++ n_plus_one_query (count_patterns fs p n_plus_one_re)
    ++ (if is_ui module_name
        then missing_memoization (count_patterns fs p callbacks_re)
                                 (count_patterns fs p memoized_re)
             ++ inline_objects (count_patterns fs p inline_objects_re)
        else [])
    ++ sequential_awaits (count_patterns fs p async_re)
                         (count_patterns fs p await_re).
Proof.
  cbv zeta. unfold inspect, react_checks.
  destruct (is_ui module_name); cbn [fst app];
    repeat rewrite <- app_assoc; rewrite ?app_nil_r; reflexivity.
Qed.

End OptimizeFacts.

Module TestGapsFacts.

Import TestGaps.

(** The record a run writes for a crate that exists. *)
Definition record_of (w : world record) (crate_name : string) : record :=
  let m := measure (project w) crate_name in
  mk_record (now_utc w (ticks w)) crate_name (Py.len (find_gaps m))
            (estimated_coverage (source_lines m) (test_lines m))
            (find_gaps m) (metrics_of m).

Lemma crate_missing (w : world record) (crate_name : string) :
  Fs.exists_ (project w) (Fs.under_root crate_name) = false ->
  analyze_crate crate_name w = (Ok (Failure crate_name "Crate not found"), w).
Proof.
  intros H. unfold analyze_crate, bind, get_project. rewrite H. reflexivity.
Qed.

Lemma crate_found (w : world record) (crate_name : string) :
  Fs.exists_ (project w) (Fs.under_root crate_name) = true ->
  exists r,
    success r = true /\ result_crate r = crate_name /\
    analyze_crate crate_name w =
      (Ok r,
       mk_world (project w) (state_file w)
                (results_file w ++ [record_of w crate_name])
                (saves w) (now_utc w) (S (ticks w))).
Proof.
  intros H. unfold analyze_crate, bind, get_project, record_of. rewrite H.
  cbn [negb]. eexists. split; [| split]; [| | reflexivity]; reflexivity.
Qed.

Lemma crate_well_behaved :
  RotationFacts.well_behaved analyze_crate result_crate.
Proof.
  intros u w.
  destruct (Fs.exists_ (project w) (Fs.under_root u)) eqn:E.
  - destruct (crate_found w u E) as (r & _ & Hu & Hr).
    eexists _, _. split; [exact Hr |]. cbn. auto.
  - rewrite (crate_missing w u E). eexists _, _. split; [reflexivity |].
    cbn. auto.
Qed.

End TestGapsFacts.

(* ================================================================== *)
(** * The claims *)

(** A list read from position [i] on, and then from its start up to [i]. *)
Definition rotate {A} (i : nat) (l : list A) : list A := skipn i l ++ firstn i l.

Lemma rotate_permutation {A} (i : nat) (l : list A) : Permutation (rotate i l) l.
Proof.
  unfold rotate. rewrite Permutation_app_comm, firstn_skipn. reflexivity.
Qed.

Lemma once_each (l units : list string) :
  NoDup l -> Permutation units l ->
  forall u, In u l -> count_occ string_dec units u = 1%nat.
Proof.
  intros Hnd Hp u Hu.
  rewrite (Permutation_count_occ string_dec units l) in Hp. rewrite Hp.
  apply NoDup_count_occ'; assumption.
Qed.

Lemma modules_nodup : NoDup Optimize.MODULES.
Proof.
  unfold Optimize.MODULES.
  repeat (constructor; [cbn; intuition discriminate |]). constructor.
Qed.

Lemma crates_nodup : NoDup TestGaps.CRATES.
Proof.
  unfold TestGaps.CRATES.
  repeat (constructor; [cbn; intuition discriminate |]). constructor.
Qed.

(** C5. Rotation is strictly round-robin: from every starting index [i]
    in [0, N) kept in the state file, N consecutive runs of either worker
    select the units of its list in the order i, i+1, ..., wrapping
    around, hence each unit exactly once, and leave index [i] in the
    state file again. *)
Theorem round_robin_full_cycle :
  (forall (w : world Optimize.record) (st : state),
      state_file w = Some st ->
      0 <= current_index st < Py.len Optimize.MODULES ->
      exists os w' st' units,
        Optimize.invoke (List.length Optimize.MODULES) w = (os, w') /\
        map (RotationFacts.selected Optimize.result_module) os = map Some units /\
        units = rotate (Z.to_nat (current_index st)) Optimize.MODULES /\
        Permutation units Optimize.MODULES /\
        (forall u, In u Optimize.MODULES -> count_occ string_dec units u = 1%nat) /\
        state_file w' = Some st' /\ current_index st' = current_index st) /\
  (forall (w : world TestGaps.record) (st : state),
      state_file w = Some st ->
      0 <= current_index st < Py.len TestGaps.CRATES ->
      exists os w' st' units,
        TestGaps.invoke (List.length TestGaps.CRATES) w = (os, w') /\
        map (RotationFacts.selected TestGaps.result_crate) os = map Some units /\
        units = rotate (Z.to_nat (current_index st)) TestGaps.CRATES /\
        Permutation units TestGaps.CRATES /\
        (forall u, In u TestGaps.CRATES -> count_occ string_dec units u = 1%nat) /\
        state_file w' = Some st' /\ current_index st' = current_index st).
Proof.
  split; intros w st Hs Hi.
  - destruct (RotationFacts.invoke_from Optimize.MODULES Optimize.analyze_module
                Optimize.success Optimize.result_module
                OptimizeFacts.module_well_behaved
                (List.length Optimize.MODULES) w st Hs Hi)
      as (os & w' & st' & Hinv & Hs' & Hi' & Hmap).
    exists os, w', st', (rotate (Z.to_nat (current_index st)) Optimize.MODULES).
    split; [exact Hinv |]. split.
    + rewrite Hmap. change (Py.len Optimize.MODULES) with 4 in *.
      assert (Hc : current_index st = 0 \/ current_index st = 1 \/
                   current_index st = 2 \/ current_index st = 3) by lia.
      destruct Hc as [-> | [-> | [-> | ->]]]; reflexivity.
    + split; [reflexivity |]. split; [apply rotate_permutation |]. split.
      * apply once_each; [apply modules_nodup | apply rotate_permutation].
      * split; [exact Hs' |]. rewrite Hi'.
        change (Z.of_nat (List.length Optimize.MODULES)) with (Py.len Optimize.MODULES).
        rewrite <- (Z.mul_1_l (Py.len Optimize.MODULES)) at 1.
        rewrite Z.mod_add by (cbn; lia). apply Z.mod_small. exact Hi.
  - destruct (RotationFacts.invoke_from TestGaps.CRATES TestGaps.analyze_crate
                TestGaps.success TestGaps.result_crate
                TestGapsFacts.crate_well_behaved
                (List.length TestGaps.CRATES) w st Hs Hi)
      as (os & w' & st' & Hinv & Hs' & Hi' & Hmap).
    exists os, w', st', (rotate (Z.to_nat (current_index st)) TestGaps.CRATES).
    split; [exact Hinv |]. split.
    + rewrite Hmap. change (Py.len TestGaps.CRATES) with 3 in *.
      assert (Hc : current_index st = 0 \/ current_index st = 1 \/
                   current_index st = 2) by lia.
      destruct Hc as [-> | [-> | ->]]; reflexivity.
    + split; [reflexivity |]. split; [apply rotate_permutation |]. split.
      * apply once_each; [apply crates_nodup | apply rotate_permutation].
      * split; [exact Hs' |]. rewrite Hi'.
        change (Z.of_nat (List.length TestGaps.CRATES)) with (Py.len TestGaps.CRATES).
        rewrite <- (Z.mul_1_l (Py.len TestGaps.CRATES)) at 1.
        rewrite Z.mod_add by (cbn; lia). apply Z.mod_small. exact Hi.
Qed.

Lemma round_robin_full_cycle_witness :
  (exists os w' st' units,
      Optimize.invoke (List.length Optimize.MODULES)
        (Samples.fresh Samples.bare (Samples.at_index 2)) = (os, w') /\
      map (RotationFacts.selected Optimize.result_module) os = map Some units /\
      units = rotate (Z.to_nat 2) Optimize.MODULES /\
      Permutation units Optimize.MODULES /\
      (forall u, In u Optimize.MODULES -> count_occ string_dec units u = 1%nat) /\
      state_file w' = Some st' /\ current_index st' = 2) /\
  (exists os w' st' units,
      TestGaps.invoke (List.length TestGaps.CRATES)
        (Samples.fresh Samples.bare (Samples.at_index 1)) = (os, w') /\
      map (RotationFacts.selected TestGaps.result_crate) os = map Some units /\
      units = rotate (Z.to_nat 1) TestGaps.CRATES /\
      Permutation units TestGaps.CRATES /\
      (forall u, In u TestGaps.CRATES -> count_occ string_dec units u = 1%nat) /\
      state_file w' = Some st' /\ current_index st' = 1).
Proof.
  split.
  - apply (proj1 round_robin_full_cycle
             (Samples.fresh Samples.bare (Samples.at_index 2)) (mk_state 2 [] None)).
    + reflexivity.
    + cbn. lia.
  - apply (proj2 round_robin_full_cycle
             (Samples.fresh Samples.bare (Samples.at_index 1)) (mk_state 1 [] None)).
    + reflexivity.
    + cbn. lia.
Defined.

(** C4. Every state either worker saves has its index in [0, N); a run
    that returns leaves such a state in the state file; and a run that
    reads an index at or above N works with index 0 instead: it selects the
    first unit, returns, and saves index 1. *)
Theorem saved_index_stays_in_range :
  (forall w : world Optimize.record,
      (exists new, saves (snd (Optimize.main w)) = saves w ++ new /\
                   Forall (RotationFacts.in_range (Py.len Optimize.MODULES)) new) /\
      (forall c r w', Optimize.main w = (Ok (c, r), w') ->
         exists st', state_file w' = Some st' /\
                     0 <= current_index st' < Py.len Optimize.MODULES) /\
      (forall st, state_file w = Some st ->
         current_index st >= Py.len Optimize.MODULES ->
         fst (Rotation.wrap Optimize.MODULES st) = 0 /\
         exists c r w' st',
           Optimize.main w = (Ok (c, r), w') /\
           Py.index Optimize.MODULES 0 = Some (Optimize.result_module r) /\
           state_file w' = Some st' /\ current_index st' = 1)) /\
  (forall w : world TestGaps.record,
      (exists new, saves (snd (TestGaps.main w)) = saves w ++ new /\
                   Forall (RotationFacts.in_range (Py.len TestGaps.CRATES)) new) /\
      (forall c r w', TestGaps.main w = (Ok (c, r), w') ->
         exists st', state_file w' = Some st' /\
                     0 <= current_index st' < Py.len TestGaps.CRATES) /\
      (forall st, state_file w = Some st ->
         current_index st >= Py.len TestGaps.CRATES ->
         fst (Rotation.wrap TestGaps.CRATES st) = 0 /\
         exists c r w' st',
           TestGaps.main w = (Ok (c, r), w') /\
           Py.index TestGaps.CRATES 0 = Some (TestGaps.result_crate r) /\
           state_file w' = Some st' /\ current_index st' = 1)).
Proof.
  split; intros w; (split; [| split]).
  - apply (RotationFacts.main_saves_in_range _ _ _ _ OptimizeFacts.module_well_behaved).
    reflexivity.
  - intros c r w' Hm.
    apply (RotationFacts.main_leaves_in_range _ _ _ _ OptimizeFacts.module_well_behaved
             w w' c r Hm).
  - intros st Hs Hi. split.
    + rewrite RotationFacts.wrap_corrected by exact Hi. reflexivity.
    + destruct (RotationFacts.main_corrects Optimize.MODULES Optimize.analyze_module
                  Optimize.success Optimize.result_module OptimizeFacts.module_well_behaved
                  w st eq_refl Hs Hi) as (u & r & w' & st' & Hu & Hm & Hr & Hs' & Hi').
      exists (if Optimize.success r then 0 else 1), r, w', st'.
      rewrite Hr. auto.
  - apply (RotationFacts.main_saves_in_range _ _ _ _ TestGapsFacts.crate_well_behaved).
    reflexivity.
  - intros c r w' Hm.
    apply (RotationFacts.main_leaves_in_range _ _ _ _ TestGapsFacts.crate_well_behaved
             w w' c r Hm).
  - intros st Hs Hi. split.
    + rewrite RotationFacts.wrap_corrected by exact Hi. reflexivity.
    + destruct (RotationFacts.main_corrects TestGaps.CRATES TestGaps.analyze_crate
                  TestGaps.success TestGaps.result_crate TestGapsFacts.crate_well_behaved
                  w st eq_refl Hs Hi) as (u & r & w' & st' & Hu & Hm & Hr & Hs' & Hi').
      exists (if TestGaps.success r then 0 else 1), r, w', st'.
      rewrite Hr. auto.
Qed.

Lemma saved_index_stays_in_range_witness :
  (fst (Rotation.wrap Optimize.MODULES (mk_state 7 [] None)) = 0 /\
   exists c r w' st',
     Optimize.main (Samples.fresh Samples.bare (Samples.at_index 7)) = (Ok (c, r), w') /\
     Py.index Optimize.MODULES 0 = Some (Optimize.result_module r) /\
     state_file w' = Some st' /\ current_index st' = 1) /\
  (fst (Rotation.wrap TestGaps.CRATES (mk_state 3 [] None)) = 0 /\
   exists c r w' st',
     TestGaps.main (Samples.fresh Samples.bare (Samples.at_index 3)) = (Ok (c, r), w') /\
     Py.index TestGaps.CRATES 0 = Some (TestGaps.result_crate r) /\
     state_file w' = Some st' /\ current_index st' = 1).
Proof.
  split.
  - apply (proj2 (proj2 (proj1 saved_index_stays_in_range
                           (Samples.fresh Samples.bare (Samples.at_index 7))))
             (mk_state 7 [] None)).
    + reflexivity.
    + cbn. lia.
  - apply (proj2 (proj2 (proj2 saved_index_stays_in_range
                           (Samples.fresh Samples.bare (Samples.at_index 3))))
             (mk_state 3 [] None)).
    + reflexivity.
    + cbn. lia.
Defined.

(** C10. A negative index in [-N, 0) in the state file is not corrected:
    the run selects the unit at position N + index, returns, and saves
    (index + 1) mod N, which lies in [0, N).  An index below -N makes the
    selection raise IndexError, which nothing catches: the run ends there
    and the state file stays as it was. *)
Theorem negative_index_is_python_indexing :
  (forall (w : world Optimize.record) (st : state),
      state_file w = Some st ->
      (- Py.len Optimize.MODULES <= current_index st < 0 ->
       Rotation.wrap Optimize.MODULES st = (current_index st, st) /\
       exists c r w' st',
         Optimize.main w = (Ok (c, r), w') /\
         nth_error Optimize.MODULES
           (Z.to_nat (Py.len Optimize.MODULES + current_index st))
           = Some (Optimize.result_module r) /\
         state_file w' = Some st' /\
         current_index st' = (current_index st + 1) mod Py.len Optimize.MODULES /\
         0 <= current_index st' < Py.len Optimize.MODULES) /\
      (current_index st < - Py.len Optimize.MODULES ->
       Optimize.main w = (Raised IndexError, w))) /\
  (forall (w : world TestGaps.record) (st : state),
      state_file w = Some st ->
      (- Py.len TestGaps.CRATES <= current_index st < 0 ->
       Rotation.wrap TestGaps.CRATES st = (current_index st, st) /\
       exists c r w' st',
         TestGaps.main w = (Ok (c, r), w') /\
         nth_error TestGaps.CRATES
           (Z.to_nat (Py.len TestGaps.CRATES + current_index st))
           = Some (TestGaps.result_crate r) /\
         state_file w' = Some st' /\
         current_index st' = (current_index st + 1) mod Py.len TestGaps.CRATES /\
         0 <= current_index st' < Py.len TestGaps.CRATES) /\
      (current_index st < - Py.len TestGaps.CRATES ->
       TestGaps.main w = (Raised IndexError, w))).
Proof.
  split; intros w st Hs; split; intros Hi.
  - split; [apply RotationFacts.wrap_unchanged; lia |].
    destruct (RotationFacts.main_negative Optimize.MODULES Optimize.analyze_module
                Optimize.success Optimize.result_module
                OptimizeFacts.module_well_behaved w st Hs Hi)
      as (u & r & w' & st' & Hu & Hm & Hr & Hs' & Hi' & Hrange).
    exists (if Optimize.success r then 0 else 1), r, w', st'.
    rewrite Hr. auto.
  - apply (RotationFacts.main_index_error Optimize.MODULES Optimize.analyze_module
             Optimize.success w st Hs Hi).
  - split; [apply RotationFacts.wrap_unchanged; lia |].
    destruct (RotationFacts.main_negative TestGaps.CRATES TestGaps.analyze_crate
                TestGaps.success TestGaps.result_crate
                TestGapsFacts.crate_well_behaved w st Hs Hi)
      as (u & r & w' & st' & Hu & Hm & Hr & Hs' & Hi' & Hrange).
    exists (if TestGaps.success r then 0 else 1), r, w', st'.
    rewrite Hr. auto.
  - apply (RotationFacts.main_index_error TestGaps.CRATES TestGaps.analyze_crate
             TestGaps.success w st Hs Hi).
Qed.

Lemma negative_index_is_python_indexing_witness :
  (Rotation.wrap Optimize.MODULES (mk_state (-1) [] None) = (-1, mk_state (-1) [] None) /\
   exists c r w' st',
     Optimize.main (Samples.fresh Samples.bare (Samples.at_index (-1))) = (Ok (c, r), w') /\
     nth_error Optimize.MODULES (Z.to_nat (Py.len Optimize.MODULES + -1))
       = Some (Optimize.result_module r) /\
     state_file w' = Some st' /\
     current_index st' = (-1 + 1) mod Py.len Optimize.MODULES /\
     0 <= current_index st' < Py.len Optimize.MODULES) /\
  TestGaps.main (Samples.fresh Samples.bare (Samples.at_index (-4)))
    = (Raised IndexError, Samples.fresh Samples.bare (Samples.at_index (-4))).
Proof.
  split.
  - apply (proj1 (proj1 negative_index_is_python_indexing
                    (Samples.fresh Samples.bare (Samples.at_index (-1)))
                    (mk_state (-1) [] None) eq_refl)).
    cbn. lia.
  - apply (proj2 (proj2 negative_index_is_python_indexing
                    (Samples.fresh Samples.bare (Samples.at_index (-4)))
                    (mk_state (-4) [] None) eq_refl)).
    cbn. lia.
Defined.

(** C3. When the directory of the unit a run selects does not exist, the
    run prints the failure object (success false, error "Module not found",
    "Crate not found" for the test-gap worker), exits with code 1, and
    still saves (index + 1) mod N, so that the next run selects the unit
    after it. *)
Theorem missing_unit_fails_and_advances :
  (forall (w w0 : world Optimize.record) (st : state) (u : string),
      Rotation.get_state w = (Ok st, w0) ->
      Py.index Optimize.MODULES (fst (Rotation.wrap Optimize.MODULES st)) = Some u ->
      Fs.exists_ (project w) (Fs.under_root u) = false ->
      exists w' st',
        Optimize.main w = (Ok (1, Optimize.Failure u "Module not found"), w') /\
        Optimize.success (Optimize.Failure u "Module not found") = false /\
        state_file w' = Some st' /\
        current_index st' =
          (fst (Rotation.wrap Optimize.MODULES st) + 1) mod Py.len Optimize.MODULES /\
        RotationFacts.selected Optimize.result_module (fst (Optimize.main w')) =
          Py.index Optimize.MODULES (current_index st')) /\
  (forall (w w0 : world TestGaps.record) (st : state) (u : string),
      Rotation.get_state w = (Ok st, w0) ->
      Py.index TestGaps.CRATES (fst (Rotation.wrap TestGaps.CRATES st)) = Some u ->
      Fs.exists_ (project w) (Fs.under_root u) = false ->
      exists w' st',
        TestGaps.main w = (Ok (1, TestGaps.Failure u "Crate not found"), w') /\
        TestGaps.success (TestGaps.Failure u "Crate not found") = false /\
        state_file w' = Some st' /\
        current_index st' =
          (fst (Rotation.wrap TestGaps.CRATES st) + 1) mod Py.len TestGaps.CRATES /\
        RotationFacts.selected TestGaps.result_crate (fst (TestGaps.main w')) =
          Py.index TestGaps.CRATES (current_index st')).
Proof.
  split; intros w w0 st u Hg Hi He.
  - destruct (RotationFacts.get_state_returns w)
      as (st1 & w1 & Hg1 & _ & Hp & _).
    rewrite Hg in Hg1. inversion Hg1; subst st1 w1. clear Hg1.
    destruct (RotationFacts.main_selects Optimize.MODULES Optimize.analyze_module
                Optimize.success Optimize.result_module
                OptimizeFacts.module_well_behaved w w0 st u Hg Hi)
      as (r & w1 & Ha & Hm).
    rewrite OptimizeFacts.module_missing in Ha by (rewrite Hp; exact He).
    inversion Ha; subst r w1. clear Ha.
    eexists _, _. split; [exact Hm |]. split; [reflexivity |].
    split; [reflexivity |].
    set (st' := Rotation.update _ _ _ _ _).
    assert (Hi' : current_index st' =
              (fst (Rotation.wrap Optimize.MODULES st) + 1) mod Py.len Optimize.MODULES)
      by apply RotationFacts.update_index.
    split; [exact Hi' |].
    assert (Hr : 0 <= current_index st' < Py.len Optimize.MODULES)
      by (rewrite Hi'; apply Z.mod_pos_bound; reflexivity).
    destruct (index_defined Optimize.MODULES (current_index st')) as (u2 & Hu2); [lia |].
    match goal with |- context [Optimize.main ?x] => set (w' := x) end.
    assert (Hu3 : Py.index Optimize.MODULES (fst (Rotation.wrap Optimize.MODULES st'))
                  = Some u2)
      by (rewrite RotationFacts.wrap_in_range by exact Hr; exact Hu2).
    destruct (RotationFacts.main_advances Optimize.MODULES Optimize.analyze_module
                Optimize.success Optimize.result_module
                OptimizeFacts.module_well_behaved w' st' u2 eq_refl Hu3)
      as (r2 & _ & w2 & _ & Hr2 & Hm2 & _).
    unfold Optimize.main at 1. rewrite Hm2, Hu2. cbn. rewrite Hr2. reflexivity.
  - destruct (RotationFacts.get_state_returns w)
      as (st1 & w1 & Hg1 & _ & Hp & _).
    rewrite Hg in Hg1. inversion Hg1; subst st1 w1. clear Hg1.
    destruct (RotationFacts.main_selects TestGaps.CRATES TestGaps.analyze_crate
                TestGaps.success TestGaps.result_crate
                TestGapsFacts.crate_well_behaved w w0 st u Hg Hi)
      as (r & w1 & Ha & Hm).
    rewrite TestGapsFacts.crate_missing in Ha by (rewrite Hp; exact He).
    inversion Ha; subst r w1. clear Ha.
    eexists _, _. split; [exact Hm |]. split; [reflexivity |].
    split; [reflexivity |].
    set (st' := Rotation.update _ _ _ _ _).
    assert (Hi' : current_index st' =
              (fst (Rotation.wrap TestGaps.CRATES st) + 1) mod Py.len TestGaps.CRATES)
      by apply RotationFacts.update_index.
    split; [exact Hi' |].
    assert (Hr : 0 <= current_index st' < Py.len TestGaps.CRATES)
      by (rewrite Hi'; apply Z.mod_pos_bound; reflexivity).
    destruct (index_defined TestGaps.CRATES (current_index st')) as (u2 & Hu2); [lia |].
    match goal with |- context [TestGaps.main ?x] => set (w' := x) end.
    assert (Hu3 : Py.index TestGaps.CRATES (fst (Rotation.wrap TestGaps.CRATES st'))
                  = Some u2)
      by (rewrite RotationFacts.wrap_in_range by exact Hr; exact Hu2).
    destruct (RotationFacts.main_advances TestGaps.CRATES TestGaps.analyze_crate
                TestGaps.success TestGaps.result_crate
                TestGapsFacts.crate_well_behaved w' st' u2 eq_refl Hu3)
      as (r2 & _ & w2 & _ & Hr2 & Hm2 & _).
    unfold TestGaps.main at 1. rewrite Hm2, Hu2. cbn. rewrite Hr2. reflexivity.
Qed.

Lemma missing_unit_fails_and_advances_witness :
  (exists w' st',
      Optimize.main (Samples.fresh Samples.bare None)
        = (Ok (1, Optimize.Failure "keyrx_core" "Module not found"), w') /\
      Optimize.success (Optimize.Failure "keyrx_core" "Module not found") = false /\
      state_file w' = Some st' /\
      current_index st' = (0 + 1) mod Py.len Optimize.MODULES /\
      RotationFacts.selected Optimize.result_module (fst (Optimize.main w')) =
        Py.index Optimize.MODULES (current_index st')) /\
  (exists w' st',
      TestGaps.main (Samples.fresh Samples.bare (Samples.at_index 2))
        = (Ok (1, TestGaps.Failure "keyrx_compiler" "Crate not found"), w') /\
      TestGaps.success (TestGaps.Failure "keyrx_compiler" "Crate not found") = false /\
      state_file w' = Some st' /\
      current_index st' = (2 + 1) mod Py.len TestGaps.CRATES /\
      RotationFacts.selected TestGaps.result_crate (fst (TestGaps.main w')) =
        Py.index TestGaps.CRATES (current_index st')).
Proof.
  split.
  - apply (proj1 missing_unit_fails_and_advances
             (Samples.fresh Samples.bare None)
             (mk_world Samples.bare (Some RotationFacts.initial) []
                       [RotationFacts.initial] Samples.clock 0)
             RotationFacts.initial "keyrx_core"); reflexivity.
  - apply (proj2 missing_unit_fails_and_advances
             (Samples.fresh Samples.bare (Samples.at_index 2))
             (Samples.fresh Samples.bare (Samples.at_index 2))
             (mk_state 2 [] None) "keyrx_compiler"); reflexivity.
Defined.

(** C1, as the spec states it, fails: a run whose unit is missing appends
    nothing.  On a project root without keyrx_core and no state file, the
    optimization worker selects keyrx_core, prints the failure object, and
    the results file is as it was. *)
Lemma missing_unit_appends_no_record :
  Fs.exists_ (project (Samples.fresh (R := Optimize.record) Samples.bare None))
             (Fs.under_root "keyrx_core") = false /\
  printed (fst (Optimize.main (Samples.fresh Samples.bare None)))
    = Some (Optimize.Failure "keyrx_core" "Module not found") /\
  results_file (snd (Optimize.main (Samples.fresh Samples.bare None)))
    = results_file (Samples.fresh (R := Optimize.record) Samples.bare None) /\
  ~ (exists rec,
        results_file (snd (Optimize.main (Samples.fresh Samples.bare None)))
        = results_file (Samples.fresh Samples.bare None) ++ [rec]).
Proof.
  repeat split. intros (rec & H). cbn in H. discriminate H.
Qed.

(** C1, amended.  A run of either worker that returns appends exactly one
    record to its results file, for the unit it selected, when that unit's
    directory exists; when the directory does not exist it appends
    nothing. *)
Theorem one_record_when_unit_exists :
  (forall (w w' : world Optimize.record) (c : Z) (r : Optimize.result),
      Optimize.main w = (Ok (c, r), w') ->
      (Fs.exists_ (project w) (Fs.under_root (Optimize.result_module r)) = true ->
       exists rec, results_file w' = results_file w ++ [rec] /\
                   Optimize.module rec = Optimize.result_module r /\ c = 0) /\
      (Fs.exists_ (project w) (Fs.under_root (Optimize.result_module r)) = false ->
       results_file w' = results_file w /\ c = 1)) /\
  (forall (w w' : world TestGaps.record) (c : Z) (r : TestGaps.result),
      TestGaps.main w = (Ok (c, r), w') ->
      (Fs.exists_ (project w) (Fs.under_root (TestGaps.result_crate r)) = true ->
       exists rec, results_file w' = results_file w ++ [rec] /\
                   TestGaps.crate rec = TestGaps.result_crate r /\ c = 0) /\
      (Fs.exists_ (project w) (Fs.under_root (TestGaps.result_crate r)) = false ->
       results_file w' = results_file w /\ c = 1)).
Proof.
  split; intros w w' c r Hm.
  - destruct (RotationFacts.main_returned Optimize.MODULES Optimize.analyze_module
                Optimize.success Optimize.result_module
                OptimizeFacts.module_well_behaved w w' c r Hm)
      as (st & w0 & w1 & Hg & _ & Ha & Hc & _ & Hres & _).
    destruct (RotationFacts.get_state_returns w)
      as (st1 & w2 & Hg1 & _ & Hp & Hr0 & _).
    rewrite Hg in Hg1. inversion Hg1; subst st1 w2. clear Hg1.
    rewrite <- Hp. split; intros He.
    + destruct (OptimizeFacts.module_found w0 _ He) as (r1 & Hs1 & _ & Ha1).
      rewrite Ha in Ha1. inversion Ha1; subst r1 w1. clear Ha1.
      exists (OptimizeFacts.record_of w0 (Optimize.result_module r)).
      rewrite Hres, Hc, Hs1. cbn. rewrite Hr0. auto.
    + rewrite (OptimizeFacts.module_missing w0 _ He) in Ha.
      inversion Ha; subst w1. rewrite Hres, Hc, Hr0, <- H0. auto.
  - destruct (RotationFacts.main_returned TestGaps.CRATES TestGaps.analyze_crate
                TestGaps.success TestGaps.result_crate
                TestGapsFacts.crate_well_behaved w w' c r Hm)
      as (st & w0 & w1 & Hg & _ & Ha & Hc & _ & Hres & _).
    destruct (RotationFacts.get_state_returns w)
      as (st1 & w2 & Hg1 & _ & Hp & Hr0 & _).
    rewrite Hg in Hg1. inversion Hg1; subst st1 w2. clear Hg1.
    rewrite <- Hp. split; intros He.
    + destruct (TestGapsFacts.crate_found w0 _ He) as (r1 & Hs1 & _ & Ha1).
      rewrite Ha in Ha1. inversion Ha1; subst r1 w1. clear Ha1.
      exists (TestGapsFacts.record_of w0 (TestGaps.result_crate r)).
      rewrite Hres, Hc, Hs1. cbn. rewrite Hr0. auto.
    + rewrite (TestGapsFacts.crate_missing w0 _ He) in Ha.
      inversion Ha; subst w1. rewrite Hres, Hc, Hr0, <- H0. auto.
Qed.

Lemma one_record_when_unit_exists_witness :
  (exists rec,
      results_file (snd (Optimize.main
                           (Samples.fresh (Samples.one_file "keyrx_core" "lib.rs" "fn main() {}")
                                          None)))
      = [] ++ [rec] /\
      Optimize.module rec = "keyrx_core" /\ 0 = 0) /\
  (results_file (snd (TestGaps.main (Samples.fresh Samples.bare None))) = [] /\ 1 = 1).
Proof.
  split.
  - apply (proj1 (proj1 one_record_when_unit_exists
                    (Samples.fresh (Samples.one_file "keyrx_core" "lib.rs" "fn main() {}") None)
                    (snd (Optimize.main
                            (Samples.fresh (Samples.one_file "keyrx_core" "lib.rs" "fn main() {}")
                                           None)))
                    0
                    (Optimize.Success "keyrx_core" 0
                       [("clones", 0); ("string_allocations", 0);
                        ("potential_n_plus_one", 0); ("async_functions", 0); ("awaits", 0)]
                       "Analyzed keyrx_core: found 0 optimization opportunities")
                    eq_refl)).
    reflexivity.
  - apply (proj2 (proj2 one_record_when_unit_exists
                    (Samples.fresh Samples.bare None)
                    (snd (TestGaps.main (Samples.fresh Samples.bare None)))
                    1 (TestGaps.Failure "keyrx_core" "Crate not found") eq_refl)).
    reflexivity.
Defined.

(** ** Counting over the entries of a traversal *)

Section Counting.

Variable contribution : Fs.entry -> Z.
Variable step : Z -> Fs.entry -> Z.
Hypothesis step_adds : forall acc e, step acc e = acc + contribution e.

Definition total (l : list Fs.entry) : Z :=
  fold_right (fun e acc => contribution e + acc) 0 l.

Lemma fold_step (l : list Fs.entry) : forall acc,
  fold_left step l acc = acc + total l.
Proof.
  unfold total. induction l as [| e l IH]; intros acc; cbn in *.
  - lia.
  - rewrite IH, step_adds. lia.
Qed.

Lemma total_app (l1 l2 : list Fs.entry) : total (l1 ++ l2) = total l1 + total l2.
Proof.
  unfold total. induction l1 as [| e l1 IH]; cbn in *; [reflexivity | rewrite IH; lia].
Qed.

Lemma total_permutation (l1 l2 : list Fs.entry) :
  Permutation l1 l2 -> total l1 = total l2.
Proof. unfold total. induction 1; cbn in *; lia. Qed.

End Counting.

Lemma optimize_step_adds (pattern : Re.regex) (acc : Z) (e : Fs.entry) :
  Optimize.count_step pattern acc e = acc + Optimize.count_step pattern 0 e.
Proof.
  unfold Optimize.count_step.
  destruct (Fs.is_file e && _); [destruct (Fs.read_text e) |]; lia.
Qed.

Lemma testgaps_step_adds (pattern : Re.regex) (exts : list string) (acc : Z) (e : Fs.entry) :
  TestGaps.count_step pattern exts acc e = acc + TestGaps.count_step pattern exts 0 e.
Proof.
  unfold TestGaps.count_step.
  destruct (Fs.is_file e && _); [destruct (Fs.read_text e) |]; lia.
Qed.

Lemma count_patterns_total (fs : Fs.node) (p : Fs.path) (pattern : Re.regex) :
  Optimize.count_patterns fs p pattern =
    total (Optimize.count_step pattern 0) (Fs.rglob fs p).
Proof.
  unfold Optimize.count_patterns.
  rewrite (fold_step _ _ (optimize_step_adds pattern)). lia.
Qed.

Lemma count_in_files_total (fs : Fs.node) (p : Fs.path) (pattern : Re.regex)
  (exts : option (list string)) :
  TestGaps.count_in_files fs p pattern exts =
    total (TestGaps.count_step pattern (TestGaps.default_extensions exts) 0)
          (Fs.rglob fs p).
Proof.
  unfold TestGaps.count_in_files. cbv zeta.
  rewrite (fold_step _ _ (testgaps_step_adds pattern _)). lia.
Qed.

(** A directory listing split in two is traversed part by part. *)
Lemma walk_app (es1 es2 : list (string * Fs.node)) :
  Fs.walk (Fs.Dir (es1 ++ es2)) = Fs.walk (Fs.Dir es1) ++ Fs.walk (Fs.Dir es2).
Proof.
  cbn. induction es1 as [| [name x] es1 IH]; cbn; [reflexivity |].
  rewrite IH, <- app_assoc. reflexivity.
Qed.

(** C9. Pattern counting is additive and order-independent across files:
    when the files found under one root are those found under two others
    taken together, in any order, the count is the sum of the two counts;
    two roots under which the same files are found in different orders
    give the same count; and a directory whose listing is two listings one
    after the other counts as the two directories together.  This holds
    for [count_patterns] and for [count_in_files] with any extension
    filter. *)
Theorem pattern_count_additive :
  forall pattern : Re.regex,
    (forall fs p fs1 p1 fs2 p2,
        Permutation (Fs.rglob fs p) (Fs.rglob fs1 p1 ++ Fs.rglob fs2 p2) ->
        Optimize.count_patterns fs p pattern =
          Optimize.count_patterns fs1 p1 pattern + Optimize.count_patterns fs2 p2 pattern /\
        forall exts,
          TestGaps.count_in_files fs p pattern exts =
            TestGaps.count_in_files fs1 p1 pattern exts
            + TestGaps.count_in_files fs2 p2 pattern exts) /\
    (forall fs p fs' p',
        Permutation (Fs.rglob fs p) (Fs.rglob fs' p') ->
        Optimize.count_patterns fs p pattern = Optimize.count_patterns fs' p' pattern /\
        forall exts,
          TestGaps.count_in_files fs p pattern exts =
            TestGaps.count_in_files fs' p' pattern exts) /\
    (forall es1 es2,
        Optimize.count_patterns (Fs.Dir (es1 ++ es2)) [] pattern =
          Optimize.count_patterns (Fs.Dir es1) [] pattern
          + Optimize.count_patterns (Fs.Dir es2) [] pattern /\
        forall exts,
          TestGaps.count_in_files (Fs.Dir (es1 ++ es2)) [] pattern exts =
            TestGaps.count_in_files (Fs.Dir es1) [] pattern exts
            + TestGaps.count_in_files (Fs.Dir es2) [] pattern exts).
Proof.
  intros pattern.
  assert (Hadd : forall fs p fs1 p1 fs2 p2,
             Permutation (Fs.rglob fs p) (Fs.rglob fs1 p1 ++ Fs.rglob fs2 p2) ->
             Optimize.count_patterns fs p pattern =
               Optimize.count_patterns fs1 p1 pattern
               + Optimize.count_patterns fs2 p2 pattern /\
             forall exts,
               TestGaps.count_in_files fs p pattern exts =
                 TestGaps.count_in_files fs1 p1 pattern exts
                 + TestGaps.count_in_files fs2 p2 pattern exts).
  { intros fs p fs1 p1 fs2 p2 Hp. split; [| intros exts].
    - rewrite !count_patterns_total, <- total_app. apply total_permutation, Hp.
    - rewrite !count_in_files_total, <- total_app. apply total_permutation, Hp. }
  split; [exact Hadd |]. split.
  - intros fs p fs' p' Hp. split; [| intros exts].
    + rewrite !count_patterns_total. apply total_permutation, Hp.
    + rewrite !count_in_files_total. apply total_permutation, Hp.
  - intros es1 es2. apply Hadd. unfold Fs.rglob. cbn [Fs.lookup].
    rewrite walk_app. reflexivity.
Qed.

Lemma pattern_count_additive_witness :
  (Optimize.count_patterns
     (Samples.unit_with "keyrx_core" [Samples.file_a; Samples.file_b])
     (Fs.under_root "keyrx_core") Optimize.clone_re =
   Optimize.count_patterns
     (Samples.unit_with "keyrx_daemon" [Samples.file_b])
     (Fs.under_root "keyrx_daemon") Optimize.clone_re
   + Optimize.count_patterns
       (Samples.unit_with "keyrx_compiler" [Samples.file_a])
       (Fs.under_root "keyrx_compiler") Optimize.clone_re) /\
  (Optimize.count_patterns
     (Samples.unit_with "keyrx_core" [Samples.file_a; Samples.file_b])
     (Fs.under_root "keyrx_core") Optimize.clone_re =
   Optimize.count_patterns
     (Samples.unit_with "keyrx_core" [Samples.file_b; Samples.file_a])
     (Fs.under_root "keyrx_core") Optimize.clone_re).
Proof.
  split.
  - apply (proj1 (pattern_count_additive Optimize.clone_re)
                 (Samples.unit_with "keyrx_core" [Samples.file_a; Samples.file_b])
                 (Fs.under_root "keyrx_core")
                 (Samples.unit_with "keyrx_daemon" [Samples.file_b])
                 (Fs.under_root "keyrx_daemon")
                 (Samples.unit_with "keyrx_compiler" [Samples.file_a])
                 (Fs.under_root "keyrx_compiler")).
    apply perm_swap.
  - apply (proj1 (proj2 (pattern_count_additive Optimize.clone_re))
                 (Samples.unit_with "keyrx_core" [Samples.file_a; Samples.file_b])
                 (Fs.under_root "keyrx_core")
                 (Samples.unit_with "keyrx_core" [Samples.file_b; Samples.file_a])
                 (Fs.under_root "keyrx_core")).
    apply perm_swap.
Defined.

(** ** Comparing a count with a quotient *)

Lemma lt_quot_div (n a d : Z) :
  0 < d -> Py.lt_quot n (Py.true_div a d) = (n * d <? a).
Proof.
  intros Hd. unfold Py.lt_quot, Py.true_div.
  destruct (n * d <? a) eqn:E.
  - apply Z.ltb_lt in E. apply Bool.negb_true_iff.
    apply Bool.not_true_is_false. intros H. apply Qle_bool_iff in H.
    unfold Qle, Qdiv, Qmult, Qinv, inject_Z in H. cbn in H.
    destruct d; try lia. cbn in H. nia.
  - apply Z.ltb_ge in E. apply Bool.negb_false_iff. apply Qle_bool_iff.
    unfold Qle, Qdiv, Qmult, Qinv, inject_Z. cbn.
    destruct d; try lia. cbn. nia.
Qed.

Lemma lt_quot_Qlt (n a d : Z) :
  Py.lt_quot n (Py.true_div a d) = true <->
  (inject_Z n < inject_Z a / inject_Z d)%Q.
Proof.
  unfold Py.lt_quot, Py.true_div. rewrite Bool.negb_true_iff. split.
  - intros H. apply Qnot_le_lt. intros Hle. apply Qle_bool_iff in Hle. congruence.
  - intros H. apply Bool.not_true_is_false. intros Hle. apply Qle_bool_iff in Hle.
    apply Qlt_not_le in H. contradiction.
Qed.

(** ** The advisories of one type among those of a run *)

Ltac by_rules :=
  unfold of_type, Optimize.excessive_clones, Optimize.string_allocations,
    Optimize.n_plus_one_query, Optimize.missing_memoization,
    Optimize.inline_objects, Optimize.sequential_awaits,
    TestGaps.untested_functions, TestGaps.missing_error_tests,
    TestGaps.missing_integration_tests, TestGaps.missing_doc_tests;
  repeat match goal with
         | |- context [if ?b then _ else _] => destruct b
         end;
  reflexivity.

Lemma clones_among_suggestions (fs : Fs.node) (module_name : string) :
  of_type "excessive-clones" (fst (Optimize.inspect fs module_name)) =
    Optimize.excessive_clones
      (Optimize.count_patterns fs (Fs.under_root module_name) Optimize.clone_re).
Proof. rewrite OptimizeFacts.inspect_suggestions. by_rules. Qed.

Lemma inline_objects_among_suggestions (fs : Fs.node) (module_name : string) :
  of_type "inline-objects" (fst (Optimize.inspect fs module_name)) =
    if Optimize.is_ui module_name
    then Optimize.inline_objects
           (Optimize.count_patterns fs (Fs.under_root module_name)
                                    Optimize.inline_objects_re)
    else [].
Proof. rewrite OptimizeFacts.inspect_suggestions. by_rules. Qed.

Lemma untested_among_gaps (m : TestGaps.measures) :
  of_type "untested-functions" (TestGaps.find_gaps m) =
    TestGaps.untested_functions (TestGaps.pub_fn_count m) (TestGaps.test_fn_count m).
Proof. unfold TestGaps.find_gaps. by_rules. Qed.

(** C2, as the spec states it, fails: the inline-objects rule sits inside
    the block for "ui" modules.  keyrx_core with 51 inline objects in a
    .tsx file is analyzed, its record is written, and it carries no
    inline-objects suggestion. *)
Lemma inline_objects_skipped_outside_ui :
  Optimize.count_patterns (Samples.one_file "keyrx_core" "view.tsx" Samples.inline_51)
    (Fs.under_root "keyrx_core") Optimize.inline_objects_re = 51 /\
  Optimize.is_ui "keyrx_core" = false /\
  exists rec,
    results_file
      (snd (Optimize.main
              (Samples.fresh (Samples.one_file "keyrx_core" "view.tsx" Samples.inline_51)
                             None)))
    = [rec] /\
    Optimize.module rec = "keyrx_core" /\
    of_type "inline-objects" (Optimize.suggestions rec) = [] /\
    Py.dict_get (Optimize.metrics rec) "inline_objects" = None.
Proof.
  split; [vm_compute; reflexivity |]. split; [reflexivity |].
  eexists. split; [vm_compute; reflexivity |]. repeat split.
Qed.

(** C2, amended.  For every analyzed module whose lower-cased name
    contains "ui": when the inline-object count exceeds 50 the record holds
    exactly one inline-objects suggestion, of severity low and carrying the
    count; at 50 or below it holds none.  For every other module the count
    is not taken and the record holds no inline-objects suggestion. *)
Theorem inline_objects_for_ui_modules :
  forall (w : world Optimize.record) (module_name : string),
    Fs.exists_ (project w) (Fs.under_root module_name) = true ->
    exists rec,
      results_file (snd (Optimize.analyze_module module_name w))
        = results_file w ++ [rec] /\
      Optimize.module rec = module_name /\
      (Optimize.is_ui module_name = true ->
       forall n,
         n = Optimize.count_patterns (project w) (Fs.under_root module_name)
               Optimize.inline_objects_re ->
         Py.dict_get (Optimize.metrics rec) "inline_objects" = Some n /\
         (n > 50 ->
          exists a, of_type "inline-objects" (Optimize.suggestions rec) = [a] /\
                    severity a = low /\ count a = Some n) /\
         (n <= 50 -> of_type "inline-objects" (Optimize.suggestions rec) = [])) /\
      (Optimize.is_ui module_name = false ->
       of_type "inline-objects" (Optimize.suggestions rec) = [] /\
       Py.dict_get (Optimize.metrics rec) "inline_objects" = None).
Proof.
  intros w module_name He.
  destruct (OptimizeFacts.module_found w module_name He) as (r & _ & _ & Ha).
  exists (OptimizeFacts.record_of w module_name).
  rewrite Ha. cbn [snd results_file].
  split; [reflexivity |]. split; [reflexivity |].
  unfold OptimizeFacts.record_of. cbn [Optimize.suggestions Optimize.metrics].
  rewrite inline_objects_among_suggestions.
  split; intros Hui.
  - intros n Hn. rewrite Hui. split.
    + unfold Optimize.inspect, Optimize.react_checks. rewrite Hui. subst n. reflexivity.
    + rewrite <- Hn. unfold Optimize.inline_objects. split; intros Hc.
      * destruct (n >? 50) eqn:E; [| lia]. eexists. split; [reflexivity |]. auto.
      * destruct (n >? 50) eqn:E; [lia | reflexivity].
  - rewrite Hui. split; [reflexivity |].
    unfold Optimize.inspect. rewrite Hui. reflexivity.
Qed.

Lemma inline_objects_for_ui_modules_witness :
  exists rec a,
    results_file (snd (Optimize.analyze_module "keyrx_ui/src"
                         (Samples.fresh (Samples.ui_tree Samples.inline_51) None)))
      = [rec] /\
    of_type "inline-objects" (Optimize.suggestions rec) = [a] /\
    severity a = low /\ count a = Some 51.
Proof.
  destruct (inline_objects_for_ui_modules
              (Samples.fresh (Samples.ui_tree Samples.inline_51) None)
              "keyrx_ui/src" eq_refl) as (rec & Hres & _ & Hui & _).
  destruct (Hui eq_refl 51) as (_ & Hgt & _); [vm_compute; reflexivity |].
  destruct (Hgt ltac:(lia)) as (a & Ha & Hs & Hc).
  exists rec, a. auto.
Defined.

(** ** Rules and their counts *)

(** A rule fires on some counts when it appends an advisory for them. *)
Definition fires (l : list advisory) : Prop := l <> [].

Ltac by_cases :=
  unfold fires, Optimize.excessive_clones, Optimize.string_allocations,
    Optimize.n_plus_one_query, Optimize.missing_memoization,
    Optimize.inline_objects, Optimize.sequential_awaits,
    TestGaps.untested_functions, TestGaps.missing_error_tests,
    TestGaps.missing_integration_tests, TestGaps.missing_doc_tests;
  rewrite ?lt_quot_div by lia;
  repeat match goal with
         | |- context [?a >? ?b] => destruct (Z.gtb_spec a b)
         | |- context [?a <? ?b] => destruct (Z.ltb_spec a b)
         end;
  cbn [andb]; try congruence; try lia.

Lemma clones_rule (n : Z) :
  (n > 50 ->
   Optimize.excessive_clones n =
     [mk_advisory "excessive-clones" medium (Some n)
        ("Found " ++ Text.str_of_Z n
         ++ " .clone() calls. Review for unnecessary memory allocations.")%string]) /\
  (n <= 50 -> Optimize.excessive_clones n = []).
Proof. split; intros H; by_cases. Qed.

(** Rules that compare one count with a literal by [>] keep firing as the
    count grows. *)
Lemma above_threshold_rules_increasing (c c' : Z) :
  c <= c' ->
  (fires (Optimize.excessive_clones c) -> fires (Optimize.excessive_clones c')) /\
  (fires (Optimize.string_allocations c) -> fires (Optimize.string_allocations c')) /\
  (fires (Optimize.n_plus_one_query c) -> fires (Optimize.n_plus_one_query c')) /\
  (fires (Optimize.inline_objects c) -> fires (Optimize.inline_objects c')).
Proof. intros H. repeat split; intros Hf; revert Hf; by_cases. Qed.

(** They fire above their threshold and never at or below it. *)
Lemma above_threshold_rules_thresholds (c : Z) :
  (fires (Optimize.excessive_clones c) <-> c > 50) /\
  (fires (Optimize.string_allocations c) <-> c > 100) /\
  (fires (Optimize.n_plus_one_query c) <-> c > 0) /\
  (fires (Optimize.inline_objects c) <-> c > 50).
Proof. repeat split; intros Hf; revert Hf; by_cases. Qed.

(** Rules that compare one count with a literal by [<] stop firing as the
    count grows. *)
Lemma below_threshold_rules_decreasing (c c' : Z) :
  c <= c' ->
  (fires (TestGaps.missing_integration_tests c') ->
   fires (TestGaps.missing_integration_tests c)) /\
  (fires (TestGaps.missing_doc_tests c') -> fires (TestGaps.missing_doc_tests c)).
Proof. intros H. repeat split; intros Hf; revert Hf; by_cases. Qed.

(** Rules on two counts: increasing in the count that is compared with a
    literal, decreasing in the one compared with its quotient. *)
Lemma ratio_rules_monotone (c c' d : Z) :
  c <= c' ->
  (fires (Optimize.missing_memoization c d) -> fires (Optimize.missing_memoization c' d)) /\
  (fires (Optimize.missing_memoization d c') -> fires (Optimize.missing_memoization d c)) /\
  (fires (TestGaps.untested_functions c d) -> fires (TestGaps.untested_functions c' d)) /\
  (fires (TestGaps.untested_functions d c') -> fires (TestGaps.untested_functions d c)) /\
  (fires (TestGaps.missing_error_tests c d) -> fires (TestGaps.missing_error_tests c' d)) /\
  (fires (TestGaps.missing_error_tests d c') -> fires (TestGaps.missing_error_tests d c)) /\
  (fires (Optimize.sequential_awaits d c) -> fires (Optimize.sequential_awaits d c')).
Proof. intros H. repeat split; intros Hf; revert Hf; by_cases. Qed.

(** Every rule appends at most one advisory. *)
Lemma rules_at_most_one (c d : Z) :
  (List.length (Optimize.excessive_clones c) <= 1)%nat /\
  (List.length (Optimize.string_allocations c) <= 1)%nat /\
  (List.length (Optimize.n_plus_one_query c) <= 1)%nat /\
  (List.length (Optimize.missing_memoization c d) <= 1)%nat /\
  (List.length (Optimize.inline_objects c) <= 1)%nat /\
  (List.length (Optimize.sequential_awaits c d) <= 1)%nat /\
  (List.length (TestGaps.untested_functions c d) <= 1)%nat /\
  (List.length (TestGaps.missing_error_tests c d) <= 1)%nat /\
  (List.length (TestGaps.missing_integration_tests c) <= 1)%nat /\
  (List.length (TestGaps.missing_doc_tests c) <= 1)%nat.
Proof.
  unfold Optimize.excessive_clones, Optimize.string_allocations,
    Optimize.n_plus_one_query, Optimize.missing_memoization,
    Optimize.inline_objects, Optimize.sequential_awaits,
    TestGaps.untested_functions, TestGaps.missing_error_tests,
    TestGaps.missing_integration_tests, TestGaps.missing_doc_tests.
  repeat split;
    match goal with |- context [if ?b then _ else _] => destruct b end; cbn; lia.
Qed.

Lemma awaits_among_suggestions (fs : Fs.node) (module_name : string) :
  of_type "sequential-awaits" (fst (Optimize.inspect fs module_name)) =
    Optimize.sequential_awaits
      (Optimize.count_patterns fs (Fs.under_root module_name) Optimize.async_re)
      (Optimize.count_patterns fs (Fs.under_root module_name) Optimize.await_re).
Proof. rewrite OptimizeFacts.inspect_suggestions. by_rules. Qed.

(** C8, as the spec states it, fails in its last part: the
    sequential-awaits rule is not monotonic in the async-function count it
    measures.  With 56 awaits, a module with 11 async functions gets the
    advisory and one with 12 does not; so no rule "fires from some count
    on" describes it. *)
Lemma sequential_awaits_not_monotonic :
  Optimize.count_patterns (Samples.one_file "keyrx_core" "lib.rs" (Samples.async_text 11))
    (Fs.under_root "keyrx_core") Optimize.async_re = 11 /\
  Optimize.count_patterns (Samples.one_file "keyrx_core" "lib.rs" (Samples.async_text 11))
    (Fs.under_root "keyrx_core") Optimize.await_re = 56 /\
  Optimize.count_patterns (Samples.one_file "keyrx_core" "lib.rs" (Samples.async_text 12))
    (Fs.under_root "keyrx_core") Optimize.async_re = 12 /\
  Optimize.count_patterns (Samples.one_file "keyrx_core" "lib.rs" (Samples.async_text 12))
    (Fs.under_root "keyrx_core") Optimize.await_re = 56 /\
  (exists rec a,
      results_file
        (snd (Optimize.main
                (Samples.fresh
                   (Samples.one_file "keyrx_core" "lib.rs" (Samples.async_text 11)) None)))
      = [rec] /\
      of_type "sequential-awaits" (Optimize.suggestions rec) = [a]) /\
  (exists rec,
      results_file
        (snd (Optimize.main
                (Samples.fresh
                   (Samples.one_file "keyrx_core" "lib.rs" (Samples.async_text 12)) None)))
      = [rec] /\
      of_type "sequential-awaits" (Optimize.suggestions rec) = []) /\
  ~ (forall async_count async_count' await_count : Z,
        async_count <= async_count' ->
        fires (Optimize.sequential_awaits async_count await_count) ->
        fires (Optimize.sequential_awaits async_count' await_count)).
Proof.
  repeat split; try (vm_compute; reflexivity).
  - eexists _, _. split; vm_compute; reflexivity.
  - eexists. split; vm_compute; reflexivity.
  - intros H. specialize (H 11 12 56 ltac:(lia)).
    apply H; [discriminate | reflexivity].
Qed.

(** C8, amended.  On every analyzed module the excessive-clones rule
    appends exactly one suggestion, of severity medium and carrying the
    count, when the clone count exceeds 50, and none at 50 or below; a
    module whose one file holds 51 clone calls gets exactly one, with
    count 51.  Every rule appends at most one advisory.  The rules that
    compare one count with a literal are monotonic in it: those with [>]
    fire exactly above their threshold, those with [<] stop firing as the
    count grows.  The rules on two counts are monotonic in each count,
    sequential-awaits in its await count only. *)
Theorem excessive_clones_rule_and_monotone_rules :
  (forall (w : world Optimize.record) (module_name : string),
      Fs.exists_ (project w) (Fs.under_root module_name) = true ->
      exists rec,
        results_file (snd (Optimize.analyze_module module_name w))
          = results_file w ++ [rec] /\
        forall n,
          n = Optimize.count_patterns (project w) (Fs.under_root module_name)
                Optimize.clone_re ->
          (n > 50 ->
           exists a, of_type "excessive-clones" (Optimize.suggestions rec) = [a] /\
                     severity a = medium /\ count a = Some n) /\
          (n <= 50 -> of_type "excessive-clones" (Optimize.suggestions rec) = [])) /\
  (exists rec a,
      results_file
        (snd (Optimize.main
                (Samples.fresh (Samples.one_file "keyrx_core" "lib.rs" Samples.clones_51)
                               None)))
      = [rec] /\
      Optimize.suggestions rec = [a] /\
      type a = "excessive-clones"%string /\ severity a = medium /\ count a = Some 51) /\
  (forall c c' d : Z,
      c <= c' ->
      ((fires (Optimize.excessive_clones c) <-> c > 50) /\
       (fires (Optimize.string_allocations c) <-> c > 100) /\
       (fires (Optimize.n_plus_one_query c) <-> c > 0) /\
       (fires (Optimize.inline_objects c) <-> c > 50)) /\
      ((fires (Optimize.excessive_clones c) -> fires (Optimize.excessive_clones c')) /\
       (fires (Optimize.string_allocations c) -> fires (Optimize.string_allocations c')) /\
       (fires (Optimize.n_plus_one_query c) -> fires (Optimize.n_plus_one_query c')) /\
       (fires (Optimize.inline_objects c) -> fires (Optimize.inline_objects c'))) /\
      ((fires (TestGaps.missing_integration_tests c') ->
        fires (TestGaps.missing_integration_tests c)) /\
       (fires (TestGaps.missing_doc_tests c') -> fires (TestGaps.missing_doc_tests c))) /\
      ((fires (Optimize.missing_memoization c d) ->
        fires (Optimize.missing_memoization c' d)) /\
       (fires (Optimize.missing_memoization d c') ->
        fires (Optimize.missing_memoization d c)) /\
       (fires (TestGaps.untested_functions c d) ->
        fires (TestGaps.untested_functions c' d)) /\
       (fires (TestGaps.untested_functions d c') ->
        fires (TestGaps.untested_functions d c)) /\
       (fires (TestGaps.missing_error_tests c d) ->
        fires (TestGaps.missing_error_tests c' d)) /\
       (fires (TestGaps.missing_error_tests d c') ->
        fires (TestGaps.missing_error_tests d c)) /\
       (fires (Optimize.sequential_awaits d c) ->
        fires (Optimize.sequential_awaits d c'))) /\
      (List.length (Optimize.excessive_clones c) <= 1)%nat /\
      (List.length (Optimize.string_allocations c) <= 1)%nat /\
      (List.length (Optimize.n_plus_one_query c) <= 1)%nat /\
      (List.length (Optimize.missing_memoization c d) <= 1)%nat /\
      (List.length (Optimize.inline_objects c) <= 1)%nat /\
      (List.length (Optimize.sequential_awaits c d) <= 1)%nat /\
      (List.length (TestGaps.untested_functions c d) <= 1)%nat /\
      (List.length (TestGaps.missing_error_tests c d) <= 1)%nat /\
      (List.length (TestGaps.missing_integration_tests c) <= 1)%nat /\
      (List.length (TestGaps.missing_doc_tests c) <= 1)%nat).
Proof.
  split; [| split].
  - intros w module_name He.
    destruct (OptimizeFacts.module_found w module_name He) as (r & _ & _ & Ha).
    exists (OptimizeFacts.record_of w module_name).
    rewrite Ha. cbn [snd results_file]. split; [reflexivity |].
    intros n Hn. unfold OptimizeFacts.record_of. cbn [Optimize.suggestions].
    rewrite clones_among_suggestions, <- Hn.
    destruct (clones_rule n) as [Hgt Hle]. split; intros Hc.
    + rewrite (Hgt Hc). eexists. split; [reflexivity |]. auto.
    + apply Hle, Hc.
  - eexists _, _. split; [vm_compute; reflexivity |]. repeat split.
  - intros c c' d Hc.
    split; [apply above_threshold_rules_thresholds |].
    split; [apply above_threshold_rules_increasing, Hc |].
    split; [apply below_threshold_rules_decreasing, Hc |].
    split; [apply ratio_rules_monotone, Hc |].
    apply rules_at_most_one.
Qed.

Lemma excessive_clones_rule_and_monotone_rules_witness :
  (exists rec a,
      results_file
        (snd (Optimize.analyze_module "keyrx_core"
                (Samples.fresh (Samples.one_file "keyrx_core" "lib.rs" Samples.clones_51)
                               None)))
      = [rec] /\
      of_type "excessive-clones" (Optimize.suggestions rec) = [a] /\
      severity a = medium /\ count a = Some 51) /\
  (fires (Optimize.excessive_clones 51) -> fires (Optimize.excessive_clones 52)).
Proof.
  split.
  - destruct (proj1 excessive_clones_rule_and_monotone_rules
                (Samples.fresh (Samples.one_file "keyrx_core" "lib.rs" Samples.clones_51)
                               None)
                "keyrx_core" eq_refl) as (rec & Hres & Hn).
    destruct (Hn 51) as (Hgt & _); [vm_compute; reflexivity |].
    destruct (Hgt ltac:(lia)) as (a & Ha & Hs & Hc).
    exists rec, a. auto.
  - apply (proj2 (proj2 excessive_clones_rule_and_monotone_rules) 51 52 0 ltac:(lia)).
Defined.

Lemma untested_rule (p t : Z) :
  (fires (TestGaps.untested_functions p t) <->
   p > 0 /\ (inject_Z t < inject_Z p / inject_Z 2)%Q) /\
  (p > 0 /\ (inject_Z t < inject_Z p / inject_Z 2)%Q ->
   exists a, TestGaps.untested_functions p t = [a] /\
             type a = "untested-functions"%string /\ severity a = high) /\
  (~ (p > 0 /\ (inject_Z t < inject_Z p / inject_Z 2)%Q) ->
   TestGaps.untested_functions p t = []).
Proof.
  unfold fires, TestGaps.untested_functions.
  destruct (Z.gtb_spec p 0) as [Hp | Hp]; cbn [andb].
  - destruct (Py.lt_quot t (Py.true_div p 2)) eqn:E.
    + apply lt_quot_Qlt in E. split; [split | split].
      * intros _. split; [lia | exact E].
      * intros _. discriminate.
      * intros _. eexists. split; [reflexivity |]. auto.
      * intros H. exfalso. apply H. split; [lia | exact E].
    + assert (Hn : ~ (inject_Z t < inject_Z p / inject_Z 2)%Q)
        by (intros H; apply lt_quot_Qlt in H; congruence).
      split; [split | split].
      * congruence.
      * tauto.
      * tauto.
      * reflexivity.
  - split; [split | split].
    + congruence.
    + intros [H _]. lia.
    + intros [H _]. lia.
    + reflexivity.
Qed.

(** C7. The untested-functions rule appends a gap of severity high exactly
    when the public-function count is positive and the test count is below
    half of it: on every analyzed crate, for the counts of "pub fn" under
    src and of "#[test]" under tests; 10 public functions and 2 tests give
    the gap, 10 and 6 give none. *)
Theorem untested_functions_rule :
  (forall (w : world TestGaps.record) (crate_name : string),
      Fs.exists_ (project w) (Fs.under_root crate_name) = true ->
      exists rec,
        results_file (snd (TestGaps.analyze_crate crate_name w))
          = results_file w ++ [rec] /\
        forall p t,
          p = TestGaps.count_in_files (project w)
                (Fs.child (Fs.under_root crate_name) "src") TestGaps.pub_fn_re None ->
          t = TestGaps.count_in_files (project w)
                (Fs.child (Fs.under_root crate_name) "tests") TestGaps.test_attr_re None ->
          (p > 0 /\ (inject_Z t < inject_Z p / inject_Z 2)%Q ->
           exists a, of_type "untested-functions" (TestGaps.gaps rec) = [a] /\
                     severity a = high) /\
          (~ (p > 0 /\ (inject_Z t < inject_Z p / inject_Z 2)%Q) ->
           of_type "untested-functions" (TestGaps.gaps rec) = [])) /\
  (forall p t : Z,
      (fires (TestGaps.untested_functions p t) <->
       p > 0 /\ (inject_Z t < inject_Z p / inject_Z 2)%Q) /\
      (fires (TestGaps.untested_functions p t) <-> p > 0 /\ 2 * t < p)) /\
  (exists a, TestGaps.untested_functions 10 2 = [a] /\
             type a = "untested-functions"%string /\ severity a = high) /\
  TestGaps.untested_functions 10 6 = [] /\
  (exists rec a,
      results_file
        (snd (TestGaps.main
                (Samples.fresh
                   (Samples.crate_tree "keyrx_core" Samples.ten_pub_fns (Samples.tests 2))
                   None)))
      = [rec] /\
      Py.dict_get (TestGaps.metrics rec) "public_functions" = Some 10 /\
      Py.dict_get (TestGaps.metrics rec) "test_functions" = Some 2 /\
      of_type "untested-functions" (TestGaps.gaps rec) = [a] /\ severity a = high) /\
  (exists rec,
      results_file
        (snd (TestGaps.main
                (Samples.fresh
                   (Samples.crate_tree "keyrx_core" Samples.ten_pub_fns (Samples.tests 6))
                   None)))
      = [rec] /\
      Py.dict_get (TestGaps.metrics rec) "public_functions" = Some 10 /\
      Py.dict_get (TestGaps.metrics rec) "test_functions" = Some 6 /\
      of_type "untested-functions" (TestGaps.gaps rec) = []).
Proof.
  split; [| split; [| split; [| split; [| split]]]].
  - intros w crate_name He.
    destruct (TestGapsFacts.crate_found w crate_name He) as (r & _ & _ & Ha).
    exists (TestGapsFacts.record_of w crate_name).
    rewrite Ha. cbn [snd results_file]. split; [reflexivity |].
    intros p t Hp Ht. unfold TestGapsFacts.record_of. cbn [TestGaps.gaps].
    rewrite untested_among_gaps. unfold TestGaps.measure.
    cbn [TestGaps.pub_fn_count TestGaps.test_fn_count]. rewrite <- Hp, <- Ht.
    destruct (untested_rule p t) as (_ & Hyes & Hno). split.
    + intros H. destruct (Hyes H) as (a & Hr & _ & Hs). exists a. rewrite Hr. auto.
    + exact Hno.
  - intros p t. split; [apply untested_rule |].
    unfold fires, TestGaps.untested_functions. rewrite lt_quot_div by lia.
    destruct (Z.gtb_spec p 0); destruct (Z.ltb_spec (t * 2) p); cbn [andb];
      split; try congruence; try lia; intros _; discriminate.
  - eexists. split; [reflexivity |]. auto.
  - reflexivity.
  - eexists _, _. split; [vm_compute; reflexivity |]. repeat split.
  - eexists. split; [vm_compute; reflexivity |]. repeat split.
Qed.

Lemma untested_functions_rule_witness :
  exists rec a,
    results_file
      (snd (TestGaps.analyze_crate "keyrx_core"
              (Samples.fresh
                 (Samples.crate_tree "keyrx_core" Samples.ten_pub_fns (Samples.tests 2))
                 None)))
    = [rec] /\
    of_type "untested-functions" (TestGaps.gaps rec) = [a] /\ severity a = high.
Proof.
  destruct (proj1 untested_functions_rule
              (Samples.fresh
                 (Samples.crate_tree "keyrx_core" Samples.ten_pub_fns (Samples.tests 2))
                 None)
              "keyrx_core" eq_refl) as (rec & Hres & Hrule).
  destruct (Hrule 10 2) as (Hyes & _); [vm_compute; reflexivity .. |].
  destruct Hyes as (a & Ha & Hs).
  - split; [lia |]. unfold Qlt. cbn. lia.
  - exists rec, a. auto.
Defined.

(** C6. The coverage estimate is the floor of test_lines * 100 /
    source_lines when source_lines is positive and 0 when it is 0, without
    any division by zero; it is 0 for source_lines 0 whatever test_lines,
    and 50 for 100 source lines and 50 test lines.  The record of every
    analyzed crate carries the estimate for the lines counted under src
    and under tests. *)
Theorem coverage_estimate_is_floor :
  (forall source_lines test_lines : Z,
      source_lines > 0 ->
      TestGaps.estimated_coverage source_lines test_lines
        = test_lines * 100 / source_lines /\
      TestGaps.estimated_coverage source_lines test_lines * source_lines
        <= test_lines * 100
        < (TestGaps.estimated_coverage source_lines test_lines + 1) * source_lines) /\
  (forall test_lines : Z, TestGaps.estimated_coverage 0 test_lines = 0) /\
  TestGaps.estimated_coverage 100 50 = 50 /\
  (forall (w : world TestGaps.record) (crate_name : string),
      Fs.exists_ (project w) (Fs.under_root crate_name) = true ->
      exists rec,
        results_file (snd (TestGaps.analyze_crate crate_name w))
          = results_file w ++ [rec] /\
        TestGaps.estimatedCoverage rec =
          TestGaps.estimated_coverage
            (TestGaps.count_lines (project w)
               (Fs.child (Fs.under_root crate_name) "src") None)
            (if Fs.exists_ (project w) (Fs.child (Fs.under_root crate_name) "tests")
             then TestGaps.count_lines (project w)
                    (Fs.child (Fs.under_root crate_name) "tests") None
             else 0) /\
        Py.dict_get (TestGaps.metrics rec) "estimated_coverage"
          = Some (TestGaps.estimatedCoverage rec)).
Proof.
  split; [| split; [| split]].
  - intros s t Hs. unfold TestGaps.estimated_coverage.
    destruct (Z.gtb_spec s 0); [| lia]. split; [reflexivity |].
    pose proof (Z.mul_div_le (t * 100) s ltac:(lia)).
    pose proof (Z.mul_succ_div_gt (t * 100) s ltac:(lia)). lia.
  - intros t. reflexivity.
  - reflexivity.
  - intros w crate_name He.
    destruct (TestGapsFacts.crate_found w crate_name He) as (r & _ & _ & Ha).
    exists (TestGapsFacts.record_of w crate_name).
    rewrite Ha. cbn [snd results_file]. split; [reflexivity |].
    split; reflexivity.
Qed.

Lemma coverage_estimate_is_floor_witness :
  (TestGaps.estimated_coverage 3 2 = 2 * 100 / 3 /\
   TestGaps.estimated_coverage 3 2 * 3 <= 2 * 100
     < (TestGaps.estimated_coverage 3 2 + 1) * 3) /\
  (exists rec,
      results_file
        (snd (TestGaps.analyze_crate "keyrx_core"
                (Samples.fresh
                   (Samples.crate_tree "keyrx_core" Samples.ten_pub_fns (Samples.tests 2))
                   None)))
      = [] ++ [rec] /\
      TestGaps.estimatedCoverage rec =
        TestGaps.estimated_coverage
          (TestGaps.count_lines
             (Samples.crate_tree "keyrx_core" Samples.ten_pub_fns (Samples.tests 2))
             (Fs.child (Fs.under_root "keyrx_core") "src") None)
          (if Fs.exists_
                (Samples.crate_tree "keyrx_core" Samples.ten_pub_fns (Samples.tests 2))
                (Fs.child (Fs.under_root "keyrx_core") "tests")
           then TestGaps.count_lines
                  (Samples.crate_tree "keyrx_core" Samples.ten_pub_fns (Samples.tests 2))
                  (Fs.child (Fs.under_root "keyrx_core") "tests") None
           else 0) /\
      Py.dict_get (TestGaps.metrics rec) "estimated_coverage"
        = Some (TestGaps.estimatedCoverage rec)).
Proof.
  split.
  - apply (proj1 coverage_estimate_is_floor 3 2). lia.
  - apply (proj2 (proj2 (proj2 coverage_estimate_is_floor))
             (Samples.fresh
                (Samples.crate_tree "keyrx_core" Samples.ten_pub_fns (Samples.tests 2))
                None)
             "keyrx_core").
    reflexivity.
Defined.

(* ================================================================== *)
(** * Further properties of the workers *)

(** ** The state file *)



(** ** The list of completed units *)

Lemma mem_In (x : string) (l : list string) : Text.mem x l = true <-> In x l.
Proof.
  unfold Text.mem. rewrite existsb_exists. split.
  - intros (y & Hy & He). apply String.eqb_eq in He. subst. exact Hy.
  - intros H. exists x. split; [exact H | apply String.eqb_refl].
Qed.

(** [completed] after "if unit_name not in ...: append". *)
Definition add_unique (l : list string) (u : string) : list string :=
  if Text.mem u l then l else l ++ [u].

Lemma add_unique_In (l : list string) (u : string) : In u (add_unique l u).
Proof.
  unfold add_unique. destruct (Text.mem u l) eqn:E.
  - apply mem_In, E.
  - apply in_or_app. right. left. reflexivity.
Qed.

Lemma add_unique_NoDup (l : list string) (u : string) :
  NoDup l -> NoDup (add_unique l u).
Proof.
  intros H. unfold add_unique. destruct (Text.mem u l) eqn:E; [exact H |].
  apply NoDup_app; [exact H | repeat constructor; cbn; tauto |].
  intros x Hx [Hu | []]. subst x. apply mem_In in Hx. congruence.
Qed.

Module RotationMore.

Section More.

Context {R Res : Type}.
Variable UNITS : list string.
Variable analyze : string -> M R Res.
Variable success : Res -> bool.
Variable unit_of : Res -> string.

Hypothesis analyze_ok : RotationFacts.well_behaved analyze unit_of.

(** The analysis at most appends one record to the results file. *)
Definition appends_at_most_one : Prop :=
  forall u w, exists l,
    results_file (snd (analyze u w)) = results_file w ++ l /\
    (List.length l <= 1)%nat.

Hypothesis analyze_appends : appends_at_most_one.

Lemma update_completed (st : state) (i : Z) (u now : string) :
  completed (Rotation.update UNITS st i u now) = add_unique (completed st) u /\
  last_analyzed (Rotation.update UNITS st i u now) = Some now.
Proof.
  unfold Rotation.update, add_unique, set_last_analyzed, set_current_index,
    append_completed.
  cbn [completed last_analyzed current_index].
  destruct (Text.mem u (completed st)); cbn [negb completed last_analyzed]; auto.
Qed.

Lemma wrap_completed (st : state) :
  completed (snd (Rotation.wrap UNITS st)) = completed st.
Proof. unfold Rotation.wrap. destruct (_ >=? _); reflexivity. Qed.

(** What a run that returns did to the list of completed units. *)
Lemma main_completed (w w' : world R) (c : Z) (r : Res) (st : state) (w0 : world R) :
  Rotation.main UNITS analyze success w = (Ok (c, r), w') ->
  Rotation.get_state w = (Ok st, w0) ->
  exists st',
    state_file w' = Some st' /\
    completed st' = add_unique (completed st) (unit_of r) /\
    last_analyzed st' <> None.
Proof.
  intros Hm Hg.
  destruct (Py.index UNITS (fst (Rotation.wrap UNITS st))) as [u |] eqn:Hi.
  - destruct (RotationFacts.main_selects UNITS analyze success unit_of analyze_ok
                w w0 st u Hg Hi) as (r1 & w1 & Ha & Hm1).
    rewrite Hm1 in Hm. inversion Hm; subst. clear Hm.
    destruct (analyze_ok u w0) as (r2 & w2 & Ha2 & Hu & _).
    rewrite Ha in Ha2. inversion Ha2; subst.
    eexists. split; [reflexivity |].
    destruct (update_completed (snd (Rotation.wrap UNITS st))
                (fst (Rotation.wrap UNITS st)) (unit_of r2)
                (now_utc w2 (ticks w2))) as [Hc Hl].
    rewrite Hc, Hl, wrap_completed. split; [reflexivity | discriminate].
  - rewrite (RotationFacts.main_raises UNITS analyze success w w0 st Hg Hi) in Hm.
    discriminate.
Qed.

(** Whatever a run does, it leaves the project tree alone and the results
    file with at most one more record at its end. *)
Lemma main_frame (w : world R) :
  project (snd (Rotation.main UNITS analyze success w)) = project w /\
  exists l,
    results_file (snd (Rotation.main UNITS analyze success w)) = results_file w ++ l /\
    (List.length l <= 1)%nat.
Proof.
  destruct (RotationFacts.get_state_returns w)
    as (st & w0 & Hg & _ & Hp & Hr & _).
  destruct (Py.index UNITS (fst (Rotation.wrap UNITS st))) as [u |] eqn:Hi.
  - destruct (RotationFacts.main_selects UNITS analyze success unit_of analyze_ok
                w w0 st u Hg Hi) as (r1 & w1 & Ha & Hm1).
    rewrite Hm1. cbn [snd project results_file].
    destruct (analyze_ok u w0) as (r2 & w2 & Ha2 & _ & _ & _ & Hp2).
    rewrite Ha in Ha2. inversion Ha2; subst r2 w2.
    split; [congruence |].
    destruct (analyze_appends u w0) as (l & Hl & Hlen).
    rewrite Ha in Hl. cbn [snd] in Hl. exists l. rewrite Hl, Hr. auto.
  - rewrite (RotationFacts.main_raises UNITS analyze success w w0 st Hg Hi).
    cbn [snd]. split; [exact Hp |]. exists []. rewrite app_nil_r. auto.
Qed.

(** [n] runs from an index in range: every one returns, with code 0 or 1,
    having selected the unit at (i + k) mod N; the completed units
    accumulate without repetition; the tree is untouched and the results
    file has grown by at most [n] records. *)
Lemma invoke_trace (n : nat) : forall (w : world R) (st : state),
  state_file w = Some st ->
  0 <= current_index st < Py.len UNITS ->
  exists os w' st' units,
    Rotation.invoke UNITS analyze success n w = (os, w') /\
    Forall2 (fun o u => exists r, o = Ok (if success r then 0 else 1, r) /\
                                  unit_of r = u) os units /\
    map Some units =
      map (fun k => Py.index UNITS ((current_index st + Z.of_nat k) mod Py.len UNITS))
          (seq 0 n) /\
    state_file w' = Some st' /\
    current_index st' = (current_index st + Z.of_nat n) mod Py.len UNITS /\
    completed st' = fold_left add_unique units (completed st) /\
    project w' = project w /\
    exists l, results_file w' = results_file w ++ l /\ (List.length l <= n)%nat.
Proof.
  induction n as [| n IH]; intros w st Hs Hi.
  - exists [], w, st, []. cbn. rewrite Z.add_0_r, Z.mod_small by lia.
    repeat split; auto. exists []. rewrite app_nil_r. auto.
  - assert (Hw : Rotation.wrap UNITS st = (current_index st, st))
      by (apply RotationFacts.wrap_unchanged; lia).
    destruct (index_defined UNITS (current_index st)) as (u & Hu); [lia |].
    pose proof (RotationFacts.get_state_present w st Hs) as Hg.
    assert (Hu' : Py.index UNITS (fst (Rotation.wrap UNITS st)) = Some u)
      by (rewrite Hw; exact Hu).
    destruct (RotationFacts.main_selects UNITS analyze success unit_of analyze_ok
                w w st u Hg Hu') as (r & w1 & Ha & Hm).
    rewrite Hw in Hm. cbn [fst snd] in Hm.
    destruct (analyze_ok u w) as (r2 & w2 & Ha2 & Hr & _ & _ & Hp).
    rewrite Ha in Ha2. inversion Ha2; subst r2 w2. clear Ha2.
    destruct (analyze_appends u w) as (l1 & Hl1 & Hlen1).
    rewrite Ha in Hl1. cbn [snd] in Hl1.
    set (st1 := Rotation.update UNITS st (current_index st) u (now_utc w1 (ticks w1))) in *.
    match type of Hm with _ = (_, ?x) => set (wn := x) in * end.
    assert (Hi1 : current_index st1 = (current_index st + 1) mod Py.len UNITS)
      by apply RotationFacts.update_index.
    assert (Hr1 : 0 <= current_index st1 < Py.len UNITS)
      by (rewrite Hi1; apply Z.mod_pos_bound; lia).
    destruct (IH wn st1 eq_refl Hr1)
      as (os & w' & st' & units & Hinv & Hall & Hmap & Hs' & Hi' & Hc' & Hp' & l & Hl & Hlen).
    exists (Ok (if success r then 0 else 1, r) :: os), w', st', (u :: units).
    cbn [Rotation.invoke]. rewrite Hm, Hinv.
    split; [reflexivity |]. split.
    { constructor; [exists r; auto | exact Hall]. }
    split.
    { cbn [map seq]. f_equal.
      - rewrite Z.add_0_r, Z.mod_small by lia. symmetry. exact Hu.
      - rewrite Hmap, <- seq_shift, map_map. apply map_ext. intros k.
        rewrite Hi1, Zplus_mod_idemp_l. do 2 f_equal. lia. }
    split; [exact Hs' |]. split.
    { rewrite Hi', Hi1, Zplus_mod_idemp_l. f_equal. lia. }
    split.
    { rewrite Hc'. cbn [fold_left]. f_equal. apply update_completed. }
    split.
    { rewrite Hp'. cbn. exact Hp. }
    exists (l1 ++ l). rewrite Hl. cbn [results_file wn]. rewrite Hl1, <- app_assoc.
    split; [reflexivity |]. rewrite length_app. lia.
Qed.

(** A run over a missing state file is the run over the file [get_state]
    creates. *)
Lemma main_creates (w : world R) :
  state_file w = None ->
  Rotation.main UNITS analyze success w =
    Rotation.main UNITS analyze success (snd (Rotation.get_state w)).
Proof.
  intros Hn. rewrite (RotationFacts.get_state_missing w Hn). cbn [snd].
  set (w0 := mk_world _ _ _ _ _ _).
  unfold Rotation.main, bind.
  rewrite (RotationFacts.get_state_missing w Hn).
  rewrite (RotationFacts.get_state_present w0 RotationFacts.initial eq_refl).
  reflexivity.
Qed.

End More.

End RotationMore.

Lemma module_appends :
  RotationMore.appends_at_most_one Optimize.analyze_module.
Proof.
  intros u w. destruct (Fs.exists_ (project w) (Fs.under_root u)) eqn:E.
  - destruct (OptimizeFacts.module_found w u E) as (r & _ & _ & Ha).
    rewrite Ha. cbn. eexists. split; [reflexivity |]. cbn. lia.
  - rewrite (OptimizeFacts.module_missing w u E). cbn.
    exists []. rewrite app_nil_r. auto.
Qed.

Lemma crate_appends :
  RotationMore.appends_at_most_one TestGaps.analyze_crate.
Proof.
  intros u w. destruct (Fs.exists_ (project w) (Fs.under_root u)) eqn:E.
  - destruct (TestGapsFacts.crate_found w u E) as (r & _ & _ & Ha).
    rewrite Ha. cbn. eexists. split; [reflexivity |]. cbn. lia.
  - rewrite (TestGapsFacts.crate_missing w u E). cbn.
    exists []. rewrite app_nil_r. auto.
Qed.

(** X2. A run that returns records the unit it analyzed in the list of
    completed units, at the end when it is new and not at all when it is
    already there, so a list without repetition stays without repetition;
    and it dates the state. *)
Theorem completed_units_recorded_once :
  (forall (w w' w0 : world Optimize.record) c r st,
      Optimize.main w = (Ok (c, r), w') ->
      Rotation.get_state w = (Ok st, w0) ->
      exists st',
        state_file w' = Some st' /\
        In (Optimize.result_module r) (completed st') /\
        (In (Optimize.result_module r) (completed st) ->
         completed st' = completed st) /\
        (~ In (Optimize.result_module r) (completed st) ->
         completed st' = completed st ++ [Optimize.result_module r]) /\
        (NoDup (completed st) -> NoDup (completed st')) /\
        last_analyzed st' <> None) /\
  (forall (w w' w0 : world TestGaps.record) c r st,
      TestGaps.main w = (Ok (c, r), w') ->
      Rotation.get_state w = (Ok st, w0) ->
      exists st',
        state_file w' = Some st' /\
        In (TestGaps.result_crate r) (completed st') /\
        (In (TestGaps.result_crate r) (completed st) ->
         completed st' = completed st) /\
        (~ In (TestGaps.result_crate r) (completed st) ->
         completed st' = completed st ++ [TestGaps.result_crate r]) /\
        (NoDup (completed st) -> NoDup (completed st')) /\
        last_analyzed st' <> None).
Proof.
  assert (Hadd : forall l u,
             (In u l -> add_unique l u = l) /\
             (~ In u l -> add_unique l u = l ++ [u])).
  { intros l u. unfold add_unique. destruct (Text.mem u l) eqn:E.
    - split; [reflexivity |]. intros H. exfalso. apply H, mem_In, E.
    - split; [| reflexivity]. intros H. apply mem_In in H. congruence. }
  split; intros w w' w0 c r st Hm Hg.
  - destruct (RotationMore.main_completed Optimize.MODULES Optimize.analyze_module
                Optimize.success Optimize.result_module
                OptimizeFacts.module_well_behaved w w' c r st w0 Hm Hg)
      as (st' & Hs & Hc & Hl).
    exists st'. rewrite Hc. split; [exact Hs |].
    split; [apply add_unique_In |]. split; [apply Hadd |]. split; [apply Hadd |].
    split; [apply add_unique_NoDup | exact Hl].
  - destruct (RotationMore.main_completed TestGaps.CRATES TestGaps.analyze_crate
                TestGaps.success TestGaps.result_crate
                TestGapsFacts.crate_well_behaved w w' c r st w0 Hm Hg)
      as (st' & Hs & Hc & Hl).
    exists st'. rewrite Hc. split; [exact Hs |].
    split; [apply add_unique_In |]. split; [apply Hadd |]. split; [apply Hadd |].
    split; [apply add_unique_NoDup | exact Hl].
Qed.

Lemma completed_units_recorded_once_witness :
  exists st',
    state_file (snd (Optimize.main
                       (Samples.fresh Samples.bare
                          (Some (mk_state 1 ["keyrx_core"; "keyrx_daemon"] None)))))
      = Some st' /\
    completed st' = ["keyrx_core"; "keyrx_daemon"]%string /\
    last_analyzed st' <> None.
Proof.
  destruct (proj1 completed_units_recorded_once
              (Samples.fresh Samples.bare
                 (Some (mk_state 1 ["keyrx_core"; "keyrx_daemon"] None)))
              (snd (Optimize.main
                      (Samples.fresh Samples.bare
                         (Some (mk_state 1 ["keyrx_core"; "keyrx_daemon"] None)))))
              (Samples.fresh Samples.bare
                 (Some (mk_state 1 ["keyrx_core"; "keyrx_daemon"] None)))
              1 (Optimize.Failure "keyrx_daemon" "Module not found")
              (mk_state 1 ["keyrx_core"; "keyrx_daemon"] None)
              eq_refl eq_refl)
    as (st' & Hs & _ & Hin & _ & _ & Hl).
  exists st'. split; [exact Hs |]. split; [| exact Hl].
  apply Hin. cbn. auto.
Defined.

(** X5. Whatever the state file holds, a run leaves the project tree as
    it found it, and the results file as it was but for at most one record
    added at its end: no earlier record is changed or removed. *)
Theorem run_only_appends :
  (forall w : world Optimize.record,
      project (snd (Optimize.main w)) = project w /\
      exists l,
        results_file (snd (Optimize.main w)) = results_file w ++ l /\
        (List.length l <= 1)%nat) /\
  (forall w : world TestGaps.record,
      project (snd (TestGaps.main w)) = project w /\
      exists l,
        results_file (snd (TestGaps.main w)) = results_file w ++ l /\
        (List.length l <= 1)%nat).
Proof.
  split; intros w.
  - apply (RotationMore.main_frame Optimize.MODULES Optimize.analyze_module
             Optimize.success Optimize.result_module
             OptimizeFacts.module_well_behaved module_appends).
  - apply (RotationMore.main_frame TestGaps.CRATES TestGaps.analyze_crate
             TestGaps.success TestGaps.result_crate
             TestGapsFacts.crate_well_behaved crate_appends).
Qed.

Lemma map_Some_inj {A} (l1 l2 : list A) : map Some l1 = map Some l2 -> l1 = l2.
Proof.
  revert l2. induction l1 as [| x l1 IH]; intros [| y l2] H; cbn in H;
    try discriminate; [reflexivity |].
  inversion H; subst. f_equal. apply IH. assumption.
Qed.

(** X4. Once the index is in [0, N), any number of consecutive runs all
    return, each with exit code 0 or 1 after analyzing the unit at
    (i + k) mod N for the k-th of them; after [n] runs the saved index is
    (i + n) mod N, the project tree is unchanged and the results file has
    grown by at most [n] records, all at its end. *)
Theorem runs_from_valid_index :
  (forall (n : nat) (w : world Optimize.record) (st : state),
      state_file w = Some st ->
      0 <= current_index st < Py.len Optimize.MODULES ->
      exists os w' st' units,
        Optimize.invoke n w = (os, w') /\
        Forall2 (fun o u =>
                   exists r, o = Ok (if Optimize.success r then 0 else 1, r) /\
                             Optimize.result_module r = u) os units /\
        map Some units =
          map (fun k => Py.index Optimize.MODULES
                          ((current_index st + Z.of_nat k) mod Py.len Optimize.MODULES))
              (seq 0 n) /\
        state_file w' = Some st' /\
        current_index st' =
          (current_index st + Z.of_nat n) mod Py.len Optimize.MODULES /\
        project w' = project w /\
        exists l, results_file w' = results_file w ++ l /\ (List.length l <= n)%nat) /\
  (forall (n : nat) (w : world TestGaps.record) (st : state),
      state_file w = Some st ->
      0 <= current_index st < Py.len TestGaps.CRATES ->
      exists os w' st' units,
        TestGaps.invoke n w = (os, w') /\
        Forall2 (fun o u =>
                   exists r, o = Ok (if TestGaps.success r then 0 else 1, r) /\
                             TestGaps.result_crate r = u) os units /\
        map Some units =
          map (fun k => Py.index TestGaps.CRATES
                          ((current_index st + Z.of_nat k) mod Py.len TestGaps.CRATES))
              (seq 0 n) /\
        state_file w' = Some st' /\
        current_index st' =
          (current_index st + Z.of_nat n) mod Py.len TestGaps.CRATES /\
        project w' = project w /\
        exists l, results_file w' = results_file w ++ l /\ (List.length l <= n)%nat).
Proof.
  split; intros n w st Hs Hi.
  - destruct (RotationMore.invoke_trace Optimize.MODULES Optimize.analyze_module
                Optimize.success Optimize.result_module
                OptimizeFacts.module_well_behaved module_appends n w st Hs Hi)
      as (os & w' & st' & units & H1 & H2 & H3 & H4 & H5 & _ & H7 & H8).
    exists os, w', st', units. auto 10.
  - destruct (RotationMore.invoke_trace TestGaps.CRATES TestGaps.analyze_crate
                TestGaps.success TestGaps.result_crate
                TestGapsFacts.crate_well_behaved crate_appends n w st Hs Hi)
      as (os & w' & st' & units & H1 & H2 & H3 & H4 & H5 & _ & H7 & H8).
    exists os, w', st', units. auto 10.
Qed.

Lemma runs_from_valid_index_witness :
  exists os w' st' units,
    TestGaps.invoke 7%nat (Samples.fresh Samples.bare (Samples.at_index 2)) = (os, w') /\
    Forall2 (fun o u =>
               exists r, o = Ok (if TestGaps.success r then 0 else 1, r) /\
                         TestGaps.result_crate r = u) os units /\
    map Some units =
      map (fun k => Py.index TestGaps.CRATES
                      ((2 + Z.of_nat k) mod Py.len TestGaps.CRATES))
          (seq 0 7%nat) /\
    state_file w' = Some st' /\
    current_index st' = (2 + Z.of_nat 7%nat) mod Py.len TestGaps.CRATES /\
    project w' = Samples.bare /\
    exists l, results_file w' = [] ++ l /\ (List.length l <= 7)%nat.
Proof.
  apply (proj2 runs_from_valid_index 7%nat
           (Samples.fresh Samples.bare (Samples.at_index 2)) (mk_state 2 [] None)).
  - reflexivity.
  - cbn. lia.
Defined.

(** X3. Starting without a state file, N runs analyze the units of the
    list in its order, each once; afterwards the state file holds index 0
    again and the whole list, in order, as completed units. *)
Theorem first_cycle_completes_every_unit :
  (forall w : world Optimize.record,
      state_file w = None ->
      exists os w' st',
        Optimize.invoke (List.length Optimize.MODULES) w = (os, w') /\
        Forall2 (fun o u =>
                   exists r, o = Ok (if Optimize.success r then 0 else 1, r) /\
                             Optimize.result_module r = u) os Optimize.MODULES /\
        state_file w' = Some st' /\
        current_index st' = 0 /\
        completed st' = Optimize.MODULES) /\
  (forall w : world TestGaps.record,
      state_file w = None ->
      exists os w' st',
        TestGaps.invoke (List.length TestGaps.CRATES) w = (os, w') /\
        Forall2 (fun o u =>
                   exists r, o = Ok (if TestGaps.success r then 0 else 1, r) /\
                             TestGaps.result_crate r = u) os TestGaps.CRATES /\
        state_file w' = Some st' /\
        current_index st' = 0 /\
        completed st' = TestGaps.CRATES).
Proof.
  split; intros w Hn.
  - pose proof (RotationMore.main_creates Optimize.MODULES Optimize.analyze_module
                  Optimize.success w Hn) as Hc.
    rewrite (RotationFacts.get_state_missing w Hn) in Hc. cbn [snd] in Hc.
    match type of Hc with _ = Rotation.main _ _ _ ?x => set (w0 := x) in * end.
    destruct (RotationMore.invoke_trace Optimize.MODULES Optimize.analyze_module
                Optimize.success Optimize.result_module
                OptimizeFacts.module_well_behaved module_appends
                (List.length Optimize.MODULES) w0 RotationFacts.initial eq_refl)
      as (os & w' & st' & units & H1 & H2 & H3 & H4 & H5 & H6 & _); [cbn; lia |].
    change (map Some units = map Some Optimize.MODULES) in H3.
    apply map_Some_inj in H3. subst units.
    exists os, w', st'. split.
    + unfold Optimize.invoke in *. cbn [List.length Optimize.MODULES Rotation.invoke] in *.
      fold Optimize.MODULES in *. rewrite Hc. exact H1.
    + split; [exact H2 |]. split; [exact H4 |]. split; [exact H5 | exact H6].
  - pose proof (RotationMore.main_creates TestGaps.CRATES TestGaps.analyze_crate
                  TestGaps.success w Hn) as Hc.
    rewrite (RotationFacts.get_state_missing w Hn) in Hc. cbn [snd] in Hc.
    match type of Hc with _ = Rotation.main _ _ _ ?x => set (w0 := x) in * end.
    destruct (RotationMore.invoke_trace TestGaps.CRATES TestGaps.analyze_crate
                TestGaps.success TestGaps.result_crate
                TestGapsFacts.crate_well_behaved crate_appends
                (List.length TestGaps.CRATES) w0 RotationFacts.initial eq_refl)
      as (os & w' & st' & units & H1 & H2 & H3 & H4 & H5 & H6 & _); [cbn; lia |].
    change (map Some units = map Some TestGaps.CRATES) in H3.
    apply map_Some_inj in H3. subst units.
    exists os, w', st'. split.
    + unfold TestGaps.invoke in *. cbn [List.length TestGaps.CRATES Rotation.invoke] in *.
      fold TestGaps.CRATES in *. rewrite Hc. exact H1.
    + split; [exact H2 |]. split; [exact H4 |]. split; [exact H5 | exact H6].
Qed.

Lemma first_cycle_completes_every_unit_witness :
  exists os w' st',
    Optimize.invoke (List.length Optimize.MODULES) (Samples.fresh Samples.bare None)
      = (os, w') /\
    Forall2 (fun o u =>
               exists r, o = Ok (if Optimize.success r then 0 else 1, r) /\
                         Optimize.result_module r = u) os Optimize.MODULES /\
    state_file w' = Some st' /\
    current_index st' = 0 /\
    completed st' = Optimize.MODULES.
Proof.
  apply (proj1 first_cycle_completes_every_unit (Samples.fresh Samples.bare None)).
  reflexivity.
Defined.

(** ** The counters *)

Lemma total_cons (f : Fs.entry -> Z) (e : Fs.entry) (l : list Fs.entry) :
  total f (e :: l) = f e + total f l.
Proof. reflexivity. Qed.

Lemma total_bounds (f g : Fs.entry -> Z) (l : list Fs.entry) :
  (forall e, f e <= g e) -> total f l <= total g l.
Proof.
  intros H. induction l as [| e l IH]; [reflexivity |].
  rewrite !total_cons. specialize (H e). lia.
Qed.

Lemma total_zero (l : list Fs.entry) : total (fun _ => 0) l = 0.
Proof. induction l as [| e l IH]; [reflexivity | rewrite total_cons; lia]. Qed.

Lemma total_ext (f g : Fs.entry -> Z) (l : list Fs.entry) :
  (forall e, In e l -> f e = g e) -> total f l = total g l.
Proof.
  intros H. induction l as [| e l IH]; [reflexivity |].
  rewrite !total_cons. rewrite IH by (intros x Hx; apply H; cbn; auto).
  rewrite (H e) by (cbn; auto). reflexivity.
Qed.

(** What one entry adds to [count_files] and to [count_lines]. *)
Definition file_weight (exts : list string) (e : Fs.entry) : Z :=
  if Fs.is_file e && Text.mem (Fs.suffix e) exts then 1 else 0.

Definition line_weight (exts : list string) (e : Fs.entry) : Z :=
  if Fs.is_file e && Text.mem (Fs.suffix e) exts then
    match Fs.read_text e with
    | Some content => Py.len (Text.splitlines content)
    | None => 0
    end
  else 0.

Lemma count_files_total (fs : Fs.node) (p : Fs.path) (exts : option (list string)) :
  TestGaps.count_files fs p exts =
    total (file_weight (TestGaps.default_extensions exts)) (Fs.rglob fs p).
Proof.
  unfold TestGaps.count_files. cbv zeta.
  rewrite (fold_step (file_weight (TestGaps.default_extensions exts))); [lia |].
  intros acc e. unfold file_weight. destruct (_ && _); lia.
Qed.

Lemma count_lines_total (fs : Fs.node) (p : Fs.path) (exts : option (list string)) :
  TestGaps.count_lines fs p exts =
    total (line_weight (TestGaps.default_extensions exts)) (Fs.rglob fs p).
Proof.
  unfold TestGaps.count_lines. cbv zeta.
  rewrite (fold_step (line_weight (TestGaps.default_extensions exts))); [lia |].
  intros acc e. unfold line_weight.
  destruct (_ && _); [destruct (Fs.read_text e) |]; lia.
Qed.

(** An entry that is a directory, has a suffix outside the list, or cannot
    be read. *)
Definition skipped (exts : list string) (e : Fs.entry) : Prop :=
  Fs.is_file e = false \/ Text.mem (Fs.suffix e) exts = false \/ Fs.read_text e = None.

Lemma skipped_adds_nothing (pattern : Re.regex) (exts : list string) (e : Fs.entry) :
  skipped exts e ->
  TestGaps.count_step pattern exts 0 e = 0 /\ line_weight exts e = 0.
Proof.
  unfold skipped, TestGaps.count_step, line_weight.
  intros [H | [H | H]]; rewrite H; rewrite ?andb_false_r; cbn [andb];
    [auto | auto |].
  destruct (_ && _); auto.
Qed.

Lemma optimize_step_is_testgaps_step (pattern : Re.regex) (acc : Z) (e : Fs.entry) :
  Optimize.count_step pattern acc e =
    TestGaps.count_step pattern Optimize.source_suffixes acc e.
Proof. reflexivity. Qed.

(** X6. An entry that is a directory, a file whose suffix is not in the
    list, or a file that cannot be read adds nothing to [count_patterns],
    [count_in_files] and [count_lines]: the counts are those of the
    traversal without it, and the scan goes on past it. *)
Theorem skipped_entries_add_nothing :
  forall (pattern : Re.regex) (fs : Fs.node) (p : Fs.path)
         (fs' : Fs.node) (p' : Fs.path) (e : Fs.entry),
    Permutation (Fs.rglob fs p) (e :: Fs.rglob fs' p') ->
    (skipped Optimize.source_suffixes e ->
     Optimize.count_patterns fs p pattern = Optimize.count_patterns fs' p' pattern) /\
    (forall exts,
        skipped (TestGaps.default_extensions exts) e ->
        TestGaps.count_in_files fs p pattern exts =
          TestGaps.count_in_files fs' p' pattern exts /\
        TestGaps.count_lines fs p exts = TestGaps.count_lines fs' p' exts).
Proof.
  intros pattern fs p fs' p' e Hp. split.
  - intros Hs. rewrite !count_patterns_total.
    rewrite (total_permutation _ _ _ Hp), total_cons.
    rewrite optimize_step_is_testgaps_step.
    destruct (skipped_adds_nothing pattern _ e Hs) as [H _]. rewrite H. lia.
  - intros exts Hs. destruct (skipped_adds_nothing pattern _ e Hs) as [H1 H2]. split.
    + rewrite !count_in_files_total, (total_permutation _ _ _ Hp), total_cons, H1. lia.
    + rewrite !count_lines_total, (total_permutation _ _ _ Hp), total_cons, H2. lia.
Qed.

Module MoreSamples.

(** A source file that cannot be read, a notes file and a subdirectory. *)
Definition locked : string * Fs.node := ("locked.rs", Fs.File None).
Definition notes : string * Fs.node :=
  ("notes.md", Fs.File (Some "call .clone() here")).
Definition empty_dir : string * Fs.node := ("target", Fs.Dir []).

(** A Rust file of three lines with one public function and one Result. *)
Definition lib_rs : string * Fs.node :=
  ("lib.rs",
   Fs.File (Some ("pub fn run() -> Result<(), E> {" ++ String (ascii_of_nat 10)
                  ("    Ok(())" ++ String (ascii_of_nat 10)
                  ("}" ++ String (ascii_of_nat 10) "")))%string)).

End MoreSamples.

Lemma skipped_entries_add_nothing_witness :
  Optimize.count_patterns
    (Samples.unit_with "keyrx_core" [MoreSamples.locked; Samples.file_a])
    (Fs.under_root "keyrx_core") Optimize.clone_re
  = Optimize.count_patterns
      (Samples.unit_with "keyrx_core" [Samples.file_a])
      (Fs.under_root "keyrx_core") Optimize.clone_re /\
  TestGaps.count_lines
    (Samples.unit_with "keyrx_core" [MoreSamples.notes; MoreSamples.lib_rs])
    (Fs.under_root "keyrx_core") None
  = TestGaps.count_lines
      (Samples.unit_with "keyrx_core" [MoreSamples.lib_rs])
      (Fs.under_root "keyrx_core") None.
Proof.
  split.
  - apply (proj1 (skipped_entries_add_nothing Optimize.clone_re
                    (Samples.unit_with "keyrx_core" [MoreSamples.locked; Samples.file_a])
                    (Fs.under_root "keyrx_core")
                    (Samples.unit_with "keyrx_core" [Samples.file_a])
                    (Fs.under_root "keyrx_core")
                    MoreSamples.locked (Permutation_refl _))).
    right. right. reflexivity.
  - apply (proj2 (skipped_entries_add_nothing Optimize.clone_re
                    (Samples.unit_with "keyrx_core" [MoreSamples.notes; MoreSamples.lib_rs])
                    (Fs.under_root "keyrx_core")
                    (Samples.unit_with "keyrx_core" [MoreSamples.lib_rs])
                    (Fs.under_root "keyrx_core")
                    MoreSamples.notes (Permutation_refl _)) None).
    right. left. reflexivity.
Defined.

(** X7. Below a path that is missing or is a regular file the traversal
    finds nothing, and every counter returns 0 without raising. *)
Theorem counters_without_directory :
  forall (fs : Fs.node) (p : Fs.path),
    (forall es, Fs.lookup fs p <> Some (Fs.Dir es)) ->
    (forall pattern, Optimize.count_patterns fs p pattern = 0) /\
    (forall pattern exts, TestGaps.count_in_files fs p pattern exts = 0) /\
    (forall exts, TestGaps.count_files fs p exts = 0) /\
    (forall exts, TestGaps.count_lines fs p exts = 0).
Proof.
  intros fs p H.
  assert (Hr : Fs.rglob fs p = []).
  { unfold Fs.rglob. destruct (Fs.lookup fs p) as [[t | es] |]; try reflexivity.
    exfalso. apply (H es). reflexivity. }
  unfold Optimize.count_patterns, TestGaps.count_in_files, TestGaps.count_files,
    TestGaps.count_lines.
  rewrite Hr. repeat split.
Qed.

Lemma counters_without_directory_witness :
  (forall pattern,
      Optimize.count_patterns (Samples.unit_with "keyrx_core" [Samples.file_a])
        (Fs.under_root "keyrx_daemon") pattern = 0) /\
  (forall exts,
      TestGaps.count_lines (Samples.unit_with "keyrx_core" [Samples.file_a])
        (Fs.under_root "keyrx_core/a.rs") exts = 0).
Proof.
  split.
  - apply (proj1 (counters_without_directory
                    (Samples.unit_with "keyrx_core" [Samples.file_a])
                    (Fs.under_root "keyrx_daemon")
                    ltac:(intros es; discriminate))).
  - apply (proj2 (proj2 (proj2 (counters_without_directory
                    (Samples.unit_with "keyrx_core" [Samples.file_a])
                    (Fs.under_root "keyrx_core/a.rs")
                    ltac:(intros es; discriminate))))).
Defined.


Lemma count_step_nonneg (pattern : Re.regex) (exts : list string) (e : Fs.entry) :
  0 <= TestGaps.count_step pattern exts 0 e.
Proof.
  unfold TestGaps.count_step.
  destruct (_ && _); [destruct (Fs.read_text e) |]; lia.
Qed.

Lemma total_nonneg (f : Fs.entry -> Z) (l : list Fs.entry) :
  (forall e, 0 <= f e) -> 0 <= total f l.
Proof.
  intros H. rewrite <- (total_zero l). apply total_bounds. exact H.
Qed.



Lemma total_file_weight (exts : list string) (l : list Fs.entry) :
  total (file_weight exts) l =
    Z.of_nat (List.length
                (filter (fun e => Fs.is_file e && Text.mem (Fs.suffix e) exts) l)).
Proof.
  induction l as [| e l IH]; [reflexivity |].
  rewrite total_cons, IH. unfold file_weight. cbn [filter].
  destruct (_ && _); cbn [List.length]; lia.
Qed.

(** X9. [count_files] returns the number of regular files under the path
    whose suffix is in the list, between 0 and the number of entries; it
    does not open them, so a file that cannot be read counts like any
    other. *)
Theorem count_files_counts_files :
  forall (fs : Fs.node) (p : Fs.path) (exts : option (list string)),
    TestGaps.count_files fs p exts =
      Py.len (filter (fun e => Fs.is_file e
                               && Text.mem (Fs.suffix e) (TestGaps.default_extensions exts))
                     (Fs.rglob fs p)) /\
    0 <= TestGaps.count_files fs p exts <= Py.len (Fs.rglob fs p) /\
    (forall fs' p' e,
        Permutation (Fs.rglob fs p) (e :: Fs.rglob fs' p') ->
        Fs.is_file e = true ->
        Text.mem (Fs.suffix e) (TestGaps.default_extensions exts) = true ->
        TestGaps.count_files fs p exts = TestGaps.count_files fs' p' exts + 1).
Proof.
  intros fs p exts.
  assert (Heq : TestGaps.count_files fs p exts =
                Py.len (filter (fun e => Fs.is_file e
                                  && Text.mem (Fs.suffix e) (TestGaps.default_extensions exts))
                               (Fs.rglob fs p))).
  { rewrite count_files_total. apply total_file_weight. }
  split; [exact Heq |]. split.
  - rewrite Heq. unfold Py.len.
    pose proof (filter_length_le
                  (fun e => Fs.is_file e
                            && Text.mem (Fs.suffix e) (TestGaps.default_extensions exts))
                  (Fs.rglob fs p)).
    lia.
  - intros fs' p' e Hp Hf Hm.
    rewrite !count_files_total, (total_permutation _ _ _ Hp), total_cons.
    unfold file_weight at 1. rewrite Hf, Hm. cbn [andb]. lia.
Qed.

Lemma count_files_counts_files_witness :
  TestGaps.count_files
    (Samples.unit_with "keyrx_core" [MoreSamples.locked; MoreSamples.lib_rs])
    (Fs.under_root "keyrx_core") None
  = TestGaps.count_files
      (Samples.unit_with "keyrx_core" [MoreSamples.lib_rs])
      (Fs.under_root "keyrx_core") None + 1.
Proof.
  apply (proj2 (proj2 (count_files_counts_files
                         (Samples.unit_with "keyrx_core"
                            [MoreSamples.locked; MoreSamples.lib_rs])
                         (Fs.under_root "keyrx_core") None))
               (Samples.unit_with "keyrx_core" [MoreSamples.lib_rs])
               (Fs.under_root "keyrx_core") MoreSamples.locked
               (Permutation_refl _)); reflexivity.
Defined.

(** X10. Line counting and file counting are additive and
    order-independent across files, like pattern counting: when the files
    found under one root are those found under two others taken together,
    in any order, each count is the sum of the two counts. *)
Theorem line_and_file_counts_additive :
  forall (exts : option (list string)) fs p fs1 p1 fs2 p2,
    Permutation (Fs.rglob fs p) (Fs.rglob fs1 p1 ++ Fs.rglob fs2 p2) ->
    TestGaps.count_lines fs p exts =
      TestGaps.count_lines fs1 p1 exts + TestGaps.count_lines fs2 p2 exts /\
    TestGaps.count_files fs p exts =
      TestGaps.count_files fs1 p1 exts + TestGaps.count_files fs2 p2 exts.
Proof.
  intros exts fs p fs1 p1 fs2 p2 Hp. split.
  - rewrite !count_lines_total, <- total_app. apply total_permutation, Hp.
  - rewrite !count_files_total, <- total_app. apply total_permutation, Hp.
Qed.

Lemma line_and_file_counts_additive_witness :
  TestGaps.count_lines
    (Samples.unit_with "keyrx_core" [Samples.file_a; MoreSamples.lib_rs])
    (Fs.under_root "keyrx_core") None
  = TestGaps.count_lines
      (Samples.unit_with "keyrx_daemon" [MoreSamples.lib_rs])
      (Fs.under_root "keyrx_daemon") None
    + TestGaps.count_lines
        (Samples.unit_with "keyrx_compiler" [Samples.file_a])
        (Fs.under_root "keyrx_compiler") None /\
  TestGaps.count_files
    (Samples.unit_with "keyrx_core" [Samples.file_a; MoreSamples.lib_rs])
    (Fs.under_root "keyrx_core") None
  = TestGaps.count_files
      (Samples.unit_with "keyrx_daemon" [MoreSamples.lib_rs])
      (Fs.under_root "keyrx_daemon") None
    + TestGaps.count_files
        (Samples.unit_with "keyrx_compiler" [Samples.file_a])
        (Fs.under_root "keyrx_compiler") None.
Proof.
  apply (line_and_file_counts_additive None
           (Samples.unit_with "keyrx_core" [Samples.file_a; MoreSamples.lib_rs])
           (Fs.under_root "keyrx_core")
           (Samples.unit_with "keyrx_daemon" [MoreSamples.lib_rs])
           (Fs.under_root "keyrx_daemon")
           (Samples.unit_with "keyrx_compiler" [Samples.file_a])
           (Fs.under_root "keyrx_compiler")).
  apply perm_swap.
Defined.

(** ** What a run logs and prints *)

Lemma module_logged (w : world Optimize.record) (module_name : string) :
  Fs.exists_ (project w) (Fs.under_root module_name) = true ->
  Optimize.analyze_module module_name w =
    (Ok (Optimize.Success module_name
           (Py.len (fst (Optimize.inspect (project w) module_name)))
           (snd (Optimize.inspect (project w) module_name))
           ("Analyzed " ++ module_name ++ ": found "
            ++ Text.str_of_Z (Py.len (fst (Optimize.inspect (project w) module_name)))
            ++ " optimization opportunities")%string),
     mk_world (project w) (state_file w)
              (results_file w ++ [OptimizeFacts.record_of w module_name])
              (saves w) (now_utc w) (S (ticks w))).
Proof.
  intros H. unfold Optimize.analyze_module, bind, get_project, OptimizeFacts.record_of.
  rewrite H. cbn [negb].
  destruct (Optimize.inspect (project w) module_name) as [sugg met]. reflexivity.
Qed.

Lemma crate_logged (w : world TestGaps.record) (crate_name : string) :
  Fs.exists_ (project w) (Fs.under_root crate_name) = true ->
  TestGaps.analyze_crate crate_name w =
    (Ok (let m := TestGaps.measure (project w) crate_name in
         let coverage :=
           TestGaps.estimated_coverage (TestGaps.source_lines m) (TestGaps.test_lines m) in
         TestGaps.Success crate_name (Py.len (TestGaps.find_gaps m)) coverage
           (TestGaps.metrics_of m)
           ("Analyzed " ++ crate_name ++ ": ~" ++ Text.str_of_Z coverage
            ++ "% coverage, found " ++ Text.str_of_Z (Py.len (TestGaps.find_gaps m))
            ++ " gaps")%string),
     mk_world (project w) (state_file w)
              (results_file w ++ [TestGapsFacts.record_of w crate_name])
              (saves w) (now_utc w) (S (ticks w))).
Proof.
  intros H. unfold TestGaps.analyze_crate, bind, get_project, TestGapsFacts.record_of.
  rewrite H. reflexivity.
Qed.

(** X13. The object a successful run prints and the record it logs agree:
    same unit, same count of advisories, which is the length of the logged
    list, same metrics (and same coverage estimate for the test-gap
    worker); the record is stamped with the clock read before the state is
    dated, and the exit code is 0. *)
Theorem printed_result_matches_record :
  (forall (w w' : world Optimize.record) c r,
      Optimize.main w = (Ok (c, r), w') ->
      Optimize.success r = true ->
      exists rec message,
        results_file w' = results_file w ++ [rec] /\
        r = Optimize.Success (Optimize.module rec) (Optimize.suggestionCount rec)
              (Optimize.metrics rec) message /\
        Optimize.suggestionCount rec = Py.len (Optimize.suggestions rec) /\
        Optimize.timestamp rec = now_utc w (ticks w) /\
        (exists st', state_file w' = Some st' /\
                     last_analyzed st' = Some (now_utc w (S (ticks w)))) /\
        c = 0) /\
  (forall (w w' : world TestGaps.record) c r,
      TestGaps.main w = (Ok (c, r), w') ->
      TestGaps.success r = true ->
      exists rec message,
        results_file w' = results_file w ++ [rec] /\
        r = TestGaps.Success (TestGaps.crate rec) (TestGaps.gapCount rec)
              (TestGaps.estimatedCoverage rec) (TestGaps.metrics rec) message /\
        TestGaps.gapCount rec = Py.len (TestGaps.gaps rec) /\
        TestGaps.timestamp rec = now_utc w (ticks w) /\
        (exists st', state_file w' = Some st' /\
                     last_analyzed st' = Some (now_utc w (S (ticks w)))) /\
        c = 0).
Proof.
  split; intros w w' c r Hm Hsucc.
  - unfold Optimize.main in Hm.
    destruct (RotationFacts.get_state_returns w)
      as (st & w0 & Hg & _ & Hp & Hr0 & Hn0 & Ht0 & _).
    destruct (Py.index Optimize.MODULES (fst (Rotation.wrap Optimize.MODULES st)))
      as [u |] eqn:Hi.
    + destruct (RotationFacts.main_selects Optimize.MODULES Optimize.analyze_module
                  Optimize.success Optimize.result_module
                  OptimizeFacts.module_well_behaved w w0 st u Hg Hi)
        as (r1 & w1 & Ha & Hm1).
      rewrite Hm1 in Hm. inversion Hm; subst r1 w' c. clear Hm.
      destruct (Fs.exists_ (project w0) (Fs.under_root u)) eqn:He.
      * rewrite (module_logged w0 u He) in Ha. inversion Ha; subst r w1. clear Ha.
        eexists (OptimizeFacts.record_of w0 u), _.
        unfold OptimizeFacts.record_of.
        cbn [results_file project now_utc ticks state_file Optimize.module
             Optimize.suggestionCount Optimize.metrics Optimize.suggestions
             Optimize.timestamp].
        rewrite Hr0, <- Hn0, <- Ht0.
        split; [reflexivity |]. split; [reflexivity |]. split; [reflexivity |].
        split; [reflexivity |]. split; [| reflexivity].
        eexists. split; [reflexivity |].
        apply (RotationMore.update_completed Optimize.MODULES).
      * rewrite (OptimizeFacts.module_missing w0 u He) in Ha.
        inversion Ha; subst r. discriminate.
    + rewrite (RotationFacts.main_raises Optimize.MODULES Optimize.analyze_module
                 Optimize.success w w0 st Hg Hi) in Hm. discriminate.
  - unfold TestGaps.main in Hm.
    destruct (RotationFacts.get_state_returns w)
      as (st & w0 & Hg & _ & Hp & Hr0 & Hn0 & Ht0 & _).
    destruct (Py.index TestGaps.CRATES (fst (Rotation.wrap TestGaps.CRATES st)))
      as [u |] eqn:Hi.
    + destruct (RotationFacts.main_selects TestGaps.CRATES TestGaps.analyze_crate
                  TestGaps.success TestGaps.result_crate
                  TestGapsFacts.crate_well_behaved w w0 st u Hg Hi)
        as (r1 & w1 & Ha & Hm1).
      rewrite Hm1 in Hm. inversion Hm; subst r1 w' c. clear Hm.
      destruct (Fs.exists_ (project w0) (Fs.under_root u)) eqn:He.
      * rewrite (crate_logged w0 u He) in Ha. inversion Ha; subst r w1. clear Ha.
        eexists (TestGapsFacts.record_of w0 u), _.
        unfold TestGapsFacts.record_of.
        cbn [results_file project now_utc ticks state_file TestGaps.crate
             TestGaps.gapCount TestGaps.metrics TestGaps.gaps
             TestGaps.estimatedCoverage TestGaps.timestamp].
        rewrite Hr0, <- Hn0, <- Ht0.
        split; [reflexivity |]. split; [reflexivity |]. split; [reflexivity |].
        split; [reflexivity |]. split; [| reflexivity].
        eexists. split; [reflexivity |].
        apply (RotationMore.update_completed TestGaps.CRATES).
      * rewrite (TestGapsFacts.crate_missing w0 u He) in Ha.
        inversion Ha; subst r. discriminate.
    + rewrite (RotationFacts.main_raises TestGaps.CRATES TestGaps.analyze_crate
                 TestGaps.success w w0 st Hg Hi) in Hm. discriminate.
Qed.

Lemma printed_result_matches_record_witness :
  exists rec,
    results_file
      (snd (Optimize.main
              (Samples.fresh (Samples.one_file "keyrx_core" "lib.rs" "fn main() {}") None)))
    = [rec] /\
    Optimize.module rec = "keyrx_core"%string /\
    Optimize.suggestionCount rec = Py.len (Optimize.suggestions rec) /\
    Optimize.timestamp rec = Samples.clock 0.
Proof.
  destruct (proj1 printed_result_matches_record
              (Samples.fresh (Samples.one_file "keyrx_core" "lib.rs" "fn main() {}") None)
              (snd (Optimize.main
                      (Samples.fresh (Samples.one_file "keyrx_core" "lib.rs" "fn main() {}")
                                     None)))
              0
              (Optimize.Success "keyrx_core" 0
                 [("clones", 0); ("string_allocations", 0);
                  ("potential_n_plus_one", 0); ("async_functions", 0); ("awaits", 0)]
                 "Analyzed keyrx_core: found 0 optimization opportunities")
              eq_refl eq_refl)
    as (rec & message & Hres & Hr & Hcount & Hts & _).
  exists rec. split; [exact Hres |]. split; [| split; [exact Hcount | exact Hts]].
  inversion Hr. reflexivity.
Defined.

(** ** Order and number of the advisories *)

(** The types of the suggestions and of the gaps in the order their
    blocks come in [analyze_module] and [analyze_crate]. *)
Definition suggestion_order : list string :=
  ["excessive-clones"; "string-allocations"; "n+1-query"; "missing-memoization";
   "inline-objects"; "sequential-awaits"]%string.

Definition gap_order : list string :=
  ["untested-functions"; "missing-error-tests"; "missing-integration-tests";
   "missing-doc-tests"]%string.

Lemma suggestions_in_order (fs : Fs.node) (module_name : string) :
  let l := fst (Optimize.inspect fs module_name) in
  map type l = filter (fun t => Text.mem t (map type l)) suggestion_order /\
  (List.length l <= 6)%nat /\
  (Optimize.is_ui module_name = false -> (List.length l <= 4)%nat).
Proof.
  cbv zeta. rewrite OptimizeFacts.inspect_suggestions.
  unfold Optimize.excessive_clones, Optimize.string_allocations,
    Optimize.n_plus_one_query, Optimize.missing_memoization,
    Optimize.inline_objects, Optimize.sequential_awaits.
  destruct (Optimize.is_ui module_name);
    repeat match goal with
           | |- context [if ?b then _ else _] => destruct b
           end;
    (split; [reflexivity | split; [cbn; lia | intros H; try discriminate H; cbn; lia]]).
Qed.

Lemma gaps_in_order (m : TestGaps.measures) :
  let l := TestGaps.find_gaps m in
  map type l = filter (fun t => Text.mem t (map type l)) gap_order /\
  (List.length l <= 4)%nat.
Proof.
  cbv zeta. unfold TestGaps.find_gaps, TestGaps.untested_functions,
    TestGaps.missing_error_tests, TestGaps.missing_integration_tests,
    TestGaps.missing_doc_tests.
  repeat match goal with
         | |- context [if ?b then _ else _] => destruct b
         end;
    (split; [reflexivity | cbn; lia]).
Qed.

(** X11. The suggestions in a record of the optimization worker come in
    the order of the checks (excessive-clones, string-allocations,
    n+1-query, missing-memoization, inline-objects, sequential-awaits),
    each type at most once: at most six, and at most four for a module
    whose name does not contain "ui". *)
Theorem suggestions_follow_check_order :
  forall (w : world Optimize.record) (module_name : string),
    Fs.exists_ (project w) (Fs.under_root module_name) = true ->
    exists rec,
      results_file (snd (Optimize.analyze_module module_name w))
        = results_file w ++ [rec] /\
      map type (Optimize.suggestions rec) =
        filter (fun t => Text.mem t (map type (Optimize.suggestions rec)))
               suggestion_order /\
      NoDup (map type (Optimize.suggestions rec)) /\
      0 <= Optimize.suggestionCount rec <= 6 /\
      (Optimize.is_ui module_name = false -> Optimize.suggestionCount rec <= 4).
Proof.
  intros w module_name He. rewrite (module_logged w module_name He).
  exists (OptimizeFacts.record_of w module_name). cbn [snd results_file].
  split; [reflexivity |]. unfold OptimizeFacts.record_of.
  cbn [Optimize.suggestions Optimize.suggestionCount].
  destruct (suggestions_in_order (project w) module_name) as (Ho & H6 & H4).
  cbv zeta in Ho, H6, H4. split; [exact Ho |]. split.
  - rewrite Ho. apply NoDup_filter. unfold suggestion_order.
    repeat (constructor; [cbn; intuition discriminate |]). constructor.
  - unfold Py.len. split; [lia |]. intros Hui. specialize (H4 Hui). lia.
Qed.

Lemma suggestions_follow_check_order_witness :
  exists rec,
    results_file
      (snd (Optimize.analyze_module "keyrx_core"
              (Samples.fresh (Samples.one_file "keyrx_core" "lib.rs" Samples.clones_51)
                             None)))
    = [] ++ [rec] /\
    map type (Optimize.suggestions rec) =
      filter (fun t => Text.mem t (map type (Optimize.suggestions rec)))
             suggestion_order /\
    NoDup (map type (Optimize.suggestions rec)) /\
    0 <= Optimize.suggestionCount rec <= 6 /\
    (Optimize.is_ui "keyrx_core" = false -> Optimize.suggestionCount rec <= 4).
Proof.
  apply (suggestions_follow_check_order
           (Samples.fresh (Samples.one_file "keyrx_core" "lib.rs" Samples.clones_51) None)
           "keyrx_core").
  reflexivity.
Defined.

(** X12. The gaps in a record of the test-gap worker come in the order of
    the checks (untested-functions, missing-error-tests,
    missing-integration-tests, missing-doc-tests), each type at most once,
    so there are at most four. *)
Theorem gaps_follow_check_order :
  forall (w : world TestGaps.record) (crate_name : string),
    Fs.exists_ (project w) (Fs.under_root crate_name) = true ->
    exists rec,
      results_file (snd (TestGaps.analyze_crate crate_name w))
        = results_file w ++ [rec] /\
      map type (TestGaps.gaps rec) =
        filter (fun t => Text.mem t (map type (TestGaps.gaps rec))) gap_order /\
      NoDup (map type (TestGaps.gaps rec)) /\
      0 <= TestGaps.gapCount rec <= 4.
Proof.
  intros w crate_name He. rewrite (crate_logged w crate_name He).
  exists (TestGapsFacts.record_of w crate_name). cbn [snd results_file].
  split; [reflexivity |]. unfold TestGapsFacts.record_of.
  cbn [TestGaps.gaps TestGaps.gapCount].
  destruct (gaps_in_order (TestGaps.measure (project w) crate_name)) as (Ho & H4).
  cbv zeta in Ho, H4. split; [exact Ho |]. split.
  - rewrite Ho. apply NoDup_filter. unfold gap_order.
    repeat (constructor; [cbn; intuition discriminate |]). constructor.
  - unfold Py.len. lia.
Qed.

Lemma gaps_follow_check_order_witness :
  exists rec,
    results_file
      (snd (TestGaps.analyze_crate "keyrx_core"
              (Samples.fresh
                 (Samples.crate_tree "keyrx_core" Samples.ten_pub_fns (Samples.tests 2))
                 None)))
    = [] ++ [rec] /\
    map type (TestGaps.gaps rec) =
      filter (fun t => Text.mem t (map type (TestGaps.gaps rec))) gap_order /\
    NoDup (map type (TestGaps.gaps rec)) /\
    0 <= TestGaps.gapCount rec <= 4.
Proof.
  apply (gaps_follow_check_order
           (Samples.fresh
              (Samples.crate_tree "keyrx_core" Samples.ten_pub_fns (Samples.tests 2))
              None)
           "keyrx_core").
  reflexivity.
Defined.

(** ** The metrics of a record *)

Lemma count_patterns_nonneg (fs : Fs.node) (p : Fs.path) (pattern : Re.regex) :
  0 <= Optimize.count_patterns fs p pattern.
Proof.
  rewrite count_patterns_total. apply total_nonneg. intros e.
  rewrite optimize_step_is_testgaps_step. apply count_step_nonneg.
Qed.

Lemma count_in_files_nonneg (fs : Fs.node) (p : Fs.path) (pattern : Re.regex) exts :
  0 <= TestGaps.count_in_files fs p pattern exts.
Proof.
  rewrite count_in_files_total. apply total_nonneg. intros e. apply count_step_nonneg.
Qed.

Lemma count_files_nonneg (fs : Fs.node) (p : Fs.path) exts :
  0 <= TestGaps.count_files fs p exts.
Proof.
  rewrite count_files_total. apply total_nonneg. intros e.
  unfold file_weight. destruct (_ && _); lia.
Qed.

Lemma count_lines_nonneg (fs : Fs.node) (p : Fs.path) exts :
  0 <= TestGaps.count_lines fs p exts.
Proof.
  rewrite count_lines_total. apply total_nonneg. intros e.
  unfold line_weight, Py.len.
  destruct (_ && _); [destruct (Fs.read_text e) |]; lia.
Qed.

Lemma coverage_nonneg (source_lines test_lines : Z) :
  0 <= test_lines -> 0 <= TestGaps.estimated_coverage source_lines test_lines.
Proof.
  intros H. unfold TestGaps.estimated_coverage.
  destruct (Z.gtb_spec source_lines 0); [| lia].
  apply Z.div_pos; lia.
Qed.

Lemma measures_nonneg (fs : Fs.node) (crate_name : string) :
  let m := TestGaps.measure fs crate_name in
  0 <= TestGaps.pub_fn_count m /\ 0 <= TestGaps.test_fn_count m /\
  0 <= TestGaps.result_count m /\ 0 <= TestGaps.error_test_count m /\
  0 <= TestGaps.integration_tests m /\ 0 <= TestGaps.doc_tests m /\
  0 <= TestGaps.source_lines m /\ 0 <= TestGaps.test_lines m.
Proof.
  cbv zeta. unfold TestGaps.measure. cbn.
  repeat split; try apply count_in_files_nonneg; try apply count_lines_nonneg;
    destruct (Fs.exists_ _ _); try lia;
    try apply count_files_nonneg; apply count_lines_nonneg.
Qed.

(** X14. The metrics in a record of the optimization worker are the
    counts of its patterns under the module, keyed in the order they are
    measured: clones, string_allocations, potential_n_plus_one, then
    callbacks, memoized and inline_objects for a "ui" module only, then
    async_functions and awaits.  No metric is negative. *)
Theorem optimize_metrics :
  forall (w : world Optimize.record) (module_name : string),
    Fs.exists_ (project w) (Fs.under_root module_name) = true ->
    exists rec,
      results_file (snd (Optimize.analyze_module module_name w))
        = results_file w ++ [rec] /\
      (let count := Optimize.count_patterns (project w) (Fs.under_root module_name) in
       Optimize.metrics rec =
         [("clones"%string, count Optimize.clone_re);
          ("string_allocations"%string, count Optimize.string_alloc_re);
          ("potential_n_plus_one"%string, count Optimize.n_plus_one_re)]
         ++ (if Optimize.is_ui module_name
             then [("callbacks"%string, count Optimize.callbacks_re);
                   ("memoized"%string, count Optimize.memoized_re);
                   ("inline_objects"%string, count Optimize.inline_objects_re)]
             else [])
         ++ [("async_functions"%string, count Optimize.async_re);
             ("awaits"%string, count Optimize.await_re)]) /\
      Forall (fun kv => 0 <= snd kv) (Optimize.metrics rec).
Proof.
  intros w module_name He. rewrite (module_logged w module_name He).
  exists (OptimizeFacts.record_of w module_name). cbn [snd results_file].
  split; [reflexivity |]. unfold OptimizeFacts.record_of. cbn [Optimize.metrics].
  assert (Hm : snd (Optimize.inspect (project w) module_name) =
               [("clones"%string,
                 Optimize.count_patterns (project w) (Fs.under_root module_name)
                   Optimize.clone_re);
                ("string_allocations"%string,
                 Optimize.count_patterns (project w) (Fs.under_root module_name)
                   Optimize.string_alloc_re);
                ("potential_n_plus_one"%string,
                 Optimize.count_patterns (project w) (Fs.under_root module_name)
                   Optimize.n_plus_one_re)]
               ++ (if Optimize.is_ui module_name
                   then [("callbacks"%string,
                          Optimize.count_patterns (project w) (Fs.under_root module_name)
                            Optimize.callbacks_re);
                         ("memoized"%string,
                          Optimize.count_patterns (project w) (Fs.under_root module_name)
                            Optimize.memoized_re);
                         ("inline_objects"%string,
                          Optimize.count_patterns (project w) (Fs.under_root module_name)
                            Optimize.inline_objects_re)]
                   else [])
               ++ [("async_functions"%string,
                    Optimize.count_patterns (project w) (Fs.under_root module_name)
                      Optimize.async_re);
                   ("awaits"%string,
                    Optimize.count_patterns (project w) (Fs.under_root module_name)
                      Optimize.await_re)]).
  { unfold Optimize.inspect, Optimize.react_checks.
    destruct (Optimize.is_ui module_name); reflexivity. }
  split; [exact Hm |]. rewrite Hm.
  destruct (Optimize.is_ui module_name);
    repeat (constructor; [cbn [snd]; apply count_patterns_nonneg |]); constructor.
Qed.

Lemma optimize_metrics_witness :
  exists rec,
    results_file
      (snd (Optimize.analyze_module "keyrx_ui/src"
              (Samples.fresh (Samples.ui_tree Samples.inline_51) None)))
    = [rec] /\
    map fst (Optimize.metrics rec) =
      ["clones"; "string_allocations"; "potential_n_plus_one"; "callbacks"; "memoized";
       "inline_objects"; "async_functions"; "awaits"]%string /\
    Forall (fun kv => 0 <= snd kv) (Optimize.metrics rec).
Proof.
  destruct (optimize_metrics (Samples.fresh (Samples.ui_tree Samples.inline_51) None)
              "keyrx_ui/src" eq_refl) as (rec & Hres & Hm & Hpos).
  exists rec. split; [exact Hres |]. split; [| exact Hpos].
  cbv zeta in Hm. rewrite Hm. reflexivity.
Defined.

(** X15. The metrics in a record of the test-gap worker are its eight
    counts and the coverage estimate, keyed in the order they are set;
    none is negative, and neither is the estimate the record carries. *)
Theorem testgaps_metrics :
  forall (w : world TestGaps.record) (crate_name : string),
    Fs.exists_ (project w) (Fs.under_root crate_name) = true ->
    exists rec,
      results_file (snd (TestGaps.analyze_crate crate_name w))
        = results_file w ++ [rec] /\
      (let m := TestGaps.measure (project w) crate_name in
       TestGaps.metrics rec =
         [("public_functions"%string, TestGaps.pub_fn_count m);
          ("test_functions"%string, TestGaps.test_fn_count m);
          ("result_types"%string, TestGaps.result_count m);
          ("error_tests"%string, TestGaps.error_test_count m);
          ("integration_tests"%string, TestGaps.integration_tests m);
          ("doc_tests"%string, TestGaps.doc_tests m);
          ("source_lines"%string, TestGaps.source_lines m);
          ("test_lines"%string, TestGaps.test_lines m);
          ("estimated_coverage"%string, TestGaps.estimatedCoverage rec)]) /\
      Forall (fun kv => 0 <= snd kv) (TestGaps.metrics rec) /\
      0 <= TestGaps.estimatedCoverage rec.
Proof.
  intros w crate_name He. rewrite (crate_logged w crate_name He).
  exists (TestGapsFacts.record_of w crate_name). cbn [snd results_file].
  split; [reflexivity |]. unfold TestGapsFacts.record_of.
  cbn [TestGaps.metrics TestGaps.estimatedCoverage].
  destruct (measures_nonneg (project w) crate_name)
    as (H1 & H2 & H3 & H4 & H5 & H6 & H7 & H8).
  cbv zeta in *.
  pose proof (coverage_nonneg
                (TestGaps.source_lines (TestGaps.measure (project w) crate_name))
                _ H8) as Hc.
  split; [reflexivity |]. split; [| apply Hc].
  unfold TestGaps.metrics_of. cbn.
  repeat (constructor; [cbn [snd]; first [assumption | apply Hc] |]). constructor.
Qed.

Lemma testgaps_metrics_witness :
  exists rec,
    results_file
      (snd (TestGaps.analyze_crate "keyrx_core"
              (Samples.fresh
                 (Samples.crate_tree "keyrx_core" Samples.ten_pub_fns (Samples.tests 2))
                 None)))
    = [rec] /\
    map fst (TestGaps.metrics rec) =
      ["public_functions"; "test_functions"; "result_types"; "error_tests";
       "integration_tests"; "doc_tests"; "source_lines"; "test_lines";
       "estimated_coverage"]%string /\
    Forall (fun kv => 0 <= snd kv) (TestGaps.metrics rec).
Proof.
  destruct (testgaps_metrics
              (Samples.fresh
                 (Samples.crate_tree "keyrx_core" Samples.ten_pub_fns (Samples.tests 2))
                 None)
              "keyrx_core" eq_refl) as (rec & Hres & Hm & Hpos & _).
  exists rec. split; [exact Hres |]. split; [| exact Hpos].
  cbv zeta in Hm. rewrite Hm. reflexivity.
Defined.

(** ** Units with nothing to count *)

Lemma total_skipped (pattern : Re.regex) (exts : list string) (l : list Fs.entry) :
  Forall (skipped exts) l -> total (TestGaps.count_step pattern exts 0) l = 0.
Proof.
  induction 1 as [| e l He Hl IH]; [reflexivity |].
  rewrite total_cons, IH. destruct (skipped_adds_nothing pattern exts e He) as [H _].
  rewrite H. reflexivity.
Qed.

Lemma count_patterns_skipped (fs : Fs.node) (p : Fs.path) (pattern : Re.regex) :
  Forall (skipped Optimize.source_suffixes) (Fs.rglob fs p) ->
  Optimize.count_patterns fs p pattern = 0.
Proof.
  intros H. rewrite count_patterns_total.
  rewrite (total_ext _ (TestGaps.count_step pattern Optimize.source_suffixes 0));
    [apply total_skipped, H | reflexivity].
Qed.

(** X16. A module directory under which no source file can be counted
    (only directories, files with other suffixes and files that cannot be
    read) is analyzed without any suggestion: the record has an empty
    list, suggestionCount 0 and every metric 0, and the analysis still
    succeeds. *)
Theorem module_without_sources :
  forall (w : world Optimize.record) (module_name : string),
    Fs.exists_ (project w) (Fs.under_root module_name) = true ->
    Forall (skipped Optimize.source_suffixes)
           (Fs.rglob (project w) (Fs.under_root module_name)) ->
    exists rec r,
      Optimize.analyze_module module_name w =
        (Ok r, mk_world (project w) (state_file w) (results_file w ++ [rec])
                        (saves w) (now_utc w) (S (ticks w))) /\
      Optimize.success r = true /\
      Optimize.suggestions rec = [] /\
      Optimize.suggestionCount rec = 0 /\
      Forall (fun kv => snd kv = 0) (Optimize.metrics rec).
Proof.
  intros w module_name He Hs. rewrite (module_logged w module_name He).
  eexists (OptimizeFacts.record_of w module_name), _.
  split; [reflexivity |]. split; [reflexivity |].
  unfold OptimizeFacts.record_of.
  cbn [Optimize.suggestions Optimize.suggestionCount Optimize.metrics].
  assert (Hz : forall pattern,
             Optimize.count_patterns (project w) (Fs.under_root module_name) pattern = 0)
    by (intros pattern; apply count_patterns_skipped, Hs).
  unfold Optimize.inspect, Optimize.react_checks. rewrite !Hz.
  destruct (Optimize.is_ui module_name); cbn; repeat split; repeat constructor.
Qed.

Lemma module_without_sources_witness :
  exists rec r,
    Optimize.analyze_module "keyrx_core"
      (Samples.fresh
         (Samples.unit_with "keyrx_core"
            [MoreSamples.locked; MoreSamples.notes; MoreSamples.empty_dir])
         None)
    = (Ok r,
       mk_world
         (Samples.unit_with "keyrx_core"
            [MoreSamples.locked; MoreSamples.notes; MoreSamples.empty_dir])
         None ([] ++ [rec]) [] Samples.clock 1) /\
    Optimize.success r = true /\
    Optimize.suggestions rec = [] /\
    Optimize.suggestionCount rec = 0 /\
    Forall (fun kv => snd kv = 0) (Optimize.metrics rec).
Proof.
  apply (module_without_sources
           (Samples.fresh
              (Samples.unit_with "keyrx_core"
                 [MoreSamples.locked; MoreSamples.notes; MoreSamples.empty_dir])
              None)
           "keyrx_core").
  - reflexivity.
  - apply Forall_cons; [right; right; reflexivity |].
    apply Forall_cons; [right; left; reflexivity |].
    apply Forall_cons; [left; reflexivity |].
    apply Forall_nil.
Defined.

(** Whatever is found under a subdirectory is found under the directory. *)
Lemma walk_assoc (name : string) (es : list (string * Fs.node)) (x : Fs.node) :
  Fs.assoc name es = Some x ->
  forall e, In e (Fs.walk x) -> In e (Fs.walk (Fs.Dir es)).
Proof.
  induction es as [| [n y] es IH]; intros Ha e He; [discriminate |].
  cbn in Ha. cbn. destruct (String.eqb n name).
  - inversion Ha; subst. right. apply in_or_app. left. exact He.
  - right. apply in_or_app. right. apply (IH Ha e He).
Qed.

Lemma lookup_app (p q : Fs.path) : forall root,
  Fs.lookup root (p ++ q) =
    match Fs.lookup root p with
    | Some n => Fs.lookup n q
    | None => None
    end.
Proof.
  induction p as [| c p IH]; intros root; [reflexivity |].
  cbn. destruct root as [t | es]; [reflexivity |].
  destruct (Fs.assoc c es); [apply IH | reflexivity].
Qed.

Lemma rglob_child (fs : Fs.node) (p : Fs.path) (name : string) (e : Fs.entry) :
  In e (Fs.rglob fs (Fs.child p name)) -> In e (Fs.rglob fs p).
Proof.
  unfold Fs.rglob, Fs.child. rewrite lookup_app.
  destruct (Fs.lookup fs p) as [[t | es] |]; cbn [Fs.lookup]; try (intros []).
  destruct (Fs.assoc name es) as [x |] eqn:Ha; [| intros []].
  apply (walk_assoc name es x Ha).
Qed.

(** No regular file with suffix .rs among some entries. *)
Definition no_rust_file (l : list Fs.entry) : Prop :=
  Forall (fun e => Fs.is_file e && Text.mem (Fs.suffix e) [".rs"%string] = false) l.

Lemma no_rust_file_counts (fs : Fs.node) (p : Fs.path) :
  no_rust_file (Fs.rglob fs p) ->
  (forall pattern, TestGaps.count_in_files fs p pattern None = 0) /\
  TestGaps.count_files fs p None = 0 /\
  TestGaps.count_lines fs p None = 0.
Proof.
  intros H.
  assert (Hz : forall f : Fs.entry -> Z,
             (forall e, Fs.is_file e && Text.mem (Fs.suffix e) [".rs"%string] = false ->
                        f e = 0) ->
             total f (Fs.rglob fs p) = 0).
  { intros f Hf. rewrite (total_ext f (fun _ => 0)); [apply total_zero |].
    intros e He. apply Hf. unfold no_rust_file in H. rewrite Forall_forall in H.
    apply H, He. }
  split; [| split].
  - intros pattern. rewrite count_in_files_total. apply Hz. intros e He.
    unfold TestGaps.count_step. cbn [TestGaps.default_extensions]. rewrite He. reflexivity.
  - rewrite count_files_total. apply Hz. intros e He.
    unfold file_weight. cbn [TestGaps.default_extensions]. rewrite He. reflexivity.
  - rewrite count_lines_total. apply Hz. intros e He.
    unfold line_weight. cbn [TestGaps.default_extensions]. rewrite He. reflexivity.
Qed.

(** X17. A crate directory that holds no .rs file at any depth gets
    exactly two gaps, missing-integration-tests (medium) and
    missing-doc-tests (low), both reporting 0; every metric and the
    coverage estimate are 0. *)
Theorem crate_without_rust_files :
  forall (w : world TestGaps.record) (crate_name : string),
    Fs.exists_ (project w) (Fs.under_root crate_name) = true ->
    no_rust_file (Fs.rglob (project w) (Fs.under_root crate_name)) ->
    exists rec,
      results_file (snd (TestGaps.analyze_crate crate_name w))
        = results_file w ++ [rec] /\
      TestGaps.gaps rec =
        [mk_advisory "missing-integration-tests" medium None
           "Only 0 integration test files. Add more end-to-end tests.";
         mk_advisory "missing-doc-tests" low None
           "Only 0 documentation tests. Add examples to public APIs."] /\
      TestGaps.gapCount rec = 2 /\
      TestGaps.estimatedCoverage rec = 0 /\
      Forall (fun kv => snd kv = 0) (TestGaps.metrics rec).
Proof.
  intros w crate_name He Hn. rewrite (crate_logged w crate_name He).
  exists (TestGapsFacts.record_of w crate_name). cbn [snd results_file].
  split; [reflexivity |].
  assert (Hsub : forall name,
             no_rust_file (Fs.rglob (project w)
                             (Fs.child (Fs.under_root crate_name) name))).
  { intros name. unfold no_rust_file in *. rewrite Forall_forall in *.
    intros e Hin. apply Hn. apply (rglob_child _ _ name), Hin. }
  destruct (no_rust_file_counts _ _ (Hsub "src"%string)) as (Hs1 & _ & Hs3).
  destruct (no_rust_file_counts _ _ (Hsub "tests"%string)) as (Ht1 & Ht2 & Ht3).
  assert (Hm : TestGaps.measure (project w) crate_name =
               TestGaps.mk_measures 0 0 0 0 0 0 0 0).
  { unfold TestGaps.measure. rewrite !Hs1, !Ht1, Hs3, Ht2, Ht3.
    destruct (Fs.exists_ (project w) (Fs.child (Fs.under_root crate_name) "tests"));
      reflexivity. }
  unfold TestGapsFacts.record_of. rewrite Hm. cbn.
  repeat split; repeat constructor.
Qed.

Lemma crate_without_rust_files_witness :
  exists rec,
    results_file
      (snd (TestGaps.analyze_crate "keyrx_core"
              (Samples.fresh
                 (Samples.unit_with "keyrx_core" [MoreSamples.notes; MoreSamples.empty_dir])
                 None)))
    = [] ++ [rec] /\
    TestGaps.gaps rec =
      [mk_advisory "missing-integration-tests" medium None
         "Only 0 integration test files. Add more end-to-end tests.";
       mk_advisory "missing-doc-tests" low None
         "Only 0 documentation tests. Add examples to public APIs."] /\
    TestGaps.gapCount rec = 2 /\
    TestGaps.estimatedCoverage rec = 0 /\
    Forall (fun kv => snd kv = 0) (TestGaps.metrics rec).
Proof.
  apply (crate_without_rust_files
           (Samples.fresh
              (Samples.unit_with "keyrx_core" [MoreSamples.notes; MoreSamples.empty_dir])
              None)
           "keyrx_core").
  - reflexivity.
  - repeat constructor.
Defined.

Lemma rule_among_gaps (m : TestGaps.measures) :
  of_type "missing-error-tests" (TestGaps.find_gaps m) =
    TestGaps.missing_error_tests (TestGaps.result_count m) (TestGaps.error_test_count m) /\
  of_type "missing-integration-tests" (TestGaps.find_gaps m) =
    TestGaps.missing_integration_tests (TestGaps.integration_tests m) /\
  of_type "missing-doc-tests" (TestGaps.find_gaps m) =
    TestGaps.missing_doc_tests (TestGaps.doc_tests m).
Proof. unfold TestGaps.find_gaps. repeat split; by_rules. Qed.

Lemma rule_among_suggestions (fs : Fs.node) (module_name : string) :
  let count := Optimize.count_patterns fs (Fs.under_root module_name) in
  of_type "string-allocations" (fst (Optimize.inspect fs module_name)) =
    Optimize.string_allocations (count Optimize.string_alloc_re) /\
  of_type "n+1-query" (fst (Optimize.inspect fs module_name)) =
    Optimize.n_plus_one_query (count Optimize.n_plus_one_re) /\
  of_type "missing-memoization" (fst (Optimize.inspect fs module_name)) =
    (if Optimize.is_ui module_name
     then Optimize.missing_memoization (count Optimize.callbacks_re)
                                       (count Optimize.memoized_re)
     else []).
Proof.
  cbv zeta. rewrite OptimizeFacts.inspect_suggestions. repeat split; by_rules.
Qed.

(** X18. A crate without a tests directory has test_functions,
    error_tests, integration_tests and test_lines 0 and coverage estimate
    0; it always gets the missing-integration-tests gap, gets
    untested-functions as soon as it has one public function and
    missing-error-tests as soon as it uses one Result type. *)
Theorem crate_without_tests_directory :
  forall (w : world TestGaps.record) (crate_name : string),
    Fs.exists_ (project w) (Fs.under_root crate_name) = true ->
    Fs.exists_ (project w) (Fs.child (Fs.under_root crate_name) "tests") = false ->
    exists rec,
      results_file (snd (TestGaps.analyze_crate crate_name w))
        = results_file w ++ [rec] /\
      Py.dict_get (TestGaps.metrics rec) "test_functions" = Some 0 /\
      Py.dict_get (TestGaps.metrics rec) "error_tests" = Some 0 /\
      Py.dict_get (TestGaps.metrics rec) "integration_tests" = Some 0 /\
      Py.dict_get (TestGaps.metrics rec) "test_lines" = Some 0 /\
      TestGaps.estimatedCoverage rec = 0 /\
      of_type "missing-integration-tests" (TestGaps.gaps rec) =
        [mk_advisory "missing-integration-tests" medium None
           "Only 0 integration test files. Add more end-to-end tests."] /\
      (fires (of_type "untested-functions" (TestGaps.gaps rec)) <->
       TestGaps.count_in_files (project w)
         (Fs.child (Fs.under_root crate_name) "src") TestGaps.pub_fn_re None > 0) /\
      (fires (of_type "missing-error-tests" (TestGaps.gaps rec)) <->
       TestGaps.count_in_files (project w)
         (Fs.child (Fs.under_root crate_name) "src") TestGaps.result_re None > 0).
Proof.
  intros w crate_name He Ht. rewrite (crate_logged w crate_name He).
  exists (TestGapsFacts.record_of w crate_name). cbn [snd results_file].
  split; [reflexivity |].
  assert (Hnone : forall es,
             Fs.lookup (project w) (Fs.child (Fs.under_root crate_name) "tests")
             <> Some (Fs.Dir es)).
  { intros es Hl. unfold Fs.exists_ in Ht. rewrite Hl in Ht. discriminate. }
  destruct (counters_without_directory _ _ Hnone) as (_ & Hz & _).
  unfold TestGapsFacts.record_of.
  cbn [TestGaps.metrics TestGaps.estimatedCoverage TestGaps.gaps].
  destruct (rule_among_gaps (TestGaps.measure (project w) crate_name))
    as (Herr & Hint & _).
  rewrite untested_among_gaps, Herr, Hint.
  unfold TestGaps.measure. rewrite Ht, !Hz.
  cbn [TestGaps.pub_fn_count TestGaps.test_fn_count TestGaps.result_count
       TestGaps.error_test_count TestGaps.integration_tests TestGaps.source_lines
       TestGaps.test_lines].
  repeat (split; [reflexivity |]).
  split.
  { unfold TestGaps.estimated_coverage. destruct (_ >? 0); reflexivity. }
  split; [reflexivity |].
  split.
  - unfold fires, TestGaps.untested_functions. rewrite lt_quot_div by lia.
    match goal with |- context [?a >? 0] => destruct (Z.gtb_spec a 0) as [Hp | Hp] end;
      cbn [andb].
    + destruct (Z.ltb_spec (0 * 2) (TestGaps.count_in_files (project w)
                  (Fs.child (Fs.under_root crate_name) "src") TestGaps.pub_fn_re None));
        [split; [lia | discriminate] | lia].
    + split; [congruence | lia].
  - unfold fires, TestGaps.missing_error_tests. rewrite lt_quot_div by lia.
    match goal with |- context [?a >? 0] => destruct (Z.gtb_spec a 0) as [Hp | Hp] end;
      cbn [andb].
    + destruct (Z.ltb_spec (0 * 3) (TestGaps.count_in_files (project w)
                  (Fs.child (Fs.under_root crate_name) "src") TestGaps.result_re None));
        [split; [lia | discriminate] | lia].
    + split; [congruence | lia].
Qed.

Lemma crate_without_tests_directory_witness :
  exists rec,
    results_file
      (snd (TestGaps.analyze_crate "keyrx_core"
              (Samples.fresh
                 (Samples.unit_with "keyrx_core"
                    [("src"%string, Fs.Dir [MoreSamples.lib_rs])])
                 None)))
    = [rec] /\
    TestGaps.estimatedCoverage rec = 0 /\
    map type (TestGaps.gaps rec) =
      ["untested-functions"; "missing-error-tests"; "missing-integration-tests";
       "missing-doc-tests"]%string.
Proof.
  destruct (crate_without_tests_directory
              (Samples.fresh
                 (Samples.unit_with "keyrx_core"
                    [("src"%string, Fs.Dir [MoreSamples.lib_rs])])
                 None)
              "keyrx_core" eq_refl eq_refl)
    as (rec & Hres & _ & _ & _ & _ & Hcov & _).
  exists rec. split; [exact Hres |]. split; [exact Hcov |].
  cbn in Hres. inversion Hres. reflexivity.
Defined.

(** ** The other rules, on a run *)

(** X19. On every analyzed module: more than 100 string allocations give
    exactly one string-allocations suggestion, of severity low and
    carrying the count, and 100 or fewer give none; any match at all of
    the loop-and-query pattern gives exactly one n+1-query suggestion, of
    severity high and carrying the count, and no match gives none. *)
Theorem string_and_query_rules :
  forall (w : world Optimize.record) (module_name : string),
    Fs.exists_ (project w) (Fs.under_root module_name) = true ->
    exists rec,
      results_file (snd (Optimize.analyze_module module_name w))
        = results_file w ++ [rec] /\
      (forall n,
          n = Optimize.count_patterns (project w) (Fs.under_root module_name)
                Optimize.string_alloc_re ->
          (n > 100 ->
           exists a, of_type "string-allocations" (Optimize.suggestions rec) = [a] /\
                     severity a = low /\ count a = Some n) /\
          (n <= 100 -> of_type "string-allocations" (Optimize.suggestions rec) = [])) /\
      (forall k,
          k = Optimize.count_patterns (project w) (Fs.under_root module_name)
                Optimize.n_plus_one_re ->
          (k <> 0 ->
           exists a, of_type "n+1-query" (Optimize.suggestions rec) = [a] /\
                     severity a = high /\ count a = Some k) /\
          (k = 0 -> of_type "n+1-query" (Optimize.suggestions rec) = [])).
Proof.
  intros w module_name He. rewrite (module_logged w module_name He).
  exists (OptimizeFacts.record_of w module_name). cbn [snd results_file].
  split; [reflexivity |]. unfold OptimizeFacts.record_of. cbn [Optimize.suggestions].
  destruct (rule_among_suggestions (project w) module_name) as (Hs & Hq & _).
  cbv zeta in Hs, Hq. rewrite Hs, Hq. split.
  - intros n Hn. rewrite <- Hn. unfold Optimize.string_allocations.
    destruct (Z.gtb_spec n 100); split; intros Hc; try lia; [| reflexivity].
    eexists. split; [reflexivity |]. auto.
  - intros k Hk. rewrite <- Hk.
    pose proof (count_patterns_nonneg (project w) (Fs.under_root module_name)
                  Optimize.n_plus_one_re) as Hpos. rewrite <- Hk in Hpos.
    unfold Optimize.n_plus_one_query.
    destruct (Z.gtb_spec k 0); split; intros Hc; try lia; [| reflexivity].
    eexists. split; [reflexivity |]. auto.
Qed.

Lemma string_and_query_rules_witness :
  exists rec a,
    results_file
      (snd (Optimize.analyze_module "keyrx_core"
              (Samples.fresh
                 (Samples.one_file "keyrx_core" "db.rs"
                    "for row in rows { conn.execute(row) }")
                 None)))
    = [rec] /\
    of_type "n+1-query" (Optimize.suggestions rec) = [a] /\
    severity a = high /\ count a = Some 1 /\
    of_type "string-allocations" (Optimize.suggestions rec) = [].
Proof.
  destruct (string_and_query_rules
              (Samples.fresh
                 (Samples.one_file "keyrx_core" "db.rs"
                    "for row in rows { conn.execute(row) }")
                 None)
              "keyrx_core" eq_refl) as (rec & Hres & Hs & Hq).
  destruct (Hq 1) as (Hyes & _); [vm_compute; reflexivity |].
  destruct (Hyes ltac:(lia)) as (a & Ha & Hsev & Hc).
  destruct (Hs 0) as (_ & Hno); [vm_compute; reflexivity |].
  exists rec, a. repeat split; try assumption. apply Hno. lia.
Defined.

(** X20. On an analyzed module whose name contains "ui", the
    missing-memoization suggestion is given exactly when there are more
    than 20 callback-like declarations and fewer memoized calls than a
    quarter of them (4 * memoized < callbacks); it is of severity medium
    and carries no count.  Other modules never get it. *)
Theorem missing_memoization_rule :
  forall (w : world Optimize.record) (module_name : string),
    Fs.exists_ (project w) (Fs.under_root module_name) = true ->
    exists rec,
      results_file (snd (Optimize.analyze_module module_name w))
        = results_file w ++ [rec] /\
      (Optimize.is_ui module_name = false ->
       of_type "missing-memoization" (Optimize.suggestions rec) = []) /\
      (Optimize.is_ui module_name = true ->
       forall callbacks memoized,
         callbacks = Optimize.count_patterns (project w) (Fs.under_root module_name)
                       Optimize.callbacks_re ->
         memoized = Optimize.count_patterns (project w) (Fs.under_root module_name)
                      Optimize.memoized_re ->
         (callbacks > 20 /\ 4 * memoized < callbacks ->
          exists a, of_type "missing-memoization" (Optimize.suggestions rec) = [a] /\
                    severity a = medium /\ count a = None) /\
         (~ (callbacks > 20 /\ 4 * memoized < callbacks) ->
          of_type "missing-memoization" (Optimize.suggestions rec) = [])).
Proof.
  intros w module_name He. rewrite (module_logged w module_name He).
  exists (OptimizeFacts.record_of w module_name). cbn [snd results_file].
  split; [reflexivity |]. unfold OptimizeFacts.record_of. cbn [Optimize.suggestions].
  destruct (rule_among_suggestions (project w) module_name) as (_ & _ & Hm).
  cbv zeta in Hm. rewrite Hm. split; intros Hui; rewrite Hui; [reflexivity |].
  intros callbacks memoized Hc Hmm. rewrite <- Hc, <- Hmm.
  unfold Optimize.missing_memoization. rewrite lt_quot_div by lia.
  destruct (Z.gtb_spec callbacks 20); destruct (Z.ltb_spec (memoized * 4) callbacks);
    cbn [andb]; split; intros ?; try lia; try reflexivity;
    try (eexists; split; [reflexivity |]; auto).
Qed.

Lemma missing_memoization_rule_witness :
  exists rec a,
    results_file
      (snd (Optimize.analyze_module "keyrx_ui/src"
              (Samples.fresh
                 (Samples.ui_tree (Text.repeat_str "function f() {} " 21)) None)))
    = [rec] /\
    of_type "missing-memoization" (Optimize.suggestions rec) = [a] /\
    severity a = medium /\ count a = None.
Proof.
  destruct (missing_memoization_rule
              (Samples.fresh
                 (Samples.ui_tree (Text.repeat_str "function f() {} " 21)) None)
              "keyrx_ui/src" eq_refl) as (rec & Hres & _ & Hui).
  destruct (Hui eq_refl 21 0) as (Hyes & _); try (vm_compute; reflexivity).
  destruct (Hyes ltac:(lia)) as (a & Ha & Hs & Hc).
  exists rec, a. auto.
Defined.

(** X21. On every analyzed module the sequential-awaits suggestion is
    given exactly when there are more than 10 async functions and more
    than five awaits per async function; it is of severity medium and
    carries no count. *)
Theorem sequential_awaits_rule :
  forall (w : world Optimize.record) (module_name : string),
    Fs.exists_ (project w) (Fs.under_root module_name) = true ->
    exists rec,
      results_file (snd (Optimize.analyze_module module_name w))
        = results_file w ++ [rec] /\
      forall async_count await_count,
        async_count = Optimize.count_patterns (project w) (Fs.under_root module_name)
                        Optimize.async_re ->
        await_count = Optimize.count_patterns (project w) (Fs.under_root module_name)
                        Optimize.await_re ->
        (async_count > 10 /\ await_count > 5 * async_count ->
         exists a, of_type "sequential-awaits" (Optimize.suggestions rec) = [a] /\
                   severity a = medium /\ count a = None) /\
        (~ (async_count > 10 /\ await_count > 5 * async_count) ->
         of_type "sequential-awaits" (Optimize.suggestions rec) = []).
Proof.
  intros w module_name He. rewrite (module_logged w module_name He).
  exists (OptimizeFacts.record_of w module_name). cbn [snd results_file].
  split; [reflexivity |]. unfold OptimizeFacts.record_of. cbn [Optimize.suggestions].
  rewrite awaits_among_suggestions.
  intros async_count await_count Ha Hw. rewrite <- Ha, <- Hw.
  unfold Optimize.sequential_awaits.
  destruct (Z.gtb_spec async_count 10);
    destruct (Z.gtb_spec await_count (async_count * 5));
    cbn [andb]; split; intros ?; try lia; try reflexivity;
    try (eexists; split; [reflexivity |]; auto).
Qed.

Lemma sequential_awaits_rule_witness :
  exists rec a,
    results_file
      (snd (Optimize.analyze_module "keyrx_core"
              (Samples.fresh
                 (Samples.one_file "keyrx_core" "lib.rs" (Samples.async_text 11)) None)))
    = [rec] /\
    of_type "sequential-awaits" (Optimize.suggestions rec) = [a] /\
    severity a = medium /\ count a = None.
Proof.
  destruct (sequential_awaits_rule
              (Samples.fresh
                 (Samples.one_file "keyrx_core" "lib.rs" (Samples.async_text 11)) None)
              "keyrx_core" eq_refl) as (rec & Hres & Hrule).
  destruct (Hrule 11 56) as (Hyes & _); try (vm_compute; reflexivity).
  destruct (Hyes ltac:(lia)) as (a & Ha & Hs & Hc).
  exists rec, a. auto.
Defined.

(** X22. On every analyzed crate the missing-error-tests gap is given
    exactly when the crate uses a Result type and has fewer error tests
    than a third of those uses (3 * error tests < Result uses); it is of
    severity high. *)
Theorem missing_error_tests_rule :
  forall (w : world TestGaps.record) (crate_name : string),
    Fs.exists_ (project w) (Fs.under_root crate_name) = true ->
    exists rec,
      results_file (snd (TestGaps.analyze_crate crate_name w))
        = results_file w ++ [rec] /\
      forall result_count error_test_count,
        result_count = TestGaps.count_in_files (project w)
                         (Fs.child (Fs.under_root crate_name) "src")
                         TestGaps.result_re None ->
        error_test_count = TestGaps.count_in_files (project w)
                             (Fs.child (Fs.under_root crate_name) "tests")
                             TestGaps.error_test_re None ->
        (result_count > 0 /\ 3 * error_test_count < result_count ->
         exists a, of_type "missing-error-tests" (TestGaps.gaps rec) = [a] /\
                   severity a = high /\ count a = None) /\
        (~ (result_count > 0 /\ 3 * error_test_count < result_count) ->
         of_type "missing-error-tests" (TestGaps.gaps rec) = []).
Proof.
  intros w crate_name He. rewrite (crate_logged w crate_name He).
  exists (TestGapsFacts.record_of w crate_name). cbn [snd results_file].
  split; [reflexivity |]. unfold TestGapsFacts.record_of. cbn [TestGaps.gaps].
  destruct (rule_among_gaps (TestGaps.measure (project w) crate_name)) as (Herr & _).
  rewrite Herr. unfold TestGaps.measure.
  cbn [TestGaps.result_count TestGaps.error_test_count].
  intros result_count error_test_count Hr Ht. rewrite <- Hr, <- Ht.
  unfold TestGaps.missing_error_tests. rewrite lt_quot_div by lia.
  destruct (Z.gtb_spec result_count 0);
    destruct (Z.ltb_spec (error_test_count * 3) result_count);
    cbn [andb]; split; intros ?; try lia; try reflexivity;
    try (eexists; split; [reflexivity |]; auto).
Qed.

Lemma missing_error_tests_rule_witness :
  exists rec a,
    results_file
      (snd (TestGaps.analyze_crate "keyrx_core"
              (Samples.fresh
                 (Samples.crate_tree "keyrx_core"
                    "fn a() -> Result<u8, E> {} fn b() -> Result<u8, E> {}"
                    "#[test] fn t() {}")
                 None)))
    = [rec] /\
    of_type "missing-error-tests" (TestGaps.gaps rec) = [a] /\
    severity a = high /\ count a = None.
Proof.
  destruct (missing_error_tests_rule
              (Samples.fresh
                 (Samples.crate_tree "keyrx_core"
                    "fn a() -> Result<u8, E> {} fn b() -> Result<u8, E> {}"
                    "#[test] fn t() {}")
                 None)
              "keyrx_core" eq_refl) as (rec & Hres & Hrule).
  destruct (Hrule 2 0) as (Hyes & _); try (vm_compute; reflexivity).
  destruct (Hyes ltac:(lia)) as (a & Ha & Hs & Hc).
  exists rec, a. auto.
Defined.

(** X23. On every analyzed crate the missing-integration-tests gap, of
    severity medium, is given exactly when fewer than 3 .rs files lie
    under tests (none when tests does not exist), and the
    missing-doc-tests gap, of severity low, exactly when src holds fewer
    than 5 rust code fences. *)
Theorem integration_and_doc_test_rules :
  forall (w : world TestGaps.record) (crate_name : string),
    Fs.exists_ (project w) (Fs.under_root crate_name) = true ->
    exists rec,
      results_file (snd (TestGaps.analyze_crate crate_name w))
        = results_file w ++ [rec] /\
      (forall integration_tests,
          integration_tests =
            (if Fs.exists_ (project w) (Fs.child (Fs.under_root crate_name) "tests")
             then TestGaps.count_files (project w)
                    (Fs.child (Fs.under_root crate_name) "tests") None
             else 0) ->
          (integration_tests < 3 ->
           exists a, of_type "missing-integration-tests" (TestGaps.gaps rec) = [a] /\
                     severity a = medium /\ count a = None) /\
          (integration_tests >= 3 ->
           of_type "missing-integration-tests" (TestGaps.gaps rec) = [])) /\
      (forall doc_tests,
          doc_tests = TestGaps.count_in_files (project w)
                        (Fs.child (Fs.under_root crate_name) "src")
                        TestGaps.doc_test_re None ->
          (doc_tests < 5 ->
           exists a, of_type "missing-doc-tests" (TestGaps.gaps rec) = [a] /\
                     severity a = low /\ count a = None) /\
          (doc_tests >= 5 -> of_type "missing-doc-tests" (TestGaps.gaps rec) = [])).
Proof.
  intros w crate_name He. rewrite (crate_logged w crate_name He).
  exists (TestGapsFacts.record_of w crate_name). cbn [snd results_file].
  split; [reflexivity |]. unfold TestGapsFacts.record_of. cbn [TestGaps.gaps].
  destruct (rule_among_gaps (TestGaps.measure (project w) crate_name))
    as (_ & Hint & Hdoc).
  rewrite Hint, Hdoc. unfold TestGaps.measure.
  cbn [TestGaps.integration_tests TestGaps.doc_tests]. split.
  - intros n Hn. rewrite <- Hn. unfold TestGaps.missing_integration_tests.
    destruct (Z.ltb_spec n 3); split; intros ?; try lia; try reflexivity.
    eexists. split; [reflexivity |]. auto.
  - intros n Hn. rewrite <- Hn. unfold TestGaps.missing_doc_tests.
    destruct (Z.ltb_spec n 5); split; intros ?; try lia; try reflexivity.
    eexists. split; [reflexivity |]. auto.
Qed.

Lemma integration_and_doc_test_rules_witness :
  exists rec a b,
    results_file
      (snd (TestGaps.analyze_crate "keyrx_core"
              (Samples.fresh
                 (Samples.crate_tree "keyrx_core" Samples.ten_pub_fns (Samples.tests 2))
                 None)))
    = [rec] /\
    of_type "missing-integration-tests" (TestGaps.gaps rec) = [a] /\
    severity a = medium /\
    of_type "missing-doc-tests" (TestGaps.gaps rec) = [b] /\
    severity b = low.
Proof.
  destruct (integration_and_doc_test_rules
              (Samples.fresh
                 (Samples.crate_tree "keyrx_core" Samples.ten_pub_fns (Samples.tests 2))
                 None)
              "keyrx_core" eq_refl) as (rec & Hres & Hint & Hdoc).
  destruct (Hint 1) as (Hyes & _); [vm_compute; reflexivity |].
  destruct (Hyes ltac:(lia)) as (a & Ha & Hsa & _).
  destruct (Hdoc 0) as (Hyes' & _); [vm_compute; reflexivity |].
  destruct (Hyes' ltac:(lia)) as (b & Hb & Hsb & _).
  exists rec, a, b. auto.
Defined.

(** ** The coverage estimate *)

(** X24. For a positive number of source lines and no negative number of
    test lines, the coverage estimate is not negative, grows with the test
    lines and shrinks as the source lines grow; it is not capped: it is at
    least 100 exactly when there are at least as many test lines as source
    lines, and it is 0 exactly when the test lines are fewer than a
    hundredth of the source lines. *)
Theorem coverage_estimate_shape :
  forall source_lines test_lines : Z,
    source_lines > 0 ->
    0 <= test_lines ->
    0 <= TestGaps.estimated_coverage source_lines test_lines /\
    (forall more, test_lines <= more ->
       TestGaps.estimated_coverage source_lines test_lines
         <= TestGaps.estimated_coverage source_lines more) /\
    (forall more, source_lines <= more ->
       TestGaps.estimated_coverage more test_lines
         <= TestGaps.estimated_coverage source_lines test_lines) /\
    (TestGaps.estimated_coverage source_lines test_lines >= 100
       <-> test_lines >= source_lines) /\
    (TestGaps.estimated_coverage source_lines test_lines = 0
       <-> test_lines * 100 < source_lines).
Proof.
  intros s t Hs Ht.
  assert (Hdef : forall s' t', s' > 0 ->
             TestGaps.estimated_coverage s' t' = t' * 100 / s').
  { intros s' t' H. unfold TestGaps.estimated_coverage.
    destruct (Z.gtb_spec s' 0); [reflexivity | lia]. }
  split; [apply coverage_nonneg, Ht |]. split; [| split; [| split]].
  - intros more Hm. rewrite !Hdef by lia. apply Z.div_le_mono; lia.
  - intros more Hm. rewrite !Hdef by lia. apply Z.div_le_compat_l; lia.
  - rewrite Hdef by lia. split; intros H.
    + destruct (Z_lt_ge_dec t s) as [Hlt | Hge]; [| exact Hge].
      assert (t * 100 / s < 100) by (apply Z.div_lt_upper_bound; lia). lia.
    + assert (100 <= t * 100 / s) by (apply Z.div_le_lower_bound; lia). lia.
  - rewrite Hdef by lia. split; intros H.
    + destruct (Z_lt_ge_dec (t * 100) s) as [Hlt | Hge]; [exact Hlt |].
      assert (1 <= t * 100 / s) by (apply Z.div_le_lower_bound; lia). lia.
    + apply Z.div_small. lia.
Qed.

Lemma coverage_estimate_shape_witness :
  0 <= TestGaps.estimated_coverage 40 100 /\
  (TestGaps.estimated_coverage 40 100 >= 100 <-> 100 >= 40) /\
  TestGaps.estimated_coverage 40 100 = 250.
Proof.
  destruct (coverage_estimate_shape 40 100 ltac:(lia) ltac:(lia))
    as (Hpos & _ & _ & Hcap & _).
  split; [exact Hpos |]. split; [exact Hcap | reflexivity].
Defined.
